(** * S3 control-plane consistency probes: a shallow embedding

    The polling strategies of [waiter_strategies/] and the two control-plane
    measurement scripts, embedded as Rocq functions.

    Conventions.
    - Clock readings, durations and intervals (Python floats holding seconds)
      are exact rationals [Q].  Only [statistics.stdev] leaves the rationals;
      it is taken in the reals [R].
    - The remote store, the clock and the random generator are an explicit
      environment [Env]; an iteration threads a machine state [St] through
      the monad [M].
    - [while True] loops take a fuel argument; running out of fuel is the
      outcome [Diverge], distinct from returning and from raising.
    - [print] calls have no effect on any result and are left out. *)

From Stdlib Require Import String Ascii Bool Arith ZArith Lia.
From Stdlib Require Import QArith Qround Qminmax Qreals Reals Psatz DecimalString List.
From Stdlib Require Import FunctionalExtensionality.
Import ListNotations.

Local Open Scope Q_scope.

(** ** Rational helpers *)

Definition Qlt_bool (x y : Q) : bool := negb (Qle_bool y x).

(** ** The strategy interface

    [BaseWaiterStrategy] declares two abstract methods; a concrete strategy
    supplies them, and may carry the attributes [timeout_seconds] and
    [max_timeout] which [_display_coverage_analysis] reads with [getattr]. *)

Record WaiterStrategy : Type := mkStrategy {
  strategy_name : string;
  calculate_next_interval : Q -> nat -> Q;
  should_timeout : Q -> nat -> bool;
  timeout_seconds : option Q;
  max_timeout : option Q
}.

(** *** strategy_baseline.py *)
Module BaselineStrategy.
Definition polling_interval : Q := 3.
Definition timeout_seconds : Q := 180.

Definition calculate_next_interval (elapsed_time : Q) (check_count : nat) : Q :=
  polling_interval.

Definition should_timeout (elapsed_time : Q) (check_count : nat) : bool :=
  Qle_bool timeout_seconds elapsed_time.

Definition strategy : WaiterStrategy :=
  mkStrategy "Baseline-3s-180s" calculate_next_interval should_timeout
             (Some timeout_seconds) None.
End BaselineStrategy.

(** *** strategy_extended.py *)
Module ExtendedTimeoutStrategy.
Definition polling_interval : Q := 3.
Definition timeout_seconds : Q := 600.

Definition calculate_next_interval (elapsed_time : Q) (check_count : nat) : Q :=
  polling_interval.

Definition should_timeout (elapsed_time : Q) (check_count : nat) : bool :=
  Qle_bool timeout_seconds elapsed_time.

Definition strategy : WaiterStrategy :=
  mkStrategy "Extended-3s-600s" calculate_next_interval should_timeout
             (Some timeout_seconds) None.
End ExtendedTimeoutStrategy.

(** *** strategy_hybrid.py *)
Module HybridStrategy.
Definition timeout_seconds : Q := 600.

Definition calculate_next_interval (elapsed_time : Q) (check_count : nat) : Q :=
  if Qlt_bool elapsed_time 30 then 2
  else if Qlt_bool elapsed_time 60 then 4
  else if Qlt_bool elapsed_time 120 then 8
  else 15.

Definition should_timeout (elapsed_time : Q) (check_count : nat) : bool :=
  Qle_bool timeout_seconds elapsed_time.

Definition strategy : WaiterStrategy :=
  mkStrategy "Hybrid-Dense-Sparse" calculate_next_interval should_timeout
             (Some timeout_seconds) None.
End HybridStrategy.

(** *** strategy_adaptive.py

    The instance attribute [historical_times] is the only mutable part; the
    two policy methods read it, so they take it as an argument. *)
Module AdaptiveStrategy.
Definition min_timeout : Q := 300.
Definition max_timeout : Q := 600.
Definition history_size : nat := 20.

Definition calculate_next_interval (elapsed_time : Q) (check_count : nat) : Q :=
  if Qlt_bool elapsed_time 30 then 2
  else if Qlt_bool elapsed_time 60 then 4
  else if Qlt_bool elapsed_time 120 then 8
  else if Qlt_bool elapsed_time 180 then 10
  else 15.

(** [statistics.mean] and the sample variance behind [statistics.stdev]
    (denominator [n - 1]).  Python raises [StatisticsError] on too few
    points; [should_timeout] only calls them with at least three. *)
Definition Qsum (xs : list Q) : Q := fold_right Qplus 0 xs.

Definition mean (xs : list Q) : Q :=
  Qsum xs / inject_Z (Z.of_nat (length xs)).

Definition variance (xs : list Q) : Q :=
  Qsum (map (fun x => (x - mean xs) * (x - mean xs)) xs)
  / inject_Z (Z.of_nat (length xs) - 1).

Definition stdev (xs : list Q) : R := sqrt (Q2R (variance xs)).

(** The local variable [timeout] of [should_timeout]. *)
Definition timeout (historical_times : list Q) : R :=
  if (length historical_times <? 3)%nat then Q2R min_timeout
  else
    let t := (Q2R (mean historical_times) + 3 * stdev historical_times)%R in
    Rmax (Q2R min_timeout) (Rmin t (Q2R max_timeout)).

Definition should_timeout (historical_times : list Q)
           (elapsed_time : Q) (check_count : nat) : bool :=
  if Rge_dec (Q2R elapsed_time) (timeout historical_times) then true else false.

Definition strategy (historical_times : list Q) : WaiterStrategy :=
  mkStrategy "Adaptive-Learning-v2" calculate_next_interval
             (should_timeout historical_times) None (Some max_timeout).
End AdaptiveStrategy.

(** ** Exceptions, the remote store and the machine state *)

Inductive PyExn : Type :=
| ClientError (code message : string)
| KeyError (key : string)
| AttributeError (name : string)
| OtherException (message : string).

(** [str(e)] *)
Definition str (e : PyExn) : string :=
  match e with
  | ClientError _ m => m
  | KeyError k => k
  | AttributeError n => n
  | OtherException m => m
  end.

(** A lifecycle rule as the scripts build and compare it.  A field is [None]
    when the dict has no such key ([dict.get] then yields Python's [None]). *)
Record Rule : Type := mkRule {
  rule_ID : option string;
  rule_Status : option string;
  rule_Prefix : option string;
  rule_Days : option Z
}.

(** A configuration [{'Rules': [...]}] is the list under its one key. *)
Definition LifecycleConfiguration : Type := list Rule.

(** What one [get_bucket_lifecycle_configuration] call does: it answers with
    a response dict, whose key ['Rules'] may be missing, or it raises. *)
Inductive GetOutcome : Type :=
| GetOk (Rules : option (list Rule))
| GetRaises (e : PyExn).

Inductive PutOutcome : Type :=
| PutAck
| PutRaises (e : PyExn).

(** The environment of a run: what the [n]-th PUT and GET do and how long they
    take, by how much the [n]-th [time.sleep] oversleeps, and the [n]-th value
    of [random.random()]. *)
Record Env : Type := mkEnv {
  put_outcome : nat -> PutOutcome;
  put_latency : nat -> Q;
  get_outcome : nat -> GetOutcome;
  get_latency : nat -> Q;
  sleep_lag : nat -> Q;
  random_draw : nat -> Q
}.

(** The machine state: the clock, how many calls of each kind were made, and
    the two instance attributes of [SimulatedBaseWaiterStrategy], [None] while
    [hasattr] is false. *)
Record St : Type := mkSt {
  now : Q;
  puts : nat;
  gets : nat;
  sleeps : nat;
  draws : nat;
  _simulated_delay : option Q;
  _propagation_start : option Q
}.

Inductive Outcome (A : Type) : Type :=
| Returned (a : A) (s : St)
| Raised (e : PyExn) (s : St)
| Diverge.
Arguments Returned {A} a s.
Arguments Raised {A} e s.
Arguments Diverge {A}.

Definition M (A : Type) : Type := Env -> St -> Outcome A.

Definition ret {A} (a : A) : M A := fun _ s => Returned a s.

Definition bind {A B} (c : M A) (k : A -> M B) : M B :=
  fun env s =>
    match c env s with
    | Returned a s' => k a env s'
    | Raised e s' => Raised e s'
    | Diverge => Diverge
    end.

Definition raise {A} (e : PyExn) : M A := fun _ s => Raised e s.

Definition diverge {A} : M A := fun _ _ => Diverge.

(** [try: c except Exception as e: h e] *)
Definition try_except {A} (c : M A) (h : PyExn -> M A) : M A :=
  fun env s =>
    match c env s with
    | Returned a s' => Returned a s'
    | Raised e s' => h e env s'
    | Diverge => Diverge
    end.

Declare Scope monad_scope.
Delimit Scope monad_scope with monad.
Notation "x <- c ;; k" := (bind c (fun x => k))
  (at level 61, c at next level, right associativity) : monad_scope.
Notation "c ;;; k" := (bind c (fun _ => k))
  (at level 61, right associativity) : monad_scope.
Notation "c >>= k" := (bind c k)
  (at level 50, left associativity) : monad_scope.
Local Open Scope monad_scope.

(** The machine state after [time.sleep(d)], after a PUT and after a GET. *)
Definition after_sleep (env : Env) (s : St) (d : Q) : St :=
  mkSt (now s + d + sleep_lag env (sleeps s)) (puts s) (gets s)
       (S (sleeps s)) (draws s) (_simulated_delay s) (_propagation_start s).

Definition after_put (env : Env) (s : St) : St :=
  mkSt (now s + put_latency env (puts s)) (S (puts s)) (gets s)
       (sleeps s) (draws s) (_simulated_delay s) (_propagation_start s).

Definition after_get (env : Env) (s : St) : St :=
  mkSt (now s + get_latency env (gets s)) (puts s) (S (gets s))
       (sleeps s) (draws s) (_simulated_delay s) (_propagation_start s).

(** [time.time()], [time.perf_counter()].  The clock moves only in
    [time.sleep] and in the remote calls: local computation and printing
    take no time. *)
Definition time_time : M Q := fun _ s => Returned (now s) s.

(** [datetime.now()]: the same clock. *)
Definition datetime_now : M Q := time_time.

(** [time.sleep(d)] *)
Definition time_sleep (d : Q) : M unit :=
  fun env s => Returned tt (after_sleep env s d).

(** [random.random()] *)
Definition random_random : M Q :=
  fun env s =>
    Returned (random_draw env (draws s))
      (mkSt (now s) (puts s) (gets s) (sleeps s) (S (draws s))
            (_simulated_delay s) (_propagation_start s)).

(** [random.uniform(a, b)] is [a + (b - a) * random.random()]. *)
Definition random_uniform (a b : Q) : M Q :=
  (u <- random_random ;; ret (a + (b - a) * u)).

(** [put_bucket_lifecycle_configuration] *)
Definition put_bucket_lifecycle_configuration
           (config : LifecycleConfiguration) : M unit :=
  fun env s =>
    match put_outcome env (puts s) with
    | PutAck => Returned tt (after_put env s)
    | PutRaises e => Raised e (after_put env s)
    end.

(** [get_bucket_lifecycle_configuration] *)
Definition get_bucket_lifecycle_configuration : M (option (list Rule)) :=
  fun env s =>
    match get_outcome env (gets s) with
    | GetOk r => Returned r (after_get env s)
    | GetRaises e => Raised e (after_get env s)
    end.

(** ** waiter_strategies/base_waiter.py *)

(** One entry of [polling_history]. *)
Record PollingAttempt : Type := mkAttempt {
  attempt : nat;
  elapsed_at_check : Q;
  get_duration : Q;
  matched : bool
}.

(** The dict returned by [run_single_test].  The keys [test_id], [success]
    and [timestamp] are always present; any other key is [None] when the
    dict does not have it. *)
Record TestResult : Type := mkResult {
  test_id : nat;
  success : bool;
  error : option string;
  put_duration : option Q;
  propagation_time : option Q;
  check_count : option nat;
  api_calls : option nat;
  polling_history : option (list PollingAttempt);
  timestamp : Q
}.

Definition str_nat (n : nat) : string := NilZero.string_of_uint (Nat.to_uint n).

Definition generate_lifecycle_config (name : string) (test_id : nat)
  : LifecycleConfiguration :=
  [ mkRule (Some (name ++ "-rule-" ++ str_nat test_id)%string)
           (Some "Enabled"%string)
           (Some (name ++ "-" ++ str_nat test_id ++ "/")%string)
           (Some 7%Z) ].

(** [a != b] on the results of [dict.get]. *)
Definition get_neq (a b : option string) : bool :=
  match a, b with
  | Some x, Some y => negb (String.eqb x y)
  | None, None => false
  | _, _ => true
  end.

(** The [for current, expected in zip(...)] loop of
    [check_configuration_match]. *)
Fixpoint rules_match (current_rules expected_rules : list Rule) : bool :=
  match current_rules, expected_rules with
  | current :: cs, expected :: es =>
      if get_neq (rule_ID current) (rule_ID expected) then false
      else if get_neq (rule_Status current) (rule_Status expected) then false
      else rules_match cs es
  | _, _ => true
  end.

Definition compare_rules (current_rules expected_rules : list Rule) : bool :=
  if negb (length current_rules =? length expected_rules)%nat then false
  else rules_match current_rules expected_rules.

Module BaseWaiterStrategy.

(** The exception classes [self.s3_client.exceptions] offers: botocore
    builds one for each error shape of the S3 service model, beside
    [ClientError] itself.  [NoSuchLifecycleConfiguration] is an error code
    of the service but no shape of the model, so there is no class of that
    name; a GET that fails with this code raises a plain [ClientError]. *)
Definition s3_exception_classes : list string :=
  [ "ClientError"; "BucketAlreadyExists"; "BucketAlreadyOwnedByYou";
    "InvalidObjectState"; "NoSuchBucket"; "NoSuchKey"; "NoSuchUpload";
    "ObjectAlreadyInActiveTierError"; "ObjectNotInActiveTierError" ]%string.

(** [self.s3_client.exceptions.<name>]: the class of that name; the lookup
    of a name that is no class raises [AttributeError]. *)
Definition client_exception (name : string) : M string :=
  if existsb (String.eqb name) s3_exception_classes then ret name
  else raise (AttributeError name).

(** Whether the handler [except cls] matches the exception [e]. *)
Definition handler_matches (cls : string) (e : PyExn) : bool :=
  match e with
  | ClientError code _ => String.eqb cls "ClientError" || String.eqb cls code
  | _ => false
  end.

(** The handlers of the [try] statement are tried in order once the body
    has raised.  The first one is
    [except self.s3_client.exceptions.NoSuchLifecycleConfiguration]: its
    expression is evaluated first, and an exception raised by that lookup
    leaves the statement, past [except Exception].  Both handlers return
    [False]; the second also prints the error. *)
Definition check_configuration_match (expected_config : LifecycleConfiguration)
  : M bool :=
  try_except
    (response <- get_bucket_lifecycle_configuration ;;
     let current_rules := match response with Some rs => rs | None => [] end in
     ret (compare_rules current_rules expected_config))
    (fun e =>
       cls <- client_exception "NoSuchLifecycleConfiguration" ;;
       if handler_matches cls e then ret false
       else ret false).

(** The [while True] loop of [run_single_test].  [check] is
    [self.check_configuration_match], resolved on the instance. *)
Fixpoint polling_loop (fuel : nat) (strategy : WaiterStrategy)
         (check : LifecycleConfiguration -> M bool)
         (test_id : nat) (config : LifecycleConfiguration)
         (put_duration propagation_start : Q)
         (check_count api_calls : nat)
         (polling_history : list PollingAttempt) : M TestResult :=
  match fuel with
  | O => diverge
  | S fuel' =>
      t <- time_time ;;
      let elapsed := t - propagation_start in
      if should_timeout strategy elapsed check_count then
        ts <- datetime_now ;;
        ret (mkResult test_id false (Some "Timeout"%string)
                      (Some put_duration) (Some elapsed) (Some check_count)
                      (Some api_calls) (Some polling_history) ts)
      else
        let interval := calculate_next_interval strategy elapsed check_count in
        time_sleep interval ;;;
        let check_count := S check_count in
        let api_calls := S api_calls in
        get_start <- time_time ;;
        match_ <- check config ;;
        get_end <- time_time ;;
        let get_duration := get_end - get_start in
        t_rec <- time_time ;;
        let polling_history :=
          polling_history ++
            [mkAttempt check_count (t_rec - propagation_start)
                       get_duration match_] in
        if match_ then
          t_end <- time_time ;;
          let total_time := t_end - propagation_start in
          ts <- datetime_now ;;
          ret (mkResult test_id true None (Some put_duration)
                        (Some total_time) (Some check_count) (Some api_calls)
                        (Some polling_history) ts)
        else
          polling_loop fuel' strategy check test_id config put_duration
                       propagation_start check_count api_calls polling_history
  end.

Definition run_single_test (fuel : nat) (strategy : WaiterStrategy)
           (check : LifecycleConfiguration -> M bool) (test_id : nat)
  : M TestResult :=
  let config := generate_lifecycle_config (strategy_name strategy) test_id in
  put_start <- time_time ;;
  try_except
    (put_bucket_lifecycle_configuration config ;;;
     put_end <- time_time ;;
     ret (inr (put_end - put_start)))
    (fun e =>
       ts <- datetime_now ;;
       ret (inl (mkResult test_id false
                          (Some ("PUT failed: " ++ str e)%string)
                          None None None None None ts)))
  >>= fun put =>
  match put with
  | inl failed => ret failed
  | inr put_duration =>
      propagation_start <- time_time ;;
      polling_loop fuel strategy check test_id config put_duration
                   propagation_start 0 1 []
  end.

End BaseWaiterStrategy.

(** ** waiter_strategies/simulated_waiter.py *)

Module SimulatedBaseWaiterStrategy.

(** The class attribute [delay_distribution], in insertion order. *)
Definition delay_distribution : list (string * Q) :=
  [ ("P50"%string, 48); ("P75"%string, 82); ("P85"%string, 120);
    ("P90"%string, 142); ("P95"%string, 156); ("P99"%string, 234);
    ("Max"%string, 312) ].

Definition _generate_propagation_delay : M Q :=
  rand <- random_random ;;
  if Qlt_bool rand (50 # 100) then random_uniform 0 48
  else if Qlt_bool rand (75 # 100) then random_uniform 48 82
  else if Qlt_bool rand (85 # 100) then random_uniform 82 120
  else if Qlt_bool rand (90 # 100) then random_uniform 120 142
  else if Qlt_bool rand (95 # 100) then random_uniform 142 156
  else if Qlt_bool rand (99 # 100) then random_uniform 156 234
  else random_uniform 234 312.

(** [hasattr(self, '_simulated_delay')] *)
Definition hasattr_simulated_delay : M bool :=
  fun _ s => Returned (match _simulated_delay s with Some _ => true | None => false end) s.

Definition hasattr_propagation_start : M bool :=
  fun _ s => Returned (match _propagation_start s with Some _ => true | None => false end) s.

(** [self._simulated_delay = d] *)
Definition set_simulated_delay (d : Q) : M unit :=
  fun _ s =>
    Returned tt (mkSt (now s) (puts s) (gets s) (sleeps s) (draws s)
                      (Some d) (_propagation_start s)).

(** [self._propagation_start = t] *)
Definition set_propagation_start (t : Q) : M unit :=
  fun _ s =>
    Returned tt (mkSt (now s) (puts s) (gets s) (sleeps s) (draws s)
                      (_simulated_delay s) (Some t)).

(** Reading an attribute that is not set raises [AttributeError]. *)
Definition get_simulated_delay : M Q :=
  fun _ s =>
    match _simulated_delay s with
    | Some d => Returned d s
    | None => Raised (AttributeError "_simulated_delay") s
    end.

Definition get_propagation_start : M Q :=
  fun _ s =>
    match _propagation_start s with
    | Some t => Returned t s
    | None => Raised (AttributeError "_propagation_start") s
    end.

(** [delattr(self, '_simulated_delay')], [delattr(self, '_propagation_start')] *)
Definition delattr_simulated_delay : M unit :=
  fun _ s =>
    Returned tt (mkSt (now s) (puts s) (gets s) (sleeps s) (draws s)
                      None (_propagation_start s)).

Definition delattr_propagation_start : M unit :=
  fun _ s =>
    Returned tt (mkSt (now s) (puts s) (gets s) (sleeps s) (draws s)
                      (_simulated_delay s) None).

Definition check_configuration_match (enable_simulation : bool)
           (expected_config : LifecycleConfiguration) : M bool :=
  if negb enable_simulation then
    BaseWaiterStrategy.check_configuration_match expected_config
  else
    has <- hasattr_simulated_delay ;;
    (if negb has then
       d <- _generate_propagation_delay ;;
       set_simulated_delay d ;;;
       t <- time_time ;;
       set_propagation_start t
     else ret tt) ;;;
    t <- time_time ;;
    start <- get_propagation_start ;;
    let elapsed := t - start in
    delay <- get_simulated_delay ;;
    if Qle_bool delay elapsed then
      BaseWaiterStrategy.check_configuration_match expected_config
    else ret false.

Definition run_single_test (fuel : nat) (strategy : WaiterStrategy)
           (enable_simulation : bool) (test_id : nat) : M TestResult :=
  has_d <- hasattr_simulated_delay ;;
  (if has_d then delattr_simulated_delay else ret tt) ;;;
  has_s <- hasattr_propagation_start ;;
  (if has_s then delattr_propagation_start else ret tt) ;;;
  BaseWaiterStrategy.run_single_test fuel strategy
    (check_configuration_match enable_simulation) test_id.

End SimulatedBaseWaiterStrategy.

(** ** [AdaptiveStrategy.run_single_test] and the test suite *)

Module AdaptiveProbe.

(** [historical_times.append(x)] followed by the bounded [pop(0)]. *)
Definition record_time (historical_times : list Q) (x : Q) : list Q :=
  let historical_times := historical_times ++ [x] in
  if (AdaptiveStrategy.history_size <? length historical_times)%nat
  then tl historical_times
  else historical_times.

(** Returns the result together with the new value of
    [self.historical_times]. *)
Definition run_single_test (fuel : nat) (enable_simulation : bool)
           (historical_times : list Q) (test_id : nat)
  : M (TestResult * list Q) :=
  result <- SimulatedBaseWaiterStrategy.run_single_test fuel
              (AdaptiveStrategy.strategy historical_times)
              enable_simulation test_id ;;
  if success result then
    match propagation_time result with
    | Some t => ret (result, record_time historical_times t)
    | None => raise (KeyError "propagation_time")
    end
  else ret (result, historical_times).

(** The [for i in range(num_tests)] loop of [run_test_suite], from iteration
    [i] on, with [remaining] iterations left. *)
Fixpoint run_tests (fuel : nat) (enable_simulation : bool) (remaining i : nat)
         (historical_times : list Q) (results : list TestResult)
  : M (list TestResult * list Q) :=
  match remaining with
  | O => ret (results, historical_times)
  | S remaining' =>
      rh <- run_single_test fuel enable_simulation historical_times i ;;
      let results := results ++ [fst rh] in
      time_sleep 2 ;;;
      run_tests fuel enable_simulation remaining' (S i) (snd rh) results
  end.

(** A fresh [AdaptiveStrategy] has [historical_times = []] and
    [results = []]. *)
Definition run_test_suite (fuel : nat) (enable_simulation : bool)
           (num_tests : nat) : M (list TestResult * list Q) :=
  run_tests fuel enable_simulation num_tests 0 [] [].

End AdaptiveProbe.

(** ** [BaseWaiterStrategy._display_coverage_analysis]

    The method prints; the embedding returns what it prints as a record. *)

Module Coverage.

Definition distribution : list (string * Q) :=
  [ ("P50"%string, 48); ("P75"%string, 82); ("P85"%string, 120);
    ("P90"%string, 142); ("P95"%string, 156); ("P99"%string, 234);
    ("Max"%string, 312) ].

(** [sorted(items, key=lambda x: x[1])]: a stable sort on the value. *)
Fixpoint insert_by_value (x : string * Q) (l : list (string * Q))
  : list (string * Q) :=
  match l with
  | [] => [x]
  | y :: l' =>
      if Qle_bool (snd x) (snd y) then x :: y :: l'
      else y :: insert_by_value x l'
  end.

Definition sorted_by_value (l : list (string * Q)) : list (string * Q) :=
  fold_right insert_by_value [] l.

(** The [if/elif] chain; with no branch taken the variable keeps its value. *)
Definition estimate (percentile : string) (previous : option Q) : option Q :=
  if String.eqb percentile "P50" then Some 50
  else if String.eqb percentile "P75" then Some 75
  else if String.eqb percentile "P85" then Some 85
  else if String.eqb percentile "P90" then Some 90
  else if String.eqb percentile "P95" then Some 95
  else if String.eqb percentile "P99" then Some 99
  else if String.eqb percentile "Max" then Some (999 # 10)
  else previous.

(** One pass of the [for] loop over
    [(coverage_percentile, estimated_success_rate)]. *)
Definition coverage_step (timeout : Q) (acc : option string * option Q)
           (item : string * Q) : option string * option Q :=
  let '(percentile, time_value) := item in
  if Qle_bool time_value timeout
  then (Some percentile, estimate percentile (snd acc))
  else acc.

Definition find_coverage (timeout : Q) : option string * option Q :=
  fold_left (coverage_step timeout) (sorted_by_value distribution) (None, None).

Inductive Warning : Type :=
| CoverageBelow95
| TimeoutTooShort.

(** The printed lines: the timeout, the coverage label ([None] is printed as
    "Below P50"), the expected success and failure percentages when printed,
    and the warning line if there is one. *)
Record Report : Type := mkReport {
  strategy_timeout : Q;
  coverage : option string;
  expected_success : option Q;
  expected_failure : option Q;
  warning : option Warning
}.

(** [timeout = getattr(self, 'timeout_seconds', None)], falling back to
    [getattr(self, 'max_timeout', 600)]. *)
Definition resolve_timeout (strategy : WaiterStrategy) : Q :=
  match timeout_seconds strategy with
  | Some t => t
  | None =>
      match max_timeout strategy with
      | Some t => t
      | None => 600
      end
  end.

(** Python truth value of a string or [None]. *)
Definition truthy (s : option string) : bool :=
  match s with
  | Some str => negb (String.eqb str "")
  | None => false
  end.

(** Formatting [None] with [:.1f] raises [TypeError]. *)
Definition display_for_timeout (timeout : Q) : PyExn + Report :=
  let '(coverage_percentile, estimated_success_rate) := find_coverage timeout in
  if truthy coverage_percentile then
    match estimated_success_rate with
    | Some rate =>
        inr (mkReport timeout coverage_percentile (Some rate)
                      (Some (100 - rate))
                      (if Qlt_bool rate 95 then Some CoverageBelow95 else None))
    | None => inl (OtherException "TypeError")
    end
  else inr (mkReport timeout None None None (Some TimeoutTooShort)).

Definition _display_coverage_analysis (strategy : WaiterStrategy)
  : PyExn + Report :=
  display_for_timeout (resolve_timeout strategy).

End Coverage.

(** ** test_s3_consistency.py: the sequential control-plane test *)

Definition opt_eqb {A} (eqb : A -> A -> bool) (a b : option A) : bool :=
  match a, b with
  | Some x, Some y => eqb x y
  | None, None => true
  | _, _ => false
  end.

Definition Rule_eqb (a b : Rule) : bool :=
  opt_eqb String.eqb (rule_ID a) (rule_ID b)
  && opt_eqb String.eqb (rule_Status a) (rule_Status b)
  && opt_eqb String.eqb (rule_Prefix a) (rule_Prefix b)
  && opt_eqb Z.eqb (rule_Days a) (rule_Days b).

Fixpoint Rules_eqb (a b : list Rule) : bool :=
  match a, b with
  | [], [] => true
  | x :: a', y :: b' => Rule_eqb x y && Rules_eqb a' b'
  | _, _ => false
  end.

(** [round(x, 3)], ties to even. *)
Definition round3 (x : Q) : Q :=
  let y := x * 1000 in
  let f := Qfloor y in
  let d := y - inject_Z f in
  let n := if Qlt_bool d (1 # 2) then f
           else if Qlt_bool (1 # 2) d then (f + 1)%Z
           else if Z.even f then f else (f + 1)%Z in
  inject_Z n / 1000.

Module TestS3Consistency.

Definition EARLY_DENSE_SECONDS : Q := 30.
Definition LATE_INTERVAL_SECONDS : Q := 3.
Definition TIMEOUT_SECONDS : Q := 600.

(** Equality of the sorted-key JSON dumps is equality of the values. *)
Definition equal_lifecycle (a b : LifecycleConfiguration) : bool := Rules_eqb a b.

Definition put_lifecycle (config : LifecycleConfiguration) : M unit :=
  put_bucket_lifecycle_configuration config.

(** [resp["Rules"]] raises [KeyError] when the key is missing. *)
Definition get_lifecycle : M LifecycleConfiguration :=
  resp <- get_bucket_lifecycle_configuration ;;
  match resp with
  | Some rules => ret rules
  | None => raise (KeyError "Rules")
  end.

Record PollResult : Type := mkPoll {
  matched : bool;
  elapsed : Q;
  polls : nat;
  first_read : option LifecycleConfiguration;
  first_read_elapsed : option Q
}.

(** [err not in ("NoSuchLifecycleConfiguration", "NoSuchBucket", "AccessDenied")] *)
Definition tolerated (err : string) : bool :=
  String.eqb err "NoSuchLifecycleConfiguration"
  || String.eqb err "NoSuchBucket"
  || String.eqb err "AccessDenied".

(** The loop variables that survive one pass of the [try] statement. *)
Definition LoopVars : Type := (nat * option LifecycleConfiguration * option Q)%type.

(** The [try] statement of the loop body: a finished result, or the loop
    variables to continue with. *)
Definition poll_once (expected_config : LifecycleConfiguration) (start : Q)
           (polls : nat) (first_snapshot : option LifecycleConfiguration)
           (first_snapshot_age : option Q) : M (PollResult + LoopVars) :=
  try_except
    (current <- get_lifecycle ;;
     let polls := S polls in
     t <- time_time ;;
     let observed_age := t - start in
     let '(first_snapshot, first_snapshot_age) :=
       match first_snapshot with
       | None => (Some current, Some observed_age)
       | Some _ => (first_snapshot, first_snapshot_age)
       end in
     if equal_lifecycle current expected_config then
       ret (inl (mkPoll true observed_age polls first_snapshot first_snapshot_age))
     else ret (inr (polls, first_snapshot, first_snapshot_age)))
    (fun e =>
       match e with
       | ClientError err _ =>
           if negb (tolerated err) then raise e
           else ret (inr (polls, first_snapshot, first_snapshot_age))
       | _ => raise e
       end).

Fixpoint poll_loop (fuel : nat) (expected_config : LifecycleConfiguration)
         (timeout_s start : Q) (polls : nat)
         (first_snapshot : option LifecycleConfiguration)
         (first_snapshot_age : option Q) : M PollResult :=
  match fuel with
  | O => diverge
  | S fuel' =>
      t <- time_time ;;
      let elapsed := t - start in
      if Qlt_bool timeout_s elapsed then
        ret (mkPoll false elapsed polls first_snapshot first_snapshot_age)
      else
        r <- poll_once expected_config start polls first_snapshot
                       first_snapshot_age ;;
        match r with
        | inl result => ret result
        | inr (polls, first_snapshot, first_snapshot_age) =>
            t' <- time_time ;;
            let current_age := t' - start in
            (if Qlt_bool current_age EARLY_DENSE_SECONDS then time_sleep 1
             else time_sleep LATE_INTERVAL_SECONDS) ;;;
            poll_loop fuel' expected_config timeout_s start polls
                      first_snapshot first_snapshot_age
        end
  end.

Definition poll_until_match (fuel : nat)
           (expected_config : LifecycleConfiguration) (timeout_s : Q)
  : M PollResult :=
  start <- time_time ;;
  poll_loop fuel expected_config timeout_s start 0 None None.

(** One row of [control_plane_results.csv]. *)
Record Row : Type := mkRow {
  iteration : nat;
  row_matched : bool;
  propagation_sec : Q;
  row_polls : nat;
  timeout_used : Q;
  first_read_sec : option Q;
  first_read_rule : option string;
  first_read_matched : bool;
  first_read_stale : bool
}.

(** The configuration built in iteration [i]; [rule_id] is the string
    ["expire-" ++ uuid4()]. *)
Definition iteration_cfg (i : nat) (rule_id : string) : LifecycleConfiguration :=
  [ mkRule (Some rule_id) (Some "Enabled"%string) (Some ""%string)
           (Some (30 + Z.of_nat (i mod 7))%Z) ].

(** The part of the loop body of [test_control_plane] that computes the row
    from the poll result. *)
Definition make_row (i : nat) (cfg : LifecycleConfiguration)
           (prev_cfg : option LifecycleConfiguration) (result : PollResult)
  : Row :=
  let first_read := first_read result in
  let first_read_rule :=
    match first_read with
    | Some (r :: _) => rule_ID r
    | _ => None
    end in
  let first_matches :=
    match first_read with
    | Some fr => equal_lifecycle fr cfg
    | None => false
    end in
  let first_is_prev :=
    match first_read, prev_cfg with
    | Some fr, Some prev => equal_lifecycle fr prev
    | _, _ => false
    end in
  mkRow i (matched result) (round3 (elapsed result)) (polls result)
        TIMEOUT_SECONDS
        (match first_read_elapsed result with
         | Some a => Some (round3 a)
         | None => None
         end)
        first_read_rule first_matches first_is_prev.

(** One iteration of [test_control_plane]: the row and the new [prev_cfg]. *)
Definition control_plane_iteration (fuel : nat) (i : nat) (rule_id : string)
           (prev_cfg : option LifecycleConfiguration)
  : M (Row * option LifecycleConfiguration) :=
  let cfg := iteration_cfg i rule_id in
  put_lifecycle cfg ;;;
  result <- poll_until_match fuel cfg TIMEOUT_SECONDS ;;
  let row := make_row i cfg prev_cfg result in
  time_sleep 10 ;;;
  ret (row, Some cfg).

End TestS3Consistency.

(** ** test_s3_consistency_concurrent.py: the control-plane racer

    The poller and the writer run in two threads that share only the remote
    store.  What the poller reads, whenever the write lands, is the
    environment's [get_outcome]; the writer contributes the outcome of its
    PUT, which overlaps the poller's run and does not move the poller's
    clock. *)

Module TestS3ConsistencyConcurrent.

Definition lifecycle_config (days : Z) (rule_id : string) : LifecycleConfiguration :=
  [ mkRule (Some rule_id) (Some "Enabled"%string) (Some ""%string) (Some days) ].

(** The dict returned by [smart_poll_until_match]. *)
Record PollerResult : Type := mkPoller {
  found : bool;
  attempts : nat;
  detected_at : option Q
}.

(** [any(r["ID"] == expected_rule_id for r in rules)]; a rule without the
    key raises [KeyError]. *)
Fixpoint any_rule_id (expected_rule_id : string) (rules : list Rule)
  : PyExn + bool :=
  match rules with
  | [] => inr false
  | r :: rs =>
      match rule_ID r with
      | None => inl (KeyError "ID")
      | Some id =>
          if String.eqb id expected_rule_id then inr true
          else any_rule_id expected_rule_id rs
      end
  end.

Definition base_sleep : Q := 1 # 2.
Definition max_sleep : Q := 10.

(** [min(max_sleep, base_sleep * (2 ** attempt))] *)
Definition sleep_cap (attempt : nat) : Q :=
  Qmin max_sleep (base_sleep * (2 ^ Z.of_nat attempt)).

(** The [try] statement of the loop body: [true] when the new rule was seen. *)
Definition look (expected_rule_id : string) : M bool :=
  try_except
    (resp <- get_bucket_lifecycle_configuration ;;
     let rules := match resp with Some rs => rs | None => [] end in
     match any_rule_id expected_rule_id rules with
     | inl e => raise e
     | inr b => ret b
     end)
    (fun e =>
       match e with
       | ClientError _ _ => ret false
       | _ => raise e
       end).

Fixpoint smart_poll_loop (fuel : nat) (expected_rule_id : string)
         (start_time timeout : Q) (attempt : nat) : M PollerResult :=
  match fuel with
  | O => diverge
  | S fuel' =>
      t <- time_time ;;
      if Qlt_bool (t - start_time) timeout then
        let attempt := S attempt in
        seen <- look expected_rule_id ;;
        if seen then
          t_found <- time_time ;;
          ret (mkPoller true attempt (Some t_found))
        else
          sleep_time <- random_uniform 0 (sleep_cap attempt) ;;
          time_sleep sleep_time ;;;
          smart_poll_loop fuel' expected_rule_id start_time timeout attempt
      else ret (mkPoller false attempt None)
  end.

Definition smart_poll_until_match (fuel : nat) (expected_rule_id : string)
           (start_time timeout : Q) : M PollerResult :=
  smart_poll_loop fuel expected_rule_id start_time timeout 0.

(** One entry of [stats], a row of [control_plane_racer_results.csv]. *)
Record RacerRow : Type := mkRacerRow {
  iteration : nat;
  row_found : bool;
  delay_sec : option Q;
  api_calls : nat
}.

(** The writer's PUT: its outcome is read, the poller's clock is not moved. *)
Definition after_writer (s : St) : St :=
  mkSt (now s) (S (puts s)) (gets s) (sleeps s) (draws s)
       (_simulated_delay s) (_propagation_start s).

Definition writer_put (config : LifecycleConfiguration) : M PutOutcome :=
  fun env s => Returned (put_outcome env (puts s)) (after_writer s).

Definition make_row (i : nat) (t0 : Q) (result : PollerResult) : RacerRow :=
  let propagation_delay :=
    if found result then
      match detected_at result with
      | Some d => Some (d - t0)
      | None => None
      end
    else None in
  mkRacerRow i (found result) propagation_delay (attempts result).

(** One iteration of [test_control_plane_racer]; [rule_id] is the string
    ["rule-" ++ uuid4().hex].  A failing PUT surfaces once the [with] block
    has waited for the poller; otherwise [poller_future.result()] returns
    the poller's result or re-raises its exception. *)
Definition racer_iteration (fuel : nat) (i : nat) (rule_id : string)
  : M RacerRow :=
  let config := lifecycle_config 30 rule_id in
  t0 <- time_time ;;
  w <- writer_put config ;;
  match w with
  | PutRaises e =>
      try_except
        (smart_poll_until_match fuel rule_id t0 600 ;;; raise e)
        (fun _ => raise e)
  | PutAck =>
      result <- smart_poll_until_match fuel rule_id t0 600 ;;
      ret (make_row i t0 result)
  end.

End TestS3ConsistencyConcurrent.

(** ** Notions used in the statements *)

(** *** States and clocks *)

(** The machine state once [SimulatedBaseWaiterStrategy.run_single_test] has
    deleted the two simulation attributes. *)
Definition reset_simulation (s : St) : St :=
  mkSt (now s) (puts s) (gets s) (sleeps s) (draws s) None None.

(** The machine state after [_generate_propagation_delay], which draws
    twice. *)
Definition after_draws (s : St) : St :=
  mkSt (now s) (puts s) (gets s) (sleeps s) (S (S (draws s)))
       (_simulated_delay s) (_propagation_start s).

(** The machine state after the first simulated check, which drew the
    delay [d]. *)
Definition after_first_check (s : St) (d : Q) : St :=
  mkSt (now s) (puts s) (gets s) (sleeps s) (S (S (draws s)))
       (Some d) (Some (now s)).

(** Whenever [_simulated_delay] is set, so is [_propagation_start]. *)
Definition sim_attrs_ok (s : St) : Prop :=
  _simulated_delay s <> None -> _propagation_start s <> None.

(** The sleep between two polls of [poll_until_match], from the state in
    which the clock is read. *)
Definition cadence (start : Q) (s : St) : Q :=
  if Qlt_bool (now s - start) TestS3Consistency.EARLY_DENSE_SECONDS
  then 1 else TestS3Consistency.LATE_INTERVAL_SECONDS.

(** The exception in which a check ends when its GET raises: the failed
    lookup of the handler's exception class. *)
Definition lookup_error : PyExn := AttributeError "NoSuchLifecycleConfiguration".

(** Every GET of the run is answered. *)
Definition store_answers (env : Env) : Prop :=
  forall n, exists response, get_outcome env n = GetOk response.

(** A clock on which a sleep lasts at least the time asked for and a GET
    takes no negative time. *)
Definition clock_never_early (env : Env) : Prop :=
  (forall n, 0 <= sleep_lag env n) /\ (forall n, 0 <= get_latency env n).

(** *** Reference notions *)

(** [clamp x lo hi]: [x] forced into the interval from [lo] to [hi]. *)
Definition clamp (x lo hi : R) : R :=
  if Rlt_dec x lo then lo else if Rlt_dec hi x then hi else x.

(** The schedule "2s below 30s, 4s below 60s, 8s below 120s, 15s from 120s". *)
Definition piecewise_schedule (t : Q) : Q :=
  if Qlt_bool t 30 then 2
  else if Qlt_bool t 60 then 4
  else if Qlt_bool t 120 then 8
  else 15.

(** The success rate attached to a percentile label. *)
Definition mapped_rate (label : string) : option Q :=
  if String.eqb label "P50" then Some 50
  else if String.eqb label "P75" then Some 75
  else if String.eqb label "P85" then Some 85
  else if String.eqb label "P90" then Some 90
  else if String.eqb label "P95" then Some 95
  else if String.eqb label "P99" then Some 99
  else if String.eqb label "Max" then Some (999 # 10)
  else None.

(** [bucket] is an entry of [table] with the largest bound not above
    [timeout]. *)
Definition largest_bucket_within (table : list (string * Q)) (timeout : Q)
           (bucket : string * Q) : Prop :=
  In bucket table /\ snd bucket <= timeout /\
  forall other, In other table -> snd other <= timeout -> snd other <= snd bucket.

(** The first snapshot observed in a run that makes [n] GET calls starting
    at call number [from]: the rules of the first call that answered. *)
Fixpoint first_observed_snapshot (env : Env) (from n : nat)
  : option (list Rule) :=
  match n with
  | O => None
  | S n' =>
      match get_outcome env from with
      | GetOk resp => Some (match resp with Some rs => rs | None => [] end)
      | GetRaises _ => first_observed_snapshot env (S from) n'
      end
  end.

(** The propagation times of the successful results, oldest first. *)
Definition successful_times (results : list TestResult) : list Q :=
  flat_map (fun r =>
              if success r then
                match propagation_time r with
                | Some t => [t]
                | None => []
                end
              else [])
           results.

(** The last [n] elements of a list. *)
Definition trailing (n : nat) (l : list Q) : list Q :=
  skipn (length l - n) l.

(** The Adaptive policy while fewer than three samples are held, with the
    comparison against the fixed 300 seconds done in the rationals. *)
Definition bootstrap_strategy : WaiterStrategy :=
  mkStrategy "Adaptive-Learning-v2" AdaptiveStrategy.calculate_next_interval
             (fun elapsed_time _ => Qle_bool AdaptiveStrategy.min_timeout elapsed_time)
             None (Some AdaptiveStrategy.max_timeout).

(** *** Concrete environments *)

(** A fresh process: clock at zero, no call made, no simulation attribute. *)
Definition initial_state : St := mkSt 0 0 0 0 0 None None.

(** An ideal clock: remote calls take no time and [time.sleep] returns on
    time.  Every PUT is acknowledged. *)
Definition ideal_env (get : nat -> GetOutcome) (draw : nat -> Q) : Env :=
  mkEnv (fun _ => PutAck) (fun _ => 0) get (fun _ => 0) (fun _ => 0) draw.

(** The store already shows the configuration of test [0] of the named
    strategy on every read. *)
Definition store_shows (name : string) : nat -> GetOutcome :=
  fun _ => GetOk (Some (generate_lifecycle_config name 0)).

(** Draws that make [_generate_propagation_delay] return exactly 48:
    [random.random()] gives 0.5, then [random.uniform(48, 82)] its lower end. *)
Definition draws_48 : nat -> Q :=
  fun n => match n with O => 1 # 2 | _ => 0 end.

(** Draws that make it return exactly 200: [random.random()] gives 0.96,
    then [random.uniform(156, 234)] the point 44/78 of the way. *)
Definition draws_200 : nat -> Q :=
  fun n => match n with O => 96 # 100 | _ => 44 # 78 end.

Definition env_delay_48 : Env :=
  ideal_env (store_shows "Baseline-3s-180s") draws_48.

Definition env_delay_200 : Env :=
  ideal_env (store_shows "Baseline-3s-180s") draws_200.

(** The store shows the Adaptive configuration of test 0 at once. *)
Definition env_adaptive_visible : Env :=
  ideal_env (store_shows "Adaptive-Learning-v2") (fun _ => 0).

(** Every PUT is refused. *)
Definition env_put_fails : Env :=
  mkEnv (fun _ => PutRaises (ClientError "AccessDenied" "Access Denied"))
        (fun _ => 1 # 10) (store_shows "Baseline-3s-180s") (fun _ => 0)
        (fun _ => 0) (fun _ => 0).

(** The first GET fails with a server error that is not of the
    "not yet visible" kind; from the second GET on the store shows the
    Baseline configuration. *)
Definition internal_error : PyExn :=
  ClientError "InternalError" "We encountered an internal error.".

Definition env_internal_error : Env :=
  ideal_env (fun n => match n with
                      | O => GetRaises internal_error
                      | _ => store_shows "Baseline-3s-180s" n
                      end)
            (fun _ => 0).

(** Two runs for the racer and the sequential test.  The new configuration
    has rule ["rule-new"], the previous one rule ["rule-old"].  In the first
    run the first read still shows the previous configuration; in the second
    the first read finds no configuration at all.  From the second read on
    both show the new one. *)
Definition old_cfg : LifecycleConfiguration :=
  TestS3ConsistencyConcurrent.lifecycle_config 30 "rule-old".

Definition new_cfg : LifecycleConfiguration :=
  TestS3ConsistencyConcurrent.lifecycle_config 30 "rule-new".

Definition not_yet_visible : PyExn :=
  ClientError "NoSuchLifecycleConfiguration"
              "The lifecycle configuration does not exist".

Definition env_stale_first : Env :=
  ideal_env (fun n => match n with
                      | O => GetOk (Some old_cfg)
                      | _ => GetOk (Some new_cfg)
                      end)
            (fun _ => 1 # 2).

Definition env_absent_first : Env :=
  ideal_env (fun n => match n with
                      | O => GetRaises not_yet_visible
                      | _ => GetOk (Some new_cfg)
                      end)
            (fun _ => 1 # 2).

From Stdlib Require Import DecimalNat Sorted Qpower.

(** ** Further notions: check budgets

    An upper bound on the number of checks still to come, as a function of
    the elapsed time: every check lowers it by at least one, and it is
    positive as long as the strategy has not timed out. *)

(** Fixed interval and fixed timeout: the checks that still fit. *)
Definition fixed_budget (timeout interval elapsed : Q) : Q :=
  (timeout - elapsed) / interval.

(** Hybrid: per tier, the checks that fit in the rest of the tier, plus one
    for the check that crosses into the next tier, plus the next tier's
    budget. *)
Definition hybrid_budget (elapsed : Q) : Q :=
  if Qlt_bool elapsed 30 then (30 - elapsed) / 2 + 50
  else if Qlt_bool elapsed 60 then (60 - elapsed) / 4 + (83 # 2)
  else if Qlt_bool elapsed 120 then (120 - elapsed) / 8 + 33
  else (600 - elapsed) / 15.

(** Adaptive: the same with its five tiers and its largest timeout, 600. *)
Definition adaptive_budget (elapsed : Q) : Q :=
  if Qlt_bool elapsed 30 then (30 - elapsed) / 2 + 53
  else if Qlt_bool elapsed 60 then (60 - elapsed) / 4 + (89 # 2)
  else if Qlt_bool elapsed 120 then (120 - elapsed) / 8 + 36
  else if Qlt_bool elapsed 180 then (180 - elapsed) / 10 + 29
  else (600 - elapsed) / 15.

(** ** Further notions: configurations and delays *)

(** What [check_configuration_match] looks at in a rule. *)
Definition rule_key (r : Rule) : option string * option string :=
  (rule_ID r, rule_Status r).

(** The fraction of iterations a percentile label stands for. *)
Definition percentile_fraction (label : string) : option Q :=
  if String.eqb label "P50" then Some (50 # 100)
  else if String.eqb label "P75" then Some (75 # 100)
  else if String.eqb label "P85" then Some (85 # 100)
  else if String.eqb label "P90" then Some (90 # 100)
  else if String.eqb label "P95" then Some (95 # 100)
  else if String.eqb label "P99" then Some (99 # 100)
  else if String.eqb label "Max" then Some 1
  else None.

(** ** Further notions: the sequential poller *)

(** How many of the [n] GET calls starting at call number [from] answered. *)
Fixpoint answered (env : Env) (from n : nat) : nat :=
  match n with
  | O => O
  | S n' =>
      match get_outcome env from with
      | GetOk _ => S (answered env (S from) n')
      | GetRaises _ => answered env (S from) n'
      end
  end.

(** An upper bound on the passes [poll_until_match] can still make with
    the default timeout of 600 seconds once [elapsed] seconds have gone by:
    one per second up to 30 seconds, one per three seconds after that. *)
Definition poll_budget (elapsed : Q) : Q :=
  if Qlt_bool elapsed 30 then inject_Z (Qceiling (30 - elapsed)) + 191
  else (600 - elapsed) / 3 + 1.

(** A store on which the configuration never becomes visible, read on an
    ideal clock. *)
Definition env_never_visible : Env :=
  ideal_env (fun _ => GetRaises not_yet_visible) (fun _ => 1 # 2).

(** [resp.get("Rules", [])] *)
Definition response_rules (resp : option (list Rule)) : list Rule :=
  match resp with Some rs => rs | None => [] end.

(** The machine state after one call of [random.random()]. *)
Definition after_draw (s : St) : St :=
  mkSt (now s) (puts s) (gets s) (sleeps s) (S (draws s))
       (_simulated_delay s) (_propagation_start s).

(** The state in which the smart poller starts its next pass after an
    unsuccessful attempt numbered [attempt], made in state [s]: the GET,
    the jitter draw and the sleep have happened. *)
Definition after_backoff (env : Env) (s : St) (attempt : nat) : St :=
  let s1 := after_get env s in
  after_sleep env (after_draw s1)
    (0 + (TestS3ConsistencyConcurrent.sleep_cap attempt - 0)
         * random_draw env (draws s1)).

(** The store answers every GET with one rule that carries no ["ID"]. *)
Definition env_rule_without_id : Env :=
  ideal_env (fun _ => GetOk (Some [mkRule None (Some "Enabled"%string)
                                          None None]))
            (fun _ => 1 # 2).

(** The checks a result records; the result of a failed PUT records none. *)
Definition checks_of (r : TestResult) : nat :=
  match check_count r with Some c => c | None => 0%nat end.

(** The checks recorded over a list of results. *)
Definition total_checks (results : list TestResult) : nat :=
  fold_right (fun r acc => (checks_of r + acc)%nat) 0%nat results.

(** ** [BaseWaiterStrategy.analyze_results]

    The method prints.  The embedding returns the numbers of its first four
    lines and the coverage report it ends with, or the exception raised on
    the way; the percentile block in between only prints statistics of the
    successful results and is left out. *)

Record Summary : Type := mkSummary {
  total_tests : nat;
  successful : nat;
  failed : nat;
  success_rate : Q
}.

Definition analyze_results (strategy : WaiterStrategy)
           (results : list TestResult) : PyExn + (Summary * Coverage.Report) :=
  let successful := filter success results in
  let failed := filter (fun r => negb (success r)) results in
  if (length results =? 0)%nat then inl (OtherException "ZeroDivisionError")
  else
    let rate :=
      inject_Z (Z.of_nat (length successful))
      / inject_Z (Z.of_nat (length results)) * 100 in
    match Coverage._display_coverage_analysis strategy with
    | inl e => inl e
    | inr report =>
        inr (mkSummary (length results) (length successful) (length failed)
                       rate, report)
    end.

(** An iteration that ends within [n] checks: it returns a result with at
    most [n] checks and [n + 1] API calls, or it ends in the failed lookup
    of a check whose GET raised; it does not run on for ever. *)
Definition ends_within (env : Env) (n : nat) (run : Outcome TestResult)
  : Prop :=
  match run with
  | Returned r _ =>
      (forall c, check_count r = Some c -> (c <= n)%nat)
      /\ (forall a, api_calls r = Some a -> (a <= n + 1)%nat)
  | Raised e _ =>
      e = lookup_error /\ exists k e0, get_outcome env k = GetRaises e0
  | Diverge => False
  end.

(** * Properties *)

Lemma Qlt_bool_iff (x y : Q) : Qlt_bool x y = true <-> x < y.
Proof.
  unfold Qlt_bool. rewrite negb_true_iff.
  split; intros H.
  - apply Qnot_le_lt. intros Hle. apply Qle_bool_iff in Hle. congruence.
  - destruct (Qle_bool y x) eqn:E; [|reflexivity].
    apply Qle_bool_iff in E. exfalso. apply (Qlt_not_le _ _ H E).
Qed.

Lemma Qlt_bool_false_iff (x y : Q) : Qlt_bool x y = false <-> y <= x.
Proof.
  unfold Qlt_bool. rewrite negb_false_iff. apply Qle_bool_iff.
Qed.

Lemma Qle_bool_false_iff (x y : Q) : Qle_bool x y = false <-> y < x.
Proof.
  rewrite <- Qlt_bool_iff. unfold Qlt_bool.
  destruct (Qle_bool x y); simpl; intuition congruence.
Qed.

Lemma Qlt_bool_spec (x y : Q) : BoolSpec (x < y) (y <= x) (Qlt_bool x y).
Proof.
  destruct (Qlt_bool x y) eqn:E; constructor.
  - now apply Qlt_bool_iff.
  - now apply Qlt_bool_false_iff.
Qed.

Lemma Qle_bool_spec (x y : Q) : BoolSpec (x <= y) (y < x) (Qle_bool x y).
Proof.
  destruct (Qle_bool x y) eqn:E; constructor.
  - now apply Qle_bool_iff.
  - now apply Qle_bool_false_iff.
Qed.

(** ** The interval schedules (C4) *)

(** C4, as stated, fails: at 150 seconds elapsed the Adaptive strategy waits
    10 seconds where the Hybrid strategy waits 15. *)
Lemma C4_adaptive_differs_from_hybrid_at_150 :
  ~ (forall (t : Q) (k : nat),
       AdaptiveStrategy.calculate_next_interval t k
       == HybridStrategy.calculate_next_interval t k).
Proof.
  intros H. specialize (H 150 0%nat). vm_compute in H. discriminate H.
Qed.

(** C4, amended: the Hybrid interval is the piecewise schedule
    2s / 4s / 8s / 15s with cut points 30, 60 and 120; the Adaptive interval
    equals it except on elapsed times from 120 up to, not including, 180,
    where Adaptive returns 10 and Hybrid 15. *)
Theorem C4_adaptive_vs_hybrid_interval (t : Q) (k : nat) :
  HybridStrategy.calculate_next_interval t k = piecewise_schedule t
  /\ (t < 120 \/ 180 <= t ->
      AdaptiveStrategy.calculate_next_interval t k
      = HybridStrategy.calculate_next_interval t k)
  /\ (120 <= t /\ t < 180 ->
      AdaptiveStrategy.calculate_next_interval t k = 10
      /\ HybridStrategy.calculate_next_interval t k = 15).
Proof.
  unfold AdaptiveStrategy.calculate_next_interval,
         HybridStrategy.calculate_next_interval, piecewise_schedule.
  split; [reflexivity|].
  destruct (Qlt_bool_spec t 30), (Qlt_bool_spec t 60),
           (Qlt_bool_spec t 120), (Qlt_bool_spec t 180);
    split; intros; try reflexivity; try (split; reflexivity);
    exfalso; lra.
Qed.

Lemma C4_adaptive_vs_hybrid_interval_witness :
  AdaptiveStrategy.calculate_next_interval 150 7 = 10
  /\ HybridStrategy.calculate_next_interval 150 7 = 15
  /\ AdaptiveStrategy.calculate_next_interval 45 7
     = HybridStrategy.calculate_next_interval 45 7.
Proof.
  split; [|split].
  - apply (C4_adaptive_vs_hybrid_interval 150 7). split; [discriminate | reflexivity].
  - apply (C4_adaptive_vs_hybrid_interval 150 7). split; [discriminate | reflexivity].
  - apply (C4_adaptive_vs_hybrid_interval 45 7). left. reflexivity.
Defined.

(** ** The adaptive timeout (C3) *)

Lemma Q2R_inject_Z (z : Z) : Q2R (inject_Z z) = IZR z.
Proof. unfold Q2R. simpl. field. Qed.

Lemma Rmax_Rmin_clamp (x lo hi : R) :
  (lo <= hi)%R -> Rmax lo (Rmin x hi) = clamp x lo hi.
Proof.
  intros Hle. unfold clamp, Rmax, Rmin.
  destruct (Rle_dec x hi), (Rlt_dec x lo), (Rlt_dec hi x);
    try destruct (Rle_dec lo x); try destruct (Rle_dec lo hi); lra.
Qed.

Lemma mean_40_50_60 : AdaptiveStrategy.mean [40; 50; 60] == 50.
Proof. reflexivity. Qed.

Lemma variance_40_50_60 : AdaptiveStrategy.variance [40; 50; 60] == 100.
Proof. reflexivity. Qed.

Lemma stdev_40_50_60 : AdaptiveStrategy.stdev [40; 50; 60] = 10%R.
Proof.
  unfold AdaptiveStrategy.stdev.
  rewrite (Qeq_eqR _ _ variance_40_50_60).
  change 100 with (inject_Z 100). rewrite Q2R_inject_Z.
  replace 100%R with (10 * 10)%R by lra.
  apply sqrt_square. lra.
Qed.

(** C3: [should_timeout] answers true exactly when the elapsed time has
    reached the timeout; the timeout is 300 while fewer than 3 samples are
    held and otherwise mean + 3 * stdev clamped into [300, 600]; for the
    history 40, 50, 60 (mean 50, standard deviation 10) it is 300. *)
Theorem C3_adaptive_should_timeout (history : list Q) (elapsed : Q) (k : nat) :
  (AdaptiveStrategy.should_timeout history elapsed k = true
   <-> (Q2R elapsed >= AdaptiveStrategy.timeout history)%R)
  /\ AdaptiveStrategy.timeout history
     = (if (length history <? 3)%nat then 300%R
        else clamp (Q2R (AdaptiveStrategy.mean history)
                    + 3 * AdaptiveStrategy.stdev history) 300 600)
  /\ (AdaptiveStrategy.mean [40; 50; 60] == 50
      /\ AdaptiveStrategy.stdev [40; 50; 60] = 10%R
      /\ AdaptiveStrategy.timeout [40; 50; 60] = 300%R).
Proof.
  assert (Hmin : Q2R AdaptiveStrategy.min_timeout = 300%R)
    by apply (Q2R_inject_Z 300).
  assert (Hmax : Q2R AdaptiveStrategy.max_timeout = 600%R)
    by apply (Q2R_inject_Z 600).
  assert (Hgen : forall h,
             AdaptiveStrategy.timeout h
             = (if (length h <? 3)%nat then 300%R
                else clamp (Q2R (AdaptiveStrategy.mean h)
                            + 3 * AdaptiveStrategy.stdev h) 300 600)).
  { intros h. unfold AdaptiveStrategy.timeout.
    destruct (length h <? 3)%nat; [exact Hmin|].
    cbv zeta. rewrite Hmin, Hmax. apply Rmax_Rmin_clamp. lra. }
  split; [|split; [apply Hgen|split; [exact mean_40_50_60|split; [exact stdev_40_50_60|]]]].
  - unfold AdaptiveStrategy.should_timeout.
    destruct (Rge_dec (Q2R elapsed) (AdaptiveStrategy.timeout history));
      split; intros; try reflexivity; try assumption; try discriminate; contradiction.
  - rewrite Hgen. simpl.
    rewrite (Qeq_eqR _ _ mean_40_50_60), stdev_40_50_60.
    change 50 with (inject_Z 50). rewrite Q2R_inject_Z.
    unfold clamp. destruct (Rlt_dec (50 + 3 * 10) 300); [reflexivity | lra].
Qed.

(** ** Coverage analysis (C6) *)

Lemma sorted_distribution :
  Coverage.sorted_by_value Coverage.distribution = Coverage.distribution.
Proof. reflexivity. Qed.

Ltac in_table :=
  simpl; repeat (first [left; reflexivity | right]).

Ltac largest_bucket :=
  unfold largest_bucket_within; simpl;
  split; [in_table | split; [lra |]];
  let other := fresh "other" in
  let Hin := fresh "Hin" in
  intros other Hin ?; simpl in Hin;
  repeat (destruct Hin as [<- | Hin]; [simpl in *; lra |]);
  contradiction.

Lemma find_coverage_spec (timeout : Q) :
  (timeout < 48 /\ Coverage.find_coverage timeout = (None, None))
  \/ exists label bound rate,
       largest_bucket_within Coverage.distribution timeout (label, bound)
       /\ mapped_rate label = Some rate
       /\ Coverage.truthy (Some label) = true
       /\ Coverage.find_coverage timeout = (Some label, Some rate).
Proof.
  unfold Coverage.find_coverage. rewrite sorted_distribution.
  unfold Coverage.distribution at 1. simpl fold_left.
  unfold Coverage.coverage_step.
  destruct (Qle_bool_spec 48 timeout) as [H48|H48];
  destruct (Qle_bool_spec 82 timeout) as [H82|H82];
  destruct (Qle_bool_spec 120 timeout) as [H120|H120];
  destruct (Qle_bool_spec 142 timeout) as [H142|H142];
  destruct (Qle_bool_spec 156 timeout) as [H156|H156];
  destruct (Qle_bool_spec 234 timeout) as [H234|H234];
  destruct (Qle_bool_spec 312 timeout) as [H312|H312];
  try (exfalso; lra);
  try (left; split; [assumption | reflexivity]);
  right.
  - exists "Max"%string, 312, (999 # 10). split; [largest_bucket | repeat split; reflexivity].
  - exists "P99"%string, 234, 99. split; [largest_bucket | repeat split; reflexivity].
  - exists "P95"%string, 156, 95. split; [largest_bucket | repeat split; reflexivity].
  - exists "P90"%string, 142, 90. split; [largest_bucket | repeat split; reflexivity].
  - exists "P85"%string, 120, 85. split; [largest_bucket | repeat split; reflexivity].
  - exists "P75"%string, 82, 75. split; [largest_bucket | repeat split; reflexivity].
  - exists "P50"%string, 48, 50. split; [largest_bucket | repeat split; reflexivity].
Qed.

(** C6, as stated, fails: a timeout of 10 seconds is below every bound of the
    table, so no bucket is selected; the analysis reports no rate and still
    warns. *)
Lemma C6_timeout_10_selects_no_bucket :
  ~ (forall timeout : Q,
       exists bucket report,
         largest_bucket_within Coverage.distribution timeout bucket
         /\ Coverage.display_for_timeout timeout = inr report
         /\ Coverage.coverage report = Some (fst bucket)
         /\ (Coverage.warning report <> None
             <-> exists rate, Coverage.expected_success report = Some rate
                              /\ rate < 95)).
Proof.
  intros H. destruct (H 10) as (bucket & report & (Hin & Hle & _) & _).
  simpl in Hin.
  repeat (destruct Hin as [<- | Hin]; [simpl in Hle; lra |]).
  contradiction.
Qed.

(** C6, amended: for every timeout of at least 48 seconds the analysis
    selects the bucket of the table with the largest bound not above the
    timeout, reports its mapped success rate, and warns of low coverage
    exactly when that rate is below 95; for a timeout below 48 it selects no
    bucket, reports "Below P50" without a rate and always warns that the
    timeout is too short.  A timeout of 150 selects P90 with rate 90. *)
Theorem C6_coverage_analysis (timeout : Q) :
  (48 <= timeout ->
   exists label bound rate report,
     largest_bucket_within Coverage.distribution timeout (label, bound)
     /\ mapped_rate label = Some rate
     /\ Coverage.display_for_timeout timeout = inr report
     /\ Coverage.coverage report = Some label
     /\ Coverage.expected_success report = Some rate
     /\ (Coverage.warning report = Some Coverage.CoverageBelow95 <-> rate < 95)
     /\ (Coverage.warning report = None <-> 95 <= rate))
  /\ (timeout < 48 ->
      Coverage.display_for_timeout timeout
      = inr (Coverage.mkReport timeout None None None
                               (Some Coverage.TimeoutTooShort)))
  /\ (exists report,
        Coverage.display_for_timeout 150 = inr report
        /\ Coverage.coverage report = Some "P90"%string
        /\ Coverage.expected_success report = Some 90).
Proof.
  split; [|split].
  - intros Hge.
    destruct (find_coverage_spec timeout)
      as [[Hlt _] | (label & bound & rate & Hb & Hr & Ht & Hf)]; [lra|].
    exists label, bound, rate.
    unfold Coverage.display_for_timeout. rewrite Hf, Ht.
    eexists. split; [exact Hb|]. split; [exact Hr|].
    split; [reflexivity|]. simpl.
    split; [reflexivity|]. split; [reflexivity|].
    destruct (Qlt_bool_spec rate 95); split; split;
      intros; try reflexivity; try assumption; try discriminate; lra.
  - intros Hlt.
    destruct (find_coverage_spec timeout)
      as [[_ Hf] | (label & bound & rate & (Hin & Hle & _) & _)].
    + unfold Coverage.display_for_timeout. rewrite Hf. reflexivity.
    + exfalso. simpl in Hin.
      repeat (destruct Hin as [Heq | Hin];
              [inversion Heq; subst; simpl in Hle; lra |]).
      contradiction.
  - eexists. split; [reflexivity|]. split; reflexivity.
Qed.

Lemma C6_coverage_analysis_witness :
  (exists label bound rate report,
     largest_bucket_within Coverage.distribution 180 (label, bound)
     /\ mapped_rate label = Some rate
     /\ Coverage.display_for_timeout 180 = inr report
     /\ Coverage.coverage report = Some label
     /\ Coverage.expected_success report = Some rate
     /\ (Coverage.warning report = Some Coverage.CoverageBelow95 <-> rate < 95)
     /\ (Coverage.warning report = None <-> 95 <= rate))
  /\ Coverage.display_for_timeout 10
     = inr (Coverage.mkReport 10 None None None (Some Coverage.TimeoutTooShort)).
Proof.
  split.
  - apply (C6_coverage_analysis 180). discriminate.
  - apply (C6_coverage_analysis 10). reflexivity.
Defined.

(** ** The polling loop of [run_single_test] *)

(** One pass of the loop, written out. *)
Lemma polling_loop_step fuel strategy check tid config pd ps cc ac ph env s :
  BaseWaiterStrategy.polling_loop (S fuel) strategy check tid config pd ps
    cc ac ph env s
  = let elapsed := now s - ps in
    if should_timeout strategy elapsed cc then
      Returned (mkResult tid false (Some "Timeout"%string) (Some pd)
                         (Some elapsed) (Some cc) (Some ac) (Some ph) (now s)) s
    else
      let s1 := after_sleep env s (calculate_next_interval strategy elapsed cc) in
      match check config env s1 with
      | Returned m s2 =>
          let ph' := ph ++ [mkAttempt (S cc) (now s2 - ps) (now s2 - now s1) m] in
          if m then
            Returned (mkResult tid true None (Some pd) (Some (now s2 - ps))
                               (Some (S cc)) (Some (S ac)) (Some ph') (now s2)) s2
          else
            BaseWaiterStrategy.polling_loop fuel strategy check tid config pd
              ps (S cc) (S ac) ph' env s2
      | Raised e s2 => Raised e s2
      | Diverge => Diverge
      end.
Proof.
  cbn [BaseWaiterStrategy.polling_loop].
  unfold bind, time_time, datetime_now, time_time, ret, time_sleep, after_sleep.
  cbv zeta.
  destruct (should_timeout strategy (now s - ps) cc); [reflexivity|].
  destruct (check config env _) as [m s2| |]; try reflexivity.
  destruct m; reflexivity.
Qed.

Lemma run_single_test_unfold fuel strategy check tid env s :
  BaseWaiterStrategy.run_single_test fuel strategy check tid env s
  = let s1 := after_put env s in
    match put_outcome env (puts s) with
    | PutAck =>
        BaseWaiterStrategy.polling_loop fuel strategy check tid
          (generate_lifecycle_config (strategy_name strategy) tid)
          (now s1 - now s) (now s1) 0 1 [] env s1
    | PutRaises e =>
        Returned (mkResult tid false (Some ("PUT failed: " ++ str e)%string)
                           None None None None None (now s1)) s1
    end.
Proof.
  unfold BaseWaiterStrategy.run_single_test, bind, try_except, time_time,
    datetime_now, time_time, ret, put_bucket_lifecycle_configuration, after_put.
  cbv zeta.
  destruct (put_outcome env (puts s)); reflexivity.
Qed.

(** What a result of the polling loop looks like. *)
Lemma polling_loop_returned fuel strategy check tid config pd ps :
  forall cc ac ph env s r s',
    BaseWaiterStrategy.polling_loop fuel strategy check tid config pd ps
      cc ac ph env s = Returned r s' ->
    exists c pt h,
      (cc <= c)%nat
      /\ test_id r = tid
      /\ put_duration r = Some pd
      /\ check_count r = Some c
      /\ api_calls r = Some (ac + (c - cc))%nat
      /\ propagation_time r = Some pt
      /\ polling_history r = Some h
      /\ length h = (length ph + (c - cc))%nat
      /\ ((success r = true /\ error r = None /\ (cc < c)%nat)
          \/ (success r = false /\ error r = Some "Timeout"%string
              /\ should_timeout strategy pt c = true)).
Proof.
  induction fuel as [|fuel IH]; intros cc ac ph env s r s' Hrun.
  - discriminate Hrun.
  - rewrite polling_loop_step in Hrun. cbv zeta in Hrun.
    destruct (should_timeout strategy (now s - ps) cc) eqn:Hto.
    + inversion Hrun; subst; clear Hrun.
      eexists cc, _, ph. simpl.
      rewrite Nat.sub_diag, !Nat.add_0_r.
      repeat apply conj; try reflexivity; try lia.
      right. repeat apply conj; try reflexivity. exact Hto.
    + destruct (check config env _) as [m s2| |]; try discriminate.
      destruct m.
      * inversion Hrun; subst; clear Hrun.
        eexists (S cc), _, _.
        replace (S cc - cc)%nat with 1%nat by lia.
        cbn [test_id put_duration check_count api_calls propagation_time
             polling_history success error].
        rewrite length_app. cbn [length].
        repeat apply conj; try reflexivity; try lia.
        -- f_equal. lia.
        -- left. repeat apply conj; try reflexivity. lia.
      * apply IH in Hrun.
        destruct Hrun as (c & pt & h & Hle & Hid & Hpd & Hcc & Hac & Hpt & Hh & Hlen & Hs).
        exists c, pt, h.
        rewrite length_app in Hlen. simpl in Hlen.
        repeat apply conj; try assumption; try lia.
        -- rewrite Hac. f_equal. lia.
        -- destruct Hs as [(?&?&?)|(?&?&?)]; [left|right];
             repeat apply conj; auto; lia.
Qed.

Lemma simulated_run_unfold fuel strategy sim tid env s :
  SimulatedBaseWaiterStrategy.run_single_test fuel strategy sim tid env s
  = BaseWaiterStrategy.run_single_test fuel strategy
      (SimulatedBaseWaiterStrategy.check_configuration_match sim) tid env
      (reset_simulation s).
Proof.
  unfold SimulatedBaseWaiterStrategy.run_single_test, bind,
    SimulatedBaseWaiterStrategy.hasattr_simulated_delay,
    SimulatedBaseWaiterStrategy.hasattr_propagation_start,
    SimulatedBaseWaiterStrategy.delattr_simulated_delay,
    SimulatedBaseWaiterStrategy.delattr_propagation_start, ret,
    reset_simulation.
  destruct s as [n p g sl d [sd|] [st|]]; reflexivity.
Qed.

(** Every result of [run_single_test] is of one of three kinds. *)
Lemma run_single_test_returned fuel strategy check tid env s r s' :
  BaseWaiterStrategy.run_single_test fuel strategy check tid env s
  = Returned r s' ->
  (put_outcome env (puts s) = PutAck
   /\ exists c pt h pd,
       put_duration r = Some pd
       /\ check_count r = Some c
       /\ api_calls r = Some (c + 1)%nat
       /\ propagation_time r = Some pt
       /\ polling_history r = Some h
       /\ length h = c
       /\ ((success r = true /\ error r = None /\ (0 < c)%nat)
           \/ (success r = false /\ error r = Some "Timeout"%string
               /\ should_timeout strategy pt c = true)))
  \/ (exists e,
        put_outcome env (puts s) = PutRaises e
        /\ r = mkResult tid false (Some ("PUT failed: " ++ str e)%string)
                        None None None None None (now (after_put env s))
        /\ s' = after_put env s).
Proof.
  rewrite run_single_test_unfold. cbv zeta.
  destruct (put_outcome env (puts s)) as [|e]; intros Hrun.
  - left. split; [reflexivity|].
    apply polling_loop_returned in Hrun.
    destruct Hrun as (c & pt & h & Hle & Hid & Hpd & Hcc & Hac & Hpt & Hh & Hlen & Hs).
    exists c, pt, h. eexists.
    rewrite Nat.sub_0_r in Hac, Hlen. simpl in Hlen.
    repeat apply conj; try eassumption.
    rewrite Hac. f_equal. lia.
  - right. exists e. inversion Hrun; subst. repeat split.
Qed.

(** ** The shape of results (C2, C5, C10) *)

(** C2: in every result returned by [run_single_test], entered through the
    base class or through the simulated subclass, [api_calls] is
    [check_count + 1]: whenever one of the two fields is present so is the
    other, with that value, and both are present once the PUT was
    acknowledged. *)
Theorem C2_api_calls_is_check_count_plus_one
        fuel strategy check sim tid env s r s' :
  BaseWaiterStrategy.run_single_test fuel strategy check tid env s
  = Returned r s'
  \/ SimulatedBaseWaiterStrategy.run_single_test fuel strategy sim tid env s
     = Returned r s' ->
  (forall c, check_count r = Some c -> api_calls r = Some (c + 1)%nat)
  /\ (forall a, api_calls r = Some a ->
                exists c, check_count r = Some c /\ a = (c + 1)%nat)
  /\ (put_outcome env (puts s) = PutAck ->
      exists c, check_count r = Some c /\ api_calls r = Some (c + 1)%nat).
Proof.
  intros Hrun.
  assert (Hshape :
            (exists c, check_count r = Some c /\ api_calls r = Some (c + 1)%nat)
            \/ (check_count r = None /\ api_calls r = None
                /\ put_outcome env (puts s) <> PutAck)).
  { destruct Hrun as [Hrun|Hrun];
      [|rewrite simulated_run_unfold in Hrun];
      apply run_single_test_returned in Hrun;
      (destruct Hrun as [(_ & c & pt & h & pd & _ & Hcc & Hac & _)
                        |(e & Hput & -> & _)];
       [left; exists c; auto
       |right; simpl; repeat split; simpl in Hput; congruence]). }
  destruct Hshape as [(c & Hcc & Hac)|(Hcc & Hac & Hput)].
  - repeat apply conj.
    + intros c' Hc'. congruence.
    + intros a Ha. exists c. split; congruence.
    + intros _. exists c. auto.
  - repeat apply conj; intros; congruence.
Qed.

Lemma C2_api_calls_is_check_count_plus_one_witness :
  exists r s',
    SimulatedBaseWaiterStrategy.run_single_test
      18 BaselineStrategy.strategy true 0 env_delay_48 initial_state
    = Returned r s'
    /\ check_count r = Some 17%nat
    /\ api_calls r = Some (17 + 1)%nat.
Proof.
  eexists. eexists. split; [vm_compute; reflexivity|].
  split; [reflexivity|].
  match goal with
  | |- api_calls ?r = _ =>
      refine (proj1 (C2_api_calls_is_check_count_plus_one
                       18 BaselineStrategy.strategy
                       (SimulatedBaseWaiterStrategy.check_configuration_match true)
                       true 0 env_delay_48 initial_state r _ _) 17%nat _)
  end.
  - right. vm_compute. reflexivity.
  - reflexivity.
Defined.

(** C5, as stated, fails: against a simulated delay of 200 seconds the
    Baseline strategy times out, and the result it returns has
    [success = False] together with a [propagation_time], the 180 seconds
    elapsed when the timeout was declared. *)
Lemma C5_timeout_result_has_propagation_time :
  ~ (forall fuel strategy sim tid env s r s',
       SimulatedBaseWaiterStrategy.run_single_test fuel strategy sim tid env s
       = Returned r s' ->
       (propagation_time r <> None <-> success r = true)).
Proof.
  intros H.
  assert (Hrun : exists r s',
             SimulatedBaseWaiterStrategy.run_single_test
               61 BaselineStrategy.strategy true 0 env_delay_200 initial_state
             = Returned r s'
             /\ success r = false
             /\ error r = Some "Timeout"%string
             /\ propagation_time r = Some 180).
  { eexists. eexists. split; [vm_compute; reflexivity|].
    repeat split. }
  destruct Hrun as (r & s' & Hrun & Hs & _ & Hpt).
  apply H in Hrun. destruct Hrun as [Hdef _].
  rewrite Hs in Hdef. discriminate Hdef. rewrite Hpt. discriminate.
Qed.

(** C5, amended: a result carries [propagation_time] exactly when the PUT was
    acknowledged.  So every successful result carries it, and so does every
    timeout result, where it is the elapsed time at which the strategy
    declared the timeout; only the result of a failed PUT has none. *)
Theorem C5_propagation_time_defined
        fuel strategy check sim tid env s r s' :
  BaseWaiterStrategy.run_single_test fuel strategy check tid env s
  = Returned r s'
  \/ SimulatedBaseWaiterStrategy.run_single_test fuel strategy sim tid env s
     = Returned r s' ->
  (propagation_time r <> None <-> put_outcome env (puts s) = PutAck)
  /\ (success r = true -> exists pt, propagation_time r = Some pt)
  /\ (error r = Some "Timeout"%string ->
      success r = false
      /\ exists pt c, propagation_time r = Some pt
                      /\ check_count r = Some c
                      /\ should_timeout strategy pt c = true).
Proof.
  intros Hrun.
  assert (Hshape :
            BaseWaiterStrategy.run_single_test fuel strategy check tid env s
            = Returned r s'
            \/ BaseWaiterStrategy.run_single_test fuel strategy
                 (SimulatedBaseWaiterStrategy.check_configuration_match sim)
                 tid env (reset_simulation s)
               = Returned r s').
  { destruct Hrun as [Hrun|Hrun]; [left; exact Hrun|right].
    rewrite <- simulated_run_unfold. exact Hrun. }
  clear Hrun.
  assert (Hputs : puts (reset_simulation s) = puts s) by reflexivity.
  destruct Hshape as [Hrun|Hrun];
    apply run_single_test_returned in Hrun;
    try rewrite Hputs in Hrun;
    (destruct Hrun as [(Hput & c & pt & h & pd & _ & Hcc & _ & Hpt & _ & _ & Hs)
                      |(e & Hput & -> & _)];
     [ repeat apply conj;
       [ intros _; exact Hput
       | intros _; rewrite Hpt; discriminate
       | intros _; exists pt; exact Hpt
       | intros Herr;
         destruct Hs as [(_ & Hnone & _)|(Hf & _ & Hto)]; [congruence|];
         split; [exact Hf|]; exists pt, c; auto ]
     | simpl; repeat apply conj;
       [ intros Hne; congruence
       | intros Hp; rewrite Hput in Hp; discriminate Hp
       | discriminate
       | intros Herr; exfalso; inversion Herr ] ]).
Qed.

Lemma C5_propagation_time_defined_witness :
  exists r s',
    SimulatedBaseWaiterStrategy.run_single_test
      61 BaselineStrategy.strategy true 0 env_delay_200 initial_state
    = Returned r s'
    /\ success r = false
    /\ exists pt c, propagation_time r = Some pt
                    /\ check_count r = Some c
                    /\ should_timeout BaselineStrategy.strategy pt c = true.
Proof.
  eexists. eexists. split; [vm_compute; reflexivity|].
  match goal with
  | |- success ?r = _ /\ _ =>
      refine (proj2 (proj2 (C5_propagation_time_defined
                              61 BaselineStrategy.strategy
                              (SimulatedBaseWaiterStrategy.check_configuration_match true)
                              true 0 env_delay_200 initial_state r _ _)) _)
  end.
  - right. vm_compute. reflexivity.
  - reflexivity.
Defined.

(** C10: when the PUT raises, [run_single_test] returns at once the dict
    [{test_id, success: False, error: "PUT failed: ...", timestamp}] and
    nothing else: [put_duration], [propagation_time], [check_count],
    [api_calls] and [polling_history] are absent.  No check is made: the
    result is the same whatever the check method and the fuel, and the GET
    and sleep counters are those before the call. *)
Theorem C10_put_failure_result fuel strategy check sim tid env s e :
  put_outcome env (puts s) = PutRaises e ->
  let failed := mkResult tid false (Some ("PUT failed: " ++ str e)%string)
                         None None None None None
                         (now s + put_latency env (puts s)) in
  (exists s',
      BaseWaiterStrategy.run_single_test fuel strategy check tid env s
      = Returned failed s'
      /\ gets s' = gets s /\ sleeps s' = sleeps s)
  /\ (exists s',
         SimulatedBaseWaiterStrategy.run_single_test fuel strategy sim tid env s
         = Returned failed s'
         /\ gets s' = gets s /\ sleeps s' = sleeps s)
  /\ success failed = false
  /\ error failed = Some ("PUT failed: " ++ str e)%string
  /\ put_duration failed = None
  /\ propagation_time failed = None
  /\ check_count failed = None
  /\ api_calls failed = None
  /\ polling_history failed = None.
Proof.
  intros Hput failed. repeat apply conj; try reflexivity.
  - exists (after_put env s).
    rewrite run_single_test_unfold. cbv zeta. rewrite Hput.
    repeat split.
  - exists (after_put env (reset_simulation s)).
    rewrite simulated_run_unfold, run_single_test_unfold. cbv zeta.
    change (puts (reset_simulation s)) with (puts s). rewrite Hput.
    repeat split.
Qed.

Lemma C10_put_failure_result_witness :
  exists s',
    BaseWaiterStrategy.run_single_test
      0 BaselineStrategy.strategy (fun _ => diverge) 5 env_put_fails initial_state
    = Returned (mkResult 5 false (Some "PUT failed: Access Denied"%string)
                         None None None None None (1 # 10)) s'
    /\ gets s' = 0%nat /\ sleeps s' = 0%nat.
Proof.
  destruct (C10_put_failure_result
              0 BaselineStrategy.strategy (fun _ => diverge) true 5
              env_put_fails initial_state
              (ClientError "AccessDenied" "Access Denied") eq_refl)
    as [(s' & Hrun & Hg & Hs) _].
  exists s'. split; [|split; assumption].
  rewrite Hrun. reflexivity.
Defined.

(** ** Errors raised by a check (C1) *)

(** The base check: the comparison when the GET answers; when the GET
    raises, whatever it raises, the failed lookup of the handler's class. *)
Lemma base_check_unfold config env s :
  BaseWaiterStrategy.check_configuration_match config env s
  = match get_outcome env (gets s) with
    | GetOk response =>
        Returned (compare_rules
                    (match response with Some rs => rs | None => [] end)
                    config)
                 (after_get env s)
    | GetRaises _ => Raised lookup_error (after_get env s)
    end.
Proof.
  unfold BaseWaiterStrategy.check_configuration_match, try_except, bind, ret,
    get_bucket_lifecycle_configuration, after_get.
  destruct (get_outcome env (gets s)) as [response|e]; reflexivity.
Qed.

Lemma generate_delay_returns env s :
  exists d,
    SimulatedBaseWaiterStrategy._generate_propagation_delay env s
    = Returned d (after_draws s).
Proof.
  unfold SimulatedBaseWaiterStrategy._generate_propagation_delay,
    random_uniform, bind, random_random, ret, after_draws. cbn.
  repeat match goal with
         | |- context [if ?b then _ else _] => destruct b
         end; eexists; reflexivity.
Qed.

(** What one check of the simulated class does, the attributes being
    consistent: it answers [False] without a GET while it simulates, or it
    makes one GET and answers the comparison, or that GET raises and the
    check ends in the failed lookup. *)
Lemma simulated_check_cases sim config env s :
  sim_attrs_ok s ->
  match SimulatedBaseWaiterStrategy.check_configuration_match sim config env s
  with
  | Returned b s' =>
      sim_attrs_ok s' /\ puts s' = puts s /\ sleeps s' = sleeps s
      /\ ((gets s' = gets s /\ now s' = now s /\ b = false /\ sim = true)
          \/ (gets s' = S (gets s)
              /\ now s' = now s + get_latency env (gets s)
              /\ exists response,
                  get_outcome env (gets s) = GetOk response
                  /\ b = compare_rules
                           (match response with Some rs => rs | None => [] end)
                           config))
  | Raised e s' =>
      e = lookup_error /\ gets s' = S (gets s)
      /\ exists e0, get_outcome env (gets s) = GetRaises e0
  | Diverge => False
  end.
Proof.
  intros Hok.
  assert (Hbase : forall s0,
             sim_attrs_ok (after_get env s0) ->
             puts s0 = puts s -> sleeps s0 = sleeps s -> gets s0 = gets s ->
             now s0 = now s ->
             match BaseWaiterStrategy.check_configuration_match config env s0
             with
             | Returned b s' =>
                 sim_attrs_ok s' /\ puts s' = puts s /\ sleeps s' = sleeps s
                 /\ ((gets s' = gets s /\ now s' = now s /\ b = false
                      /\ sim = true)
                     \/ (gets s' = S (gets s)
                         /\ now s' = now s + get_latency env (gets s)
                         /\ exists response,
                             get_outcome env (gets s) = GetOk response
                             /\ b = compare_rules
                                      (match response with
                                       | Some rs => rs
                                       | None => []
                                       end) config))
             | Raised e s' =>
                 e = lookup_error /\ gets s' = S (gets s)
                 /\ exists e0, get_outcome env (gets s) = GetRaises e0
             | Diverge => False
             end).
  { intros s0 Hok0 Hp Hsl Hg Hn. rewrite base_check_unfold, Hg.
    destruct (get_outcome env (gets s)) as [response|e0] eqn:Hget.
    - split; [exact Hok0|]. cbn [after_get puts sleeps gets now].
      split; [exact Hp|]. split; [exact Hsl|]. right.
      rewrite Hg, Hn. split; [reflexivity|]. split; [reflexivity|].
      exists response. split; reflexivity.
    - split; [reflexivity|]. cbn [after_get gets]. rewrite Hg.
      split; [reflexivity|]. exists e0. reflexivity. }
  unfold SimulatedBaseWaiterStrategy.check_configuration_match.
  destruct sim; cbn [negb].
  2:{ apply Hbase; try reflexivity. exact Hok. }
  unfold bind at 1. unfold SimulatedBaseWaiterStrategy.hasattr_simulated_delay.
  destruct (_simulated_delay s) as [d|] eqn:Hd; cbn [negb].
  - destruct (_propagation_start s) as [t0|] eqn:Ht0.
    2:{ exfalso. apply Hok; [rewrite Hd; discriminate | exact Ht0]. }
    unfold bind, ret, time_time,
      SimulatedBaseWaiterStrategy.get_propagation_start,
      SimulatedBaseWaiterStrategy.get_simulated_delay.
    rewrite Ht0, Hd.
    destruct (Qle_bool d (now s - t0)).
    + apply Hbase; try reflexivity.
      unfold sim_attrs_ok, after_get. cbn. rewrite Ht0. discriminate.
    + split; [exact Hok|]. split; [reflexivity|]. split; [reflexivity|].
      left. repeat split.
  - unfold bind.
    destruct (generate_delay_returns env s) as [d Hgen]. rewrite Hgen.
    unfold ret, time_time,
      SimulatedBaseWaiterStrategy.set_simulated_delay,
      SimulatedBaseWaiterStrategy.set_propagation_start,
      SimulatedBaseWaiterStrategy.get_propagation_start,
      SimulatedBaseWaiterStrategy.get_simulated_delay.
    cbn [now puts gets sleeps draws _simulated_delay _propagation_start
         after_draws].
    destruct (Qle_bool d _).
    + apply Hbase; try reflexivity.
      unfold sim_attrs_ok. cbn. discriminate.
    + split; [unfold sim_attrs_ok; cbn; discriminate|].
      split; [reflexivity|]. split; [reflexivity|]. left. repeat split.
Qed.

(** The polling loop raises only what a check raised: the failed lookup,
    after a GET that raised. *)
Lemma polling_loop_raised strategy sim tid config pd ps :
  forall fuel cc ac ph env s e s',
    sim_attrs_ok s ->
    BaseWaiterStrategy.polling_loop fuel strategy
      (SimulatedBaseWaiterStrategy.check_configuration_match sim) tid config
      pd ps cc ac ph env s = Raised e s' ->
    e = lookup_error
    /\ (gets s < gets s')%nat
    /\ exists e0, get_outcome env (gets s' - 1) = GetRaises e0.
Proof.
  induction fuel as [|fuel IH]; intros cc ac ph env s e s' Hok Hrun.
  - discriminate Hrun.
  - rewrite polling_loop_step in Hrun. cbv zeta in Hrun.
    destruct (should_timeout strategy (now s - ps) cc); [discriminate Hrun|].
    pose proof (simulated_check_cases sim config env
                  (after_sleep env s
                     (calculate_next_interval strategy (now s - ps) cc)) Hok)
      as Hcase.
    destruct (SimulatedBaseWaiterStrategy.check_configuration_match sim config
                env _) as [b s2|e2 s2|]; [| |discriminate Hrun].
    + destruct Hcase as (Hok2 & _ & _ & Hg).
      destruct b; [discriminate Hrun|].
      apply IH in Hrun; [|exact Hok2].
      destruct Hrun as (He & Hlt & Hex).
      cbn [after_sleep gets] in Hg.
      split; [exact He|]. split; [|exact Hex].
      destruct Hg as [(Hg & _)|(Hg & _)]; lia.
    + inversion Hrun; subst; clear Hrun.
      destruct Hcase as (He & Hg & e0 & Hget).
      cbn [after_sleep gets] in Hg, Hget.
      split; [exact He|]. split; [lia|].
      exists e0. rewrite Hg. replace (S (gets s) - 1)%nat with (gets s) by lia.
      exact Hget.
Qed.

Lemma simulated_run_raised fuel strategy sim tid env s e s' :
  SimulatedBaseWaiterStrategy.run_single_test fuel strategy sim tid env s
  = Raised e s' ->
  e = lookup_error
  /\ (gets s < gets s')%nat
  /\ exists e0, get_outcome env (gets s' - 1) = GetRaises e0.
Proof.
  rewrite simulated_run_unfold, run_single_test_unfold. cbv zeta.
  destruct (put_outcome env (puts (reset_simulation s))); [|discriminate].
  intros Hrun. apply polling_loop_raised in Hrun.
  - exact Hrun.
  - unfold sim_attrs_ok. cbn. intros H. contradiction.
Qed.

(** One pass of the loop of [poll_until_match] whose GET raises. *)
Lemma poll_loop_get_raises fuel expected timeout_s start polls fs fsa env s e :
  Qlt_bool timeout_s (now s - start) = false ->
  get_outcome env (gets s) = GetRaises e ->
  TestS3Consistency.poll_loop (S fuel) expected timeout_s start polls fs fsa
    env s
  = let s1 := after_get env s in
    match e with
    | ClientError err _ =>
        if TestS3Consistency.tolerated err then
          TestS3Consistency.poll_loop fuel expected timeout_s start polls fs
            fsa env
            (after_sleep env s1
               (if Qlt_bool (now s1 - start)
                            TestS3Consistency.EARLY_DENSE_SECONDS
                then 1 else TestS3Consistency.LATE_INTERVAL_SECONDS))
        else Raised e s1
    | _ => Raised e s1
    end.
Proof.
  intros Hto Hget.
  cbn [TestS3Consistency.poll_loop].
  unfold bind at 1. unfold time_time at 1. rewrite Hto.
  unfold bind at 1.
  unfold TestS3Consistency.poll_once, try_except, TestS3Consistency.get_lifecycle.
  unfold bind at 1 2. unfold get_bucket_lifecycle_configuration.
  rewrite Hget. cbv zeta.
  destruct e as [err m| | |]; try reflexivity.
  destruct (TestS3Consistency.tolerated err); cbn [negb]; [|reflexivity].
  unfold ret at 1. unfold bind at 1, time_time at 1. unfold bind at 1.
  fold (after_get env s).
  destruct (Qlt_bool (now (after_get env s) - start)
                     TestS3Consistency.EARLY_DENSE_SECONDS); reflexivity.
Qed.

(** C1.  In [poll_until_match] a client error with code
    [NoSuchLifecycleConfiguration], [NoSuchBucket] or [AccessDenied] is
    swallowed and the loop continues after the usual sleep, and any other
    error is re-raised to the caller, so that no result is returned.  The
    strategy probe does not do this.  Its check has a handler for
    [NoSuchLifecycleConfiguration], but the lookup of that exception class
    fails: whatever the GET raises, "not yet visible" or not, the check
    ends in [AttributeError], no attempt is recorded, and the iteration ends
    in that exception instead of going on to the next check. *)
Theorem C1_check_errors fuel strategy tid env s :
  (forall config e,
      get_outcome env (gets s) = GetRaises e ->
      BaseWaiterStrategy.check_configuration_match config env s
      = Raised lookup_error (after_get env s))
  /\ (forall config pd ps cc ac ph e,
        should_timeout strategy (now s - ps) cc = false ->
        let s1 := after_sleep env s
                    (calculate_next_interval strategy (now s - ps) cc) in
        get_outcome env (gets s1) = GetRaises e ->
        BaseWaiterStrategy.polling_loop (S fuel) strategy
          BaseWaiterStrategy.check_configuration_match tid config pd ps
          cc ac ph env s
        = Raised lookup_error (after_get env s1))
  /\ (forall e,
        put_outcome env (puts s) = PutAck ->
        let s0 := after_put env s in
        should_timeout strategy (now s0 - now s0) 0 = false ->
        let s1 := after_sleep env s0
                    (calculate_next_interval strategy (now s0 - now s0) 0) in
        get_outcome env (gets s1) = GetRaises e ->
        BaseWaiterStrategy.run_single_test (S fuel) strategy
          BaseWaiterStrategy.check_configuration_match tid env s
        = Raised lookup_error (after_get env s1))
  /\ (forall expected timeout_s start polls fs fsa e,
        Qlt_bool timeout_s (now s - start) = false ->
        get_outcome env (gets s) = GetRaises e ->
        let s1 := after_get env s in
        TestS3Consistency.poll_loop (S fuel) expected timeout_s start polls
          fs fsa env s
        = match e with
          | ClientError err _ =>
              if TestS3Consistency.tolerated err then
                TestS3Consistency.poll_loop fuel expected timeout_s start
                  polls fs fsa env
                  (after_sleep env s1
                     (if Qlt_bool (now s1 - start) 30 then 1 else 3))
              else Raised e s1
          | _ => Raised e s1
          end).
Proof.
  assert (Hloop : forall config pd ps cc ac ph e s0,
             should_timeout strategy (now s0 - ps) cc = false ->
             get_outcome env
               (gets (after_sleep env s0
                        (calculate_next_interval strategy (now s0 - ps) cc)))
             = GetRaises e ->
             BaseWaiterStrategy.polling_loop (S fuel) strategy
               BaseWaiterStrategy.check_configuration_match tid config pd ps
               cc ac ph env s0
             = Raised lookup_error
                 (after_get env
                    (after_sleep env s0
                       (calculate_next_interval strategy (now s0 - ps) cc)))).
  { intros config pd ps cc ac ph e s0 Hto Hget.
    rewrite polling_loop_step. cbv zeta. rewrite Hto.
    rewrite base_check_unfold, Hget. reflexivity. }
  split; [|split; [|split]].
  - intros config e Hget. rewrite base_check_unfold, Hget. reflexivity.
  - intros config pd ps cc ac ph e Hto s1 Hget.
    apply (Hloop config pd ps cc ac ph e s Hto Hget).
  - intros e Hput s0 Hto s1 Hget.
    rewrite run_single_test_unfold. cbv zeta. rewrite Hput.
    apply (Hloop _ _ _ _ _ _ e (after_put env s) Hto Hget).
  - intros expected timeout_s start polls fs fsa e Hto Hget s1.
    apply (poll_loop_get_raises fuel expected timeout_s start polls fs fsa
             env s e Hto Hget).
Qed.

Lemma C1_check_errors_witness :
  BaseWaiterStrategy.run_single_test 1 BaselineStrategy.strategy
    BaseWaiterStrategy.check_configuration_match 0 env_absent_first
    initial_state
  = Raised lookup_error
      (after_get env_absent_first
         (after_sleep env_absent_first
            (after_put env_absent_first initial_state) 3))
  /\ TestS3Consistency.poll_loop 1 new_cfg 600 0 0 None None env_absent_first
       initial_state
     = TestS3Consistency.poll_loop 0 new_cfg 600 0 0 None None
         env_absent_first
         (after_sleep env_absent_first
            (after_get env_absent_first initial_state) 1)
  /\ TestS3Consistency.poll_loop 1 new_cfg 600 0 0 None None
       env_internal_error initial_state
     = Raised internal_error (after_get env_internal_error initial_state).
Proof.
  split; [|split].
  - exact (proj1 (proj2 (proj2 (C1_check_errors 0 BaselineStrategy.strategy 0
                                  env_absent_first initial_state)))
                 not_yet_visible eq_refl eq_refl eq_refl).
  - exact (proj2 (proj2 (proj2 (C1_check_errors 0 BaselineStrategy.strategy 0
                                  env_absent_first initial_state)))
                 new_cfg 600 0 0%nat None None not_yet_visible
                 eq_refl eq_refl).
  - exact (proj2 (proj2 (proj2 (C1_check_errors 0 BaselineStrategy.strategy 0
                                  env_internal_error initial_state)))
                 new_cfg 600 0 0%nat None None internal_error
                 eq_refl eq_refl).
Defined.

(** ** First snapshot and stale first read (C7) *)

Lemma opt_eqb_eq {A} (eqb : A -> A -> bool) (a b : option A) :
  (forall x y, eqb x y = true <-> x = y) ->
  opt_eqb eqb a b = true <-> a = b.
Proof.
  intros H. destruct a as [x|], b as [y|]; simpl;
    try (split; intros; congruence).
  rewrite H. split; intros; congruence.
Qed.

Lemma Rule_eqb_eq (a b : Rule) : Rule_eqb a b = true <-> a = b.
Proof.
  unfold Rule_eqb. rewrite !andb_true_iff.
  rewrite !(opt_eqb_eq String.eqb) by apply String.eqb_eq.
  rewrite (opt_eqb_eq Z.eqb) by apply Z.eqb_eq.
  destruct a, b; simpl. split.
  - intros [[[-> ->] ->] ->]. reflexivity.
  - intros H. inversion H. auto.
Qed.

Lemma Rules_eqb_eq (a b : list Rule) : Rules_eqb a b = true <-> a = b.
Proof.
  revert b. induction a as [|x a IH]; intros [|y b]; simpl;
    try (split; intros; congruence).
  rewrite andb_true_iff, Rule_eqb_eq, IH.
  split; [intros [-> ->]; reflexivity | intros H; inversion H; auto].
Qed.

(** One pass of the loop of [poll_until_match], written out. *)
Lemma poll_loop_step fuel expected timeout_s start polls fs fsa env s :
  TestS3Consistency.poll_loop (S fuel) expected timeout_s start polls fs fsa
    env s
  = if Qlt_bool timeout_s (now s - start) then
      Returned (TestS3Consistency.mkPoll false (now s - start) polls fs fsa) s
    else
      let s1 := after_get env s in
      match get_outcome env (gets s) with
      | GetOk (Some current) =>
          let age := now s1 - start in
          let fs' := match fs with None => Some current | Some _ => fs end in
          let fsa' := match fs with None => Some age | Some _ => fsa end in
          if TestS3Consistency.equal_lifecycle current expected then
            Returned (TestS3Consistency.mkPoll true age (S polls) fs' fsa') s1
          else
            TestS3Consistency.poll_loop fuel expected timeout_s start
              (S polls) fs' fsa' env (after_sleep env s1 (cadence start s1))
      | GetOk None => Raised (KeyError "Rules") s1
      | GetRaises e =>
          match e with
          | ClientError err _ =>
              if TestS3Consistency.tolerated err then
                TestS3Consistency.poll_loop fuel expected timeout_s start
                  polls fs fsa env (after_sleep env s1 (cadence start s1))
              else Raised e s1
          | _ => Raised e s1
          end
      end.
Proof.
  destruct (Qlt_bool timeout_s (now s - start)) eqn:Hto.
  - cbn [TestS3Consistency.poll_loop].
    unfold bind at 1. unfold time_time at 1. rewrite Hto. reflexivity.
  - destruct (get_outcome env (gets s)) as [[current|]|e] eqn:Hget.
    + cbn [TestS3Consistency.poll_loop].
      unfold bind at 1. unfold time_time at 1. rewrite Hto.
      unfold bind at 1.
      unfold TestS3Consistency.poll_once, try_except,
        TestS3Consistency.get_lifecycle.
      unfold bind at 1 2. unfold get_bucket_lifecycle_configuration.
      rewrite Hget. unfold ret at 1. unfold bind at 1. unfold time_time at 1.
      fold (after_get env s). cbv zeta.
      destruct fs as [f|];
        destruct (TestS3Consistency.equal_lifecycle current expected);
        try reflexivity;
        unfold ret at 1; unfold bind at 1, time_time at 1; unfold bind at 1;
        unfold cadence;
        destruct (Qlt_bool (now (after_get env s) - start)
                           TestS3Consistency.EARLY_DENSE_SECONDS);
        reflexivity.
    + cbn [TestS3Consistency.poll_loop].
      unfold bind at 1. unfold time_time at 1. rewrite Hto.
      unfold bind at 1.
      unfold TestS3Consistency.poll_once, try_except,
        TestS3Consistency.get_lifecycle.
      unfold bind at 1 2. unfold get_bucket_lifecycle_configuration.
      rewrite Hget. reflexivity.
    + rewrite (poll_loop_get_raises _ _ _ _ _ _ _ _ _ e Hto Hget).
      reflexivity.
Qed.

Lemma after_sleep_gets env s d : gets (after_sleep env s d) = gets s.
Proof. reflexivity. Qed.

Lemma after_get_gets env s : gets (after_get env s) = S (gets s).
Proof. reflexivity. Qed.

(** [first_read] is the first snapshot observed, over the GET calls the run
    made. *)
Lemma poll_loop_first_read fuel expected timeout_s start :
  forall polls fs fsa env s res s',
    TestS3Consistency.poll_loop fuel expected timeout_s start polls fs fsa
      env s = Returned res s' ->
    (gets s <= gets s')%nat
    /\ TestS3Consistency.first_read res
       = match fs with
         | Some _ => fs
         | None => first_observed_snapshot env (gets s) (gets s' - gets s)
         end.
Proof.
  induction fuel as [|fuel IH]; intros polls fs fsa env s res s' Hrun.
  - discriminate Hrun.
  - rewrite poll_loop_step in Hrun.
    destruct (Qlt_bool timeout_s (now s - start)).
    { inversion Hrun; subst; clear Hrun. split; [lia|].
      rewrite Nat.sub_diag. destruct fs; reflexivity. }
    cbv zeta in Hrun.
    destruct (get_outcome env (gets s)) as [[current|]|e] eqn:Hget.
    + destruct (TestS3Consistency.equal_lifecycle current expected).
      * inversion Hrun; subst; clear Hrun.
        rewrite after_get_gets. split; [lia|].
        replace (S (gets s) - gets s)%nat with 1%nat by lia.
        cbn [TestS3Consistency.first_read first_observed_snapshot].
        rewrite Hget. destruct fs; reflexivity.
      * apply IH in Hrun. rewrite after_sleep_gets, after_get_gets in Hrun.
        destruct Hrun as [Hle Hfr]. split; [lia|].
        rewrite Hfr.
        destruct fs as [f|]; [reflexivity|].
        replace (gets s' - gets s)%nat with (S (gets s' - S (gets s))) by lia.
        cbn [first_observed_snapshot]. rewrite Hget. reflexivity.
    + discriminate Hrun.
    + destruct e as [err m| | |]; try discriminate Hrun.
      destruct (TestS3Consistency.tolerated err); [|discriminate Hrun].
      apply IH in Hrun. rewrite after_sleep_gets, after_get_gets in Hrun.
      destruct Hrun as [Hle Hfr]. split; [lia|].
      rewrite Hfr.
      destruct fs as [f|]; [reflexivity|].
      replace (gets s' - gets s)%nat with (S (gets s' - S (gets s))) by lia.
      cbn [first_observed_snapshot]. rewrite Hget. reflexivity.
Qed.

(** The row of a racer iteration is computed from the poller's result
    alone. *)
Lemma racer_iteration_returned fuel i rule_id env s row s' :
  TestS3ConsistencyConcurrent.racer_iteration fuel i rule_id env s
  = Returned row s' ->
  exists res,
    TestS3ConsistencyConcurrent.smart_poll_until_match fuel rule_id (now s)
      600 env (TestS3ConsistencyConcurrent.after_writer s) = Returned res s'
    /\ row = TestS3ConsistencyConcurrent.make_row i (now s) res.
Proof.
  unfold TestS3ConsistencyConcurrent.racer_iteration.
  unfold bind at 1. unfold time_time at 1.
  unfold bind at 1. unfold TestS3ConsistencyConcurrent.writer_put at 1.
  destruct (put_outcome env (puts s)) as [|e].
  - unfold bind at 1.
    destruct (TestS3ConsistencyConcurrent.smart_poll_until_match
                fuel rule_id (now s) 600 env (TestS3ConsistencyConcurrent.after_writer s))
      as [res s1| |]; try discriminate.
    unfold ret. intros H. inversion H; subst. exists res. split; reflexivity.
  - unfold try_except, bind, raise.
    destruct (TestS3ConsistencyConcurrent.smart_poll_until_match
                fuel rule_id (now s) 600 env (TestS3ConsistencyConcurrent.after_writer s));
      discriminate.
Qed.

(** C7, as stated, fails.  The two runs below differ in the first snapshot
    the poller observes, the previous configuration in one and none before
    the new configuration in the other, and the racer produces the same
    poller result and the same row for both: no stale-first-read flag can be
    computed from what the racer records. *)
Lemma C7_racer_records_no_first_snapshot :
  ~ (exists stale_first_read :
       LifecycleConfiguration ->
       TestS3ConsistencyConcurrent.PollerResult ->
       TestS3ConsistencyConcurrent.RacerRow -> bool,
       forall fuel i rule_id previous env s res s1 row s2,
         TestS3ConsistencyConcurrent.smart_poll_until_match
           fuel rule_id (now s) 600 env (TestS3ConsistencyConcurrent.after_writer s) = Returned res s1 ->
         TestS3ConsistencyConcurrent.racer_iteration fuel i rule_id env s
         = Returned row s2 ->
         (stale_first_read previous res row = true
          <-> first_observed_snapshot env (gets s)
                (TestS3ConsistencyConcurrent.attempts res)
              = Some previous)).
Proof.
  intros [flag H].
  pose proof (H 10%nat 0%nat "rule-new"%string old_cfg env_stale_first
                initial_state) as Hstale.
  pose proof (H 10%nat 0%nat "rule-new"%string old_cfg env_absent_first
                initial_state) as Habsent.
  specialize (Hstale _ _ _ _ ltac:(vm_compute; reflexivity)
                             ltac:(vm_compute; reflexivity)).
  specialize (Habsent _ _ _ _ ltac:(vm_compute; reflexivity)
                              ltac:(vm_compute; reflexivity)).
  cbn [TestS3ConsistencyConcurrent.attempts] in Hstale, Habsent.
  assert (Hyes : flag old_cfg
                   (TestS3ConsistencyConcurrent.mkPoller true 2 (Some (2 # 4)))
                   (TestS3ConsistencyConcurrent.mkRacerRow 0 true (Some (2 # 4)) 2)
                 = true)
    by (apply Hstale; reflexivity).
  apply Habsent in Hyes. vm_compute in Hyes. discriminate Hyes.
Qed.

Lemma control_plane_iteration_returned fuel i rule_id prev env s row next s' :
  TestS3Consistency.control_plane_iteration fuel i rule_id prev env s
  = Returned (row, next) s' ->
  exists res s1,
    TestS3Consistency.poll_until_match fuel
      (TestS3Consistency.iteration_cfg i rule_id)
      TestS3Consistency.TIMEOUT_SECONDS env (after_put env s)
    = Returned res s1
    /\ row = TestS3Consistency.make_row i
               (TestS3Consistency.iteration_cfg i rule_id) prev res
    /\ next = Some (TestS3Consistency.iteration_cfg i rule_id).
Proof.
  unfold TestS3Consistency.control_plane_iteration.
  unfold bind at 1.
  unfold TestS3Consistency.put_lifecycle, put_bucket_lifecycle_configuration.
  fold (after_put env s).
  destruct (put_outcome env (puts s)); [|discriminate].
  unfold bind at 1.
  destruct (TestS3Consistency.poll_until_match _ _ _ env (after_put env s))
    as [res s1| |]; try discriminate.
  unfold bind, time_sleep, ret. intros H. inversion H; subst.
  exists res, s1. repeat split.
Qed.

(** C7, amended.  A racer iteration records only what the poller returns,
    namely whether the new rule was found, the number of attempts and the
    detection time, as the row [iteration, found, delay_sec, api_calls] with
    [delay_sec = detected_at - t0]; it keeps no first snapshot and produces
    no stale-first-read flag.  Both exist in the sequential control-plane
    test: [poll_until_match] returns as [first_read] the first snapshot
    observed during the run, and the row's [first_read_stale] is true exactly
    when that snapshot exists and equals the previous configuration
    ([first_read_rule] is the ID of its first rule, [first_read_matched]
    tells whether it equals the new configuration). *)
Theorem C7_first_snapshot_and_stale_flag fuel i rule_id env s :
  (forall row s',
      TestS3ConsistencyConcurrent.racer_iteration fuel i rule_id env s
      = Returned row s' ->
      exists res,
        TestS3ConsistencyConcurrent.smart_poll_until_match fuel rule_id
          (now s) 600 env (TestS3ConsistencyConcurrent.after_writer s) = Returned res s'
        /\ row = TestS3ConsistencyConcurrent.mkRacerRow i
                   (TestS3ConsistencyConcurrent.found res)
                   (if TestS3ConsistencyConcurrent.found res
                    then option_map (fun d => d - now s)
                           (TestS3ConsistencyConcurrent.detected_at res)
                    else None)
                   (TestS3ConsistencyConcurrent.attempts res))
  /\ (forall expected timeout_s res s',
        TestS3Consistency.poll_until_match fuel expected timeout_s env s
        = Returned res s' ->
        TestS3Consistency.first_read res
        = first_observed_snapshot env (gets s) (gets s' - gets s))
  /\ (forall prev row next s',
        TestS3Consistency.control_plane_iteration fuel i rule_id prev env s
        = Returned (row, next) s' ->
        exists res s1,
          TestS3Consistency.poll_until_match fuel
            (TestS3Consistency.iteration_cfg i rule_id) 600 env
            (after_put env s) = Returned res s1
          /\ row = TestS3Consistency.make_row i
                     (TestS3Consistency.iteration_cfg i rule_id) prev res)
  /\ (forall cfg prev res,
        let row := TestS3Consistency.make_row i cfg prev res in
        (TestS3Consistency.first_read_stale row = true
         <-> exists snapshot,
               TestS3Consistency.first_read res = Some snapshot
               /\ prev = Some snapshot)
        /\ TestS3Consistency.first_read_rule row
           = match TestS3Consistency.first_read res with
             | Some (r :: _) => rule_ID r
             | _ => None
             end
        /\ (TestS3Consistency.first_read_matched row = true
            <-> TestS3Consistency.first_read res = Some cfg)).
Proof.
  repeat apply conj.
  - intros row s' Hrun.
    apply racer_iteration_returned in Hrun. destruct Hrun as (res & Hres & ->).
    exists res. split; [exact Hres|].
    unfold TestS3ConsistencyConcurrent.make_row.
    destruct (TestS3ConsistencyConcurrent.detected_at res); reflexivity.
  - intros expected timeout_s res s' Hrun.
    unfold TestS3Consistency.poll_until_match in Hrun.
    unfold bind at 1 in Hrun. unfold time_time at 1 in Hrun.
    apply poll_loop_first_read in Hrun. apply Hrun.
  - intros prev row next s' Hrun.
    apply control_plane_iteration_returned in Hrun.
    destruct Hrun as (res & s1 & Hres & Hrow & _). exists res, s1. auto.
  - intros cfg prev res row. unfold row, TestS3Consistency.make_row.
    cbn [TestS3Consistency.first_read_stale TestS3Consistency.first_read_rule
         TestS3Consistency.first_read_matched].
    split; [|split].
    + destruct (TestS3Consistency.first_read res) as [fr|], prev as [p|];
        try (split; [discriminate | intros (x & Hx & Hp); congruence]).
      unfold TestS3Consistency.equal_lifecycle. rewrite Rules_eqb_eq.
      split.
      * intros ->. exists p. auto.
      * intros (x & Hx & Hp). congruence.
    + reflexivity.
    + destruct (TestS3Consistency.first_read res) as [fr|];
        [|split; discriminate].
      unfold TestS3Consistency.equal_lifecycle. rewrite Rules_eqb_eq.
      split; congruence.
Qed.

Lemma C7_first_snapshot_and_stale_flag_witness :
  TestS3Consistency.first_read_stale
    (TestS3Consistency.make_row 0 new_cfg (Some old_cfg)
       (TestS3Consistency.mkPoll true 1 2 (Some old_cfg) (Some 0)))
  = true
  /\ exists res s1,
       TestS3Consistency.poll_until_match 10
         (TestS3Consistency.iteration_cfg 0 "rule-new") 600 env_stale_first
         (after_put env_stale_first initial_state) = Returned res s1
       /\ TestS3Consistency.first_read res = Some old_cfg.
Proof.
  pose proof (C7_first_snapshot_and_stale_flag
                10 0 "rule-new" env_stale_first initial_state)
    as (_ & _ & Hiter & Hrow).
  split.
  - apply (Hrow new_cfg (Some old_cfg)
             (TestS3Consistency.mkPoll true 1 2 (Some old_cfg) (Some 0))).
    exists old_cfg. split; reflexivity.
  - destruct (Hiter (Some old_cfg)
                (TestS3Consistency.make_row 0
                   (TestS3Consistency.iteration_cfg 0 "rule-new")
                   (Some old_cfg)
                   (TestS3Consistency.mkPoll true 1 2 (Some old_cfg) (Some 0)))
                (Some (TestS3Consistency.iteration_cfg 0 "rule-new"))
                (mkSt 11 1 2 2 0 None None)
                ltac:(vm_compute; reflexivity))
      as (res & s1 & Hres & Hrow').
    exists res, s1. split; [exact Hres|].
    vm_compute in Hres. inversion Hres. reflexivity.
Defined.

(** ** The Baseline run against a 48 second delay (C8) *)

(** More fuel does not change a result. *)
Lemma polling_loop_fuel_mono strategy check tid config pd ps extra :
  forall fuel cc ac ph env s r s',
    BaseWaiterStrategy.polling_loop fuel strategy check tid config pd ps
      cc ac ph env s = Returned r s' ->
    BaseWaiterStrategy.polling_loop (fuel + extra) strategy check tid config
      pd ps cc ac ph env s = Returned r s'.
Proof.
  induction fuel as [|fuel IH]; intros cc ac ph env s r s' Hrun.
  - discriminate Hrun.
  - change (S fuel + extra)%nat with (S (fuel + extra)).
    rewrite polling_loop_step in *. cbv zeta in *.
    destruct (should_timeout strategy (now s - ps) cc); [exact Hrun|].
    destruct (check config env _) as [m s2| |]; try discriminate Hrun.
    destruct m; [exact Hrun|]. apply IH, Hrun.
Qed.

Lemma simulated_run_fuel_mono fuel extra strategy sim tid env s r s' :
  SimulatedBaseWaiterStrategy.run_single_test fuel strategy sim tid env s
  = Returned r s' ->
  SimulatedBaseWaiterStrategy.run_single_test (fuel + extra) strategy sim tid
    env s = Returned r s'.
Proof.
  rewrite !simulated_run_unfold, !run_single_test_unfold. cbv zeta.
  destruct (put_outcome env (puts (reset_simulation s))); [|auto].
  apply polling_loop_fuel_mono.
Qed.

(** C8, as stated, fails: the run does not end with 16 checks and a
    propagation time below 51 seconds. *)
Lemma C8_baseline_48s_is_not_16_checks :
  ~ (exists r s',
       SimulatedBaseWaiterStrategy.run_single_test
         100 BaselineStrategy.strategy true 0 env_delay_48 initial_state
       = Returned r s'
       /\ success r = true
       /\ check_count r = Some 16%nat
       /\ exists pt, propagation_time r = Some pt /\ 48 <= pt /\ pt < 51).
Proof.
  intros (r & s' & Hrun & _ & Hcc & _).
  vm_compute in Hrun. inversion Hrun; subst. discriminate Hcc.
Qed.

(** C8, amended.  The simulator starts counting the drawn delay at the first
    check, one polling interval after the PUT.  So on an ideal clock the
    Baseline strategy (interval 3s, timeout 180s) against a simulated delay
    of exactly 48s returns, with any fuel from 18 on, one result with
    [success = True], [check_count = 17] and a propagation time of 51
    seconds, in the interval from 51 to 54. *)
Theorem C8_baseline_48s_takes_17_checks (extra : nat) :
  exists r s',
    SimulatedBaseWaiterStrategy.run_single_test
      (18 + extra) BaselineStrategy.strategy true 0 env_delay_48 initial_state
    = Returned r s'
    /\ (exists d, _simulated_delay s' = Some d /\ d == 48)
    /\ success r = true
    /\ check_count r = Some 17%nat
    /\ api_calls r = Some 18%nat
    /\ (exists h, polling_history r = Some h /\ length h = 17%nat)
    /\ exists pt, propagation_time r = Some pt
                  /\ pt == 51 /\ 51 <= pt /\ pt < 54.
Proof.
  assert (H18 : exists r s',
             SimulatedBaseWaiterStrategy.run_single_test
               18 BaselineStrategy.strategy true 0 env_delay_48 initial_state
             = Returned r s'
             /\ (exists d, _simulated_delay s' = Some d /\ d == 48)
             /\ success r = true
             /\ check_count r = Some 17%nat
             /\ api_calls r = Some 18%nat
             /\ (exists h, polling_history r = Some h /\ length h = 17%nat)
             /\ exists pt, propagation_time r = Some pt
                           /\ pt == 51 /\ 51 <= pt /\ pt < 54).
  { eexists. eexists. split; [vm_compute; reflexivity|].
    cbn [_simulated_delay success check_count api_calls polling_history
         propagation_time].
    split; [eexists; split; reflexivity|].
    split; [reflexivity|]. split; [reflexivity|]. split; [reflexivity|].
    split; [eexists; split; reflexivity|].
    eexists. split; [reflexivity|].
    split; [reflexivity|]. split; [discriminate | reflexivity]. }
  destruct H18 as (r & s' & Hrun & Hrest).
  exists r, s'. split; [|exact Hrest].
  apply simulated_run_fuel_mono, Hrun.
Qed.

(** *** The Baseline probe on a clock that is never early *)

Lemma simulated_check_later config env s d t0 :
  _simulated_delay s = Some d ->
  _propagation_start s = Some t0 ->
  SimulatedBaseWaiterStrategy.check_configuration_match true config env s
  = if Qle_bool d (now s - t0)
    then BaseWaiterStrategy.check_configuration_match config env s
    else Returned false s.
Proof.
  intros Hd Ht0.
  unfold SimulatedBaseWaiterStrategy.check_configuration_match. cbn [negb].
  unfold bind at 1. unfold SimulatedBaseWaiterStrategy.hasattr_simulated_delay.
  rewrite Hd. cbn [negb].
  unfold bind, ret, time_time,
    SimulatedBaseWaiterStrategy.get_propagation_start,
    SimulatedBaseWaiterStrategy.get_simulated_delay.
  rewrite Ht0, Hd. destruct (Qle_bool d (now s - t0)); reflexivity.
Qed.

Lemma simulated_check_first config env s :
  _simulated_delay s = None ->
  random_draw env (draws s) == 1 # 2 ->
  random_draw env (S (draws s)) == 0 ->
  exists d,
    d == 48
    /\ SimulatedBaseWaiterStrategy.check_configuration_match true config env s
       = Returned false (after_first_check s d).
Proof.
  intros Hnone Hrand Hunit.
  exists (48 + (82 - 48) * random_draw env (S (draws s))).
  split; [rewrite Hunit; reflexivity|].
  unfold SimulatedBaseWaiterStrategy.check_configuration_match. cbn [negb].
  unfold bind at 1. unfold SimulatedBaseWaiterStrategy.hasattr_simulated_delay.
  rewrite Hnone. cbn [negb].
  unfold bind at 1. unfold bind at 1.
  assert (Hgen : SimulatedBaseWaiterStrategy._generate_propagation_delay env s
                 = Returned (48 + (82 - 48) * random_draw env (S (draws s)))
                            (after_draws s)).
  { unfold SimulatedBaseWaiterStrategy._generate_propagation_delay.
    unfold bind at 1. unfold random_random at 1.
    destruct (Qlt_bool_spec (random_draw env (draws s)) (50 # 100)) as [H|H];
      [exfalso; rewrite Hrand in H; revert H; apply Qle_not_lt; discriminate|].
    destruct (Qlt_bool_spec (random_draw env (draws s)) (75 # 100)) as [H'|H'];
      [|exfalso; rewrite Hrand in H'; revert H'; apply Qlt_not_le; reflexivity].
    reflexivity. }
  rewrite Hgen.
  unfold bind, ret, time_time,
    SimulatedBaseWaiterStrategy.set_simulated_delay,
    SimulatedBaseWaiterStrategy.set_propagation_start,
    SimulatedBaseWaiterStrategy.get_propagation_start,
    SimulatedBaseWaiterStrategy.get_simulated_delay.
  cbn [now puts gets sleeps draws _simulated_delay _propagation_start
       after_draws].
  destruct (Qle_bool_spec (48 + (82 - 48) * random_draw env (S (draws s)))
                          (now s - now s)) as [H|H].
  - exfalso. rewrite Hunit in H. lra.
  - reflexivity.
Qed.

Lemma compare_rules_generated name tid :
  compare_rules (generate_lifecycle_config name tid)
                (generate_lifecycle_config name tid) = true.
Proof.
  unfold compare_rules, generate_lifecycle_config.
  cbn [length Nat.eqb negb rules_match rule_ID rule_Status get_neq].
  rewrite !String.eqb_refl. reflexivity.
Qed.

Lemma inject_nat_succ (n : nat) :
  inject_Z (Z.of_nat (S n)) == inject_Z (Z.of_nat n) + 1.
Proof.
  rewrite Nat2Z.inj_succ. unfold Z.succ. rewrite inject_Z_plus. reflexivity.
Qed.

Section NeverEarlyClock.

Variable env : Env.
Hypothesis clock_ok : clock_never_early env.

(** On a clock that is never early a simulated check that returns keeps
    the attributes consistent and does not move the clock backwards. *)
Lemma simulated_check_clock sim config s b s' :
  sim_attrs_ok s ->
  SimulatedBaseWaiterStrategy.check_configuration_match sim config env s
  = Returned b s' ->
  sim_attrs_ok s' /\ now s <= now s'.
Proof.
  intros Hok Hcheck. destruct clock_ok as [_ Hlat].
  pose proof (simulated_check_cases sim config env s Hok) as H.
  rewrite Hcheck in H. destruct H as (Hok' & _ & _ & Hg).
  split; [exact Hok'|].
  destruct Hg as [(_ & Hn & _)|(_ & Hn & _)]; rewrite Hn.
  - apply Qle_refl.
  - specialize (Hlat (gets s)). lra.
Qed.

(** The store shows the configuration of test [tid] on every read. *)
Variable tid : nat.
Hypothesis store_ok :
  forall n, get_outcome env n
            = GetOk (Some (generate_lifecycle_config "Baseline-3s-180s" tid)).

(** From any pass of the loop on: at most 17 checks, and no success before
    51 seconds. *)
Lemma baseline_48s_loop pd ps :
  forall fuel cc ac ph s r s',
    (cc <= 16)%nat ->
    ps <= now s ->
    ((cc = 0%nat /\ _simulated_delay s = None
      /\ random_draw env (draws s) == 1 # 2
      /\ random_draw env (S (draws s)) == 0)
     \/ ((0 < cc)%nat
         /\ exists d t0,
             _simulated_delay s = Some d /\ _propagation_start s = Some t0
             /\ d == 48 /\ ps + 3 <= t0
             /\ t0 + 3 * (inject_Z (Z.of_nat cc) - 1) <= now s)) ->
    BaseWaiterStrategy.polling_loop fuel BaselineStrategy.strategy
      (SimulatedBaseWaiterStrategy.check_configuration_match true) tid
      (generate_lifecycle_config "Baseline-3s-180s" tid) pd ps cc ac ph env s
    = Returned r s' ->
    exists c,
      check_count r = Some c /\ (c <= 17)%nat
      /\ (success r = true ->
          exists pt, propagation_time r = Some pt /\ 51 <= pt).
Proof.
  destruct clock_ok as [Hlag Hlat].
  induction fuel as [|fuel IH]; intros cc ac ph s r s' Hcc Hps Hsim Hrun.
  - discriminate Hrun.
  - rewrite polling_loop_step in Hrun. cbv zeta in Hrun.
    destruct (should_timeout BaselineStrategy.strategy (now s - ps) cc).
    { inversion Hrun; subst; clear Hrun. exists cc.
      cbn [check_count success]. repeat apply conj;
        [reflexivity | lia | discriminate]. }
    change (calculate_next_interval BaselineStrategy.strategy (now s - ps) cc)
      with 3 in Hrun.
    assert (Hsame : _simulated_delay (after_sleep env s 3) = _simulated_delay s
                    /\ _propagation_start (after_sleep env s 3)
                       = _propagation_start s
                    /\ draws (after_sleep env s 3) = draws s)
      by (repeat split).
    assert (Hnow1 : now s + 3 <= now (after_sleep env s 3)).
    { unfold after_sleep. cbn [now]. specialize (Hlag (sleeps s)). lra. }
    destruct Hsame as (Hsd & Hsp & Hsdr).
    remember (after_sleep env s 3) as s1 eqn:Hs1. clear Hs1.
    rewrite <- Hsd, <- Hsp, <- Hsdr in Hsim.
    destruct Hsim as [(-> & Hnone & Hrand & Hunit)
                     |(Hpos & d & t0 & Hd & Ht0 & Hd48 & Hstart & Hsofar)].
    + destruct (simulated_check_first
                  (generate_lifecycle_config "Baseline-3s-180s" tid) env s1
                  Hnone Hrand Hunit) as (d & Hd48 & Hcheck).
      rewrite Hcheck in Hrun.
      apply IH in Hrun; [exact Hrun | lia | cbn [after_first_check now]; lra |].
      right. split; [lia|]. exists d, (now s1).
      cbn [after_first_check _simulated_delay _propagation_start now].
      repeat apply conj; try reflexivity; try assumption; try lra.
      change (inject_Z (Z.of_nat 1)) with 1. lra.
    + rewrite (simulated_check_later _ env s1 d t0 Hd Ht0) in Hrun.
      destruct (Qle_bool_spec d (now s1 - t0)) as [Hreached|Hnot].
      * rewrite base_check_unfold, store_ok, compare_rules_generated in Hrun.
        inversion Hrun; subst; clear Hrun. exists (S cc).
        cbn [check_count success propagation_time].
        repeat apply conj; [reflexivity | lia |].
        intros _. eexists. split; [reflexivity|].
        unfold after_get. cbn [now]. specialize (Hlat (gets s1)). lra.
      * assert (Hcc' : (S cc <= 16)%nat).
        { assert (Hq : inject_Z (Z.of_nat cc) < inject_Z 16).
          { change (inject_Z 16) with 16. lra. }
          rewrite <- Zlt_Qlt in Hq. lia. }
        apply IH in Hrun; [exact Hrun | exact Hcc' | lra |].
        right. split; [lia|]. exists d, t0.
        repeat apply conj; try assumption.
        rewrite inject_nat_succ. lra.
Qed.

(** On any clock that is never early, the Baseline run against a simulated
    delay of 48 seconds makes at most 17 checks, and a successful result has
    a propagation time of at least 51 seconds. *)
Lemma baseline_48s_on_any_clock fuel s r s' :
  random_draw env (draws s) == 1 # 2 ->
  random_draw env (S (draws s)) == 0 ->
  SimulatedBaseWaiterStrategy.run_single_test fuel BaselineStrategy.strategy
    true tid env s = Returned r s' ->
  (forall c, check_count r = Some c -> (c <= 17)%nat)
  /\ (success r = true -> exists pt, propagation_time r = Some pt /\ 51 <= pt).
Proof.
  intros Hrand Hunit.
  rewrite simulated_run_unfold, run_single_test_unfold. cbv zeta.
  destruct (put_outcome env (puts (reset_simulation s))).
  - intros Hrun.
    apply baseline_48s_loop in Hrun.
    + destruct Hrun as (c & Hc & Hle & Hs).
      split; [intros c' Hc'; congruence | exact Hs].
    + lia.
    + apply Qle_refl.
    + left. repeat apply conj; try reflexivity; assumption.
  - intros Hrun. inversion Hrun; subst. cbn [check_count success].
    split; discriminate.
Qed.

End NeverEarlyClock.

(** ** The history window of the Adaptive strategy (C9) *)

Lemma should_timeout_bootstrap (h : list Q) (e : Q) (k : nat) :
  (length h < 3)%nat ->
  AdaptiveStrategy.should_timeout h e k
  = Qle_bool AdaptiveStrategy.min_timeout e.
Proof.
  intros Hlen. unfold AdaptiveStrategy.should_timeout, AdaptiveStrategy.timeout.
  apply Nat.ltb_lt in Hlen. rewrite Hlen.
  destruct (Rge_dec (Q2R e) (Q2R AdaptiveStrategy.min_timeout)) as [Hge|Hlt];
    destruct (Qle_bool_spec AdaptiveStrategy.min_timeout e) as [Hq|Hq];
    try reflexivity; exfalso.
  - apply Qlt_Rlt in Hq. lra.
  - apply Qle_Rle in Hq. lra.
Qed.

Lemma adaptive_bootstrap (h : list Q) :
  (length h < 3)%nat -> AdaptiveStrategy.strategy h = bootstrap_strategy.
Proof.
  intros Hlen. unfold AdaptiveStrategy.strategy, bootstrap_strategy.
  f_equal. extensionality e. extensionality k.
  apply should_timeout_bootstrap, Hlen.
Qed.

Lemma record_time_cases (h : list Q) (x : Q) :
  ((length h < AdaptiveStrategy.history_size)%nat
   -> AdaptiveProbe.record_time h x = h ++ [x])
  /\ ((AdaptiveStrategy.history_size <= length h)%nat
      -> AdaptiveProbe.record_time h x = tl (h ++ [x])).
Proof.
  unfold AdaptiveProbe.record_time. cbv zeta.
  rewrite length_app. cbn [length].
  destruct (Nat.ltb_spec AdaptiveStrategy.history_size (length h + 1));
    split; intros; try reflexivity; lia.
Qed.

Lemma record_time_length (h : list Q) (x : Q) :
  (length h <= AdaptiveStrategy.history_size)%nat ->
  (length (AdaptiveProbe.record_time h x) <= AdaptiveStrategy.history_size)%nat.
Proof.
  intros Hlen.
  destruct (Nat.lt_ge_cases (length h) AdaptiveStrategy.history_size) as [Hlt|Hge].
  - rewrite (proj1 (record_time_cases h x) Hlt).
    rewrite length_app. cbn [length]. lia.
  - rewrite (proj2 (record_time_cases h x) Hge).
    destruct h as [|y h]; cbn [app tl length] in *.
    + unfold AdaptiveStrategy.history_size in *. lia.
    + rewrite length_app. cbn [length]. lia.
Qed.

Lemma tl_skipn {A} (n : nat) (l : list A) : tl (skipn n l) = skipn (S n) l.
Proof.
  revert l. induction n as [|n IH]; intros [|x l]; cbn [skipn tl];
    try reflexivity.
  apply IH.
Qed.

Lemma trailing_length (n : nat) (l : list Q) :
  (length (trailing n l) <= n)%nat.
Proof. unfold trailing. rewrite length_skipn. lia. Qed.

(** Recording a time in the window of the last 20 gives the window of the
    last 20 of the longer sequence. *)
Lemma record_time_trailing (l : list Q) (x : Q) :
  AdaptiveProbe.record_time (trailing AdaptiveStrategy.history_size l) x
  = trailing AdaptiveStrategy.history_size (l ++ [x]).
Proof.
  unfold trailing at 2. rewrite length_app. cbn [length].
  destruct (Nat.lt_ge_cases (length l) AdaptiveStrategy.history_size) as [Hlt|Hge].
  - assert (Htr : trailing AdaptiveStrategy.history_size l = l).
    { unfold trailing. replace (length l - AdaptiveStrategy.history_size)%nat
        with 0%nat by lia. reflexivity. }
    rewrite Htr. rewrite (proj1 (record_time_cases l x) Hlt).
    replace (length l + 1 - AdaptiveStrategy.history_size)%nat with 0%nat by lia.
    reflexivity.
  - assert (Hlen : length (trailing AdaptiveStrategy.history_size l)
                   = AdaptiveStrategy.history_size).
    { unfold trailing. rewrite length_skipn. lia. }
    rewrite (proj2 (record_time_cases _ x)) by lia.
    unfold trailing.
    replace (length l + 1 - AdaptiveStrategy.history_size)%nat
      with (S (length l - AdaptiveStrategy.history_size)) by lia.
    rewrite skipn_app.
    replace (S (length l - AdaptiveStrategy.history_size) - length l)%nat
      with 0%nat by (unfold AdaptiveStrategy.history_size in *; lia).
    change (skipn 0 [x]) with [x]. rewrite <- tl_skipn.
    destruct (skipn (length l - AdaptiveStrategy.history_size) l) as [|y t] eqn:E.
    + exfalso. apply (f_equal (@length Q)) in E. rewrite length_skipn in E.
      cbn [length] in E. unfold AdaptiveStrategy.history_size in *. lia.
    + reflexivity.
Qed.

Lemma successful_times_app (results : list TestResult) (r : TestResult) :
  successful_times (results ++ [r])
  = successful_times results
    ++ (if success r then
          match propagation_time r with Some t => [t] | None => [] end
        else []).
Proof.
  unfold successful_times. rewrite flat_map_app. cbn [flat_map].
  rewrite app_nil_r. reflexivity.
Qed.

(** What one Adaptive iteration does to the window. *)
Lemma adaptive_run_returned fuel sim h tid env s r h' s' :
  AdaptiveProbe.run_single_test fuel sim h tid env s = Returned (r, h') s' ->
  SimulatedBaseWaiterStrategy.run_single_test fuel
    (AdaptiveStrategy.strategy h) sim tid env s = Returned r s'
  /\ ((success r = true
       /\ exists t, propagation_time r = Some t
                    /\ h' = AdaptiveProbe.record_time h t)
      \/ (success r = false /\ h' = h)).
Proof.
  unfold AdaptiveProbe.run_single_test. unfold bind at 1.
  destruct (SimulatedBaseWaiterStrategy.run_single_test fuel
              (AdaptiveStrategy.strategy h) sim tid env s)
    as [r0 s0| |]; try discriminate.
  destruct (success r0) eqn:Hs.
  - destruct (propagation_time r0) as [t|] eqn:Hpt; [|discriminate].
    unfold ret. intros H. inversion H; subst. split; [reflexivity|].
    left. split; [exact Hs|]. exists t. auto.
  - unfold ret. intros H. inversion H; subst. split; [reflexivity|].
    right. auto.
Qed.

(** Through the loop of the test suite the window stays the last 20
    successful propagation times. *)
Lemma run_tests_window fuel sim :
  forall remaining i h results env s results' h' s',
    h = trailing AdaptiveStrategy.history_size (successful_times results) ->
    AdaptiveProbe.run_tests fuel sim remaining i h results env s
    = Returned (results', h') s' ->
    h' = trailing AdaptiveStrategy.history_size (successful_times results')
    /\ length results' = (length results + remaining)%nat.
Proof.
  induction remaining as [|remaining IH];
    intros i h results env s results' h' s' Hinv Hrun.
  - inversion Hrun; subst. split; [reflexivity | lia].
  - cbn [AdaptiveProbe.run_tests] in Hrun. unfold bind at 1 in Hrun.
    destruct (AdaptiveProbe.run_single_test fuel sim h i env s)
      as [[r h1] s1| |] eqn:Hone; try discriminate Hrun.
    unfold bind at 1 in Hrun. unfold time_sleep at 1 in Hrun.
    cbn [fst snd] in Hrun.
    apply IH in Hrun.
    + destruct Hrun as [Hh Hlen]. split; [exact Hh|].
      rewrite Hlen, length_app. cbn [length]. lia.
    + apply adaptive_run_returned in Hone.
      destruct Hone as [_ [(Hs & t & Hpt & ->)|(Hs & ->)]];
        rewrite successful_times_app, Hs.
      * rewrite Hpt, Hinv. apply record_time_trailing.
      * rewrite app_nil_r. exact Hinv.
Qed.

(** C9: the window never holds more than [history_size] = 20 samples; a
    sample recorded into a full window evicts the oldest one, and into a
    shorter window evicts nothing; an iteration changes the window only when
    its result is successful, by recording that result's propagation time;
    so after a test suite the window is the last 20 successful propagation
    times in order. *)
Theorem C9_history_window :
  (forall h x,
      (length h <= 20)%nat ->
      (length (AdaptiveProbe.record_time h x) <= 20)%nat)
  /\ (forall h x,
        (length h < 20)%nat -> AdaptiveProbe.record_time h x = h ++ [x])
  /\ (forall oldest h x,
        length (oldest :: h) = 20%nat ->
        AdaptiveProbe.record_time (oldest :: h) x = h ++ [x])
  /\ (forall fuel sim h tid env s r h' s',
        AdaptiveProbe.run_single_test fuel sim h tid env s
        = Returned (r, h') s' ->
        (success r = true
         /\ exists t, propagation_time r = Some t
                      /\ h' = AdaptiveProbe.record_time h t)
        \/ (success r = false /\ h' = h))
  /\ (forall fuel sim num_tests env s results h s',
        AdaptiveProbe.run_test_suite fuel sim num_tests env s
        = Returned (results, h) s' ->
        (length h <= 20)%nat
        /\ h = trailing 20 (successful_times results)
        /\ length results = num_tests).
Proof.
  repeat apply conj.
  - intros h x. apply record_time_length.
  - intros h x Hlt. apply (proj1 (record_time_cases h x)), Hlt.
  - intros oldest h x Hlen.
    rewrite (proj2 (record_time_cases (oldest :: h) x)); [reflexivity|].
    rewrite Hlen. apply Nat.le_refl.
  - intros fuel sim h tid env s r h' s' Hrun.
    apply adaptive_run_returned in Hrun. apply Hrun.
  - intros fuel sim num_tests env s results h s' Hrun.
    apply run_tests_window in Hrun; [|reflexivity].
    destruct Hrun as [-> Hn]. repeat apply conj.
    + apply trailing_length.
    + reflexivity.
    + exact Hn.
Qed.

Lemma C9_history_window_witness :
  (length (AdaptiveProbe.record_time (repeat 1%Q 20) 2) <= 20)%nat
  /\ AdaptiveProbe.record_time (0 :: repeat 1%Q 19) 2 = repeat 1%Q 19 ++ [2]
  /\ exists results h s',
       AdaptiveProbe.run_test_suite 5 false 1 env_adaptive_visible initial_state
       = Returned (results, h) s'
       /\ (length h <= 20)%nat
       /\ h = trailing 20 (successful_times results)
       /\ length results = 1%nat.
Proof.
  destruct C9_history_window as (Hlen & _ & Hfifo & _ & Hsuite).
  split; [|split].
  - apply Hlen. rewrite repeat_length. apply Nat.le_refl.
  - apply Hfifo. reflexivity.
  - assert (Hrun : exists results h s',
               AdaptiveProbe.run_test_suite 5 false 1 env_adaptive_visible
                 initial_state = Returned (results, h) s').
    { unfold AdaptiveProbe.run_test_suite.
      cbn [AdaptiveProbe.run_tests]. unfold AdaptiveProbe.run_single_test.
      rewrite adaptive_bootstrap by (cbn; lia).
      unfold bind at 1. unfold bind at 1.
      match goal with
      | |- context [SimulatedBaseWaiterStrategy.run_single_test ?f ?st ?sm ?t ?e ?s] =>
          let v := eval vm_compute in
                     (SimulatedBaseWaiterStrategy.run_single_test f st sm t e s) in
          change (SimulatedBaseWaiterStrategy.run_single_test f st sm t e s)
            with v
      end.
      cbn. eexists. eexists. eexists. reflexivity. }
    destruct Hrun as (results & h & s' & Hrun).
    exists results, h, s'. split; [exact Hrun|].
    apply (Hsuite 5%nat false 1%nat env_adaptive_visible initial_state
                  results h s' Hrun).
Defined.

(** * Further properties of the code *)

(** ** How many checks a probe can make *)

Lemma ideal_clock_never_early get draw : clock_never_early (ideal_env get draw).
Proof. split; intros n; apply Qle_refl. Qed.

Section CheckBudget.

Variable env : Env.
Hypothesis clock_ok : clock_never_early env.
Variable strategy : WaiterStrategy.
Variable budget : Q -> Q.
Hypothesis budget_positive :
  forall e k, should_timeout strategy e k = false -> 0 < budget e.
Hypothesis budget_spent :
  forall e e' k,
    should_timeout strategy e k = false ->
    e + calculate_next_interval strategy e k <= e' ->
    budget e' <= budget e - 1.

Lemma loop_within_budget sim tid config pd ps :
  forall n fuel cc ac ph s,
    budget (now s - ps) <= inject_Z (Z.of_nat n) ->
    (n < fuel)%nat ->
    sim_attrs_ok s ->
    match BaseWaiterStrategy.polling_loop fuel strategy
            (SimulatedBaseWaiterStrategy.check_configuration_match sim) tid
            config pd ps cc ac ph env s with
    | Returned r _ => exists c, check_count r = Some c /\ (c <= cc + n)%nat
    | Raised e _ =>
        e = lookup_error /\ exists k e0, get_outcome env k = GetRaises e0
    | Diverge => False
    end.
Proof.
  induction n as [|n IH]; intros fuel cc ac ph s Hb Hfuel Hok;
    (destruct fuel as [|fuel]; [lia|]);
    rewrite polling_loop_step; cbv zeta;
    destruct (should_timeout strategy (now s - ps) cc) eqn:Hto;
    try (exists cc; split; [reflexivity | lia]).
  - exfalso. apply budget_positive in Hto.
    change (inject_Z (Z.of_nat 0)) with 0 in Hb. lra.
  - pose proof (budget_positive _ _ Hto) as Hpos.
    set (d := calculate_next_interval strategy (now s - ps) cc) in *.
    assert (Hnow1 : now s + d <= now (after_sleep env s d)).
    { unfold after_sleep. cbn [now].
      destruct clock_ok as [Hlag _]. specialize (Hlag (sleeps s)). lra. }
    pose proof (simulated_check_cases sim config env (after_sleep env s d)
                  Hok) as Hcase.
    destruct (SimulatedBaseWaiterStrategy.check_configuration_match sim config
                env (after_sleep env s d)) as [b s2|e s2|] eqn:Hcheck.
    + destruct (simulated_check_clock env clock_ok sim config
                  (after_sleep env s d) b s2 Hok Hcheck) as [Hok2 Hnow2].
      destruct b; [exists (S cc); split; [reflexivity | lia]|].
      assert (Hb2 : budget (now s2 - ps) <= inject_Z (Z.of_nat n)).
      { assert (Hstep : budget (now s2 - ps) <= budget (now s - ps) - 1).
        { apply (budget_spent _ _ cc Hto). fold d. lra. }
        rewrite inject_nat_succ in Hb. lra. }
      specialize (IH fuel (S cc) (S ac)
                    (ph ++ [mkAttempt (S cc) (now s2 - ps)
                                      (now s2 - now (after_sleep env s d))
                                      false])
                    s2 Hb2 ltac:(lia) Hok2).
      destruct (BaseWaiterStrategy.polling_loop fuel strategy _ tid config pd
                  ps (S cc) (S ac) _ env s2) as [r s'|e s'|];
        [|exact IH|exact IH].
      destruct IH as (c & Hc & Hle). exists c. split; [exact Hc | lia].
    + destruct Hcase as (He & _ & e0 & Hget).
      split; [exact He|]. eexists. exists e0. exact Hget.
    + exact Hcase.
Qed.

Lemma run_within_budget fuel sim tid s (n : nat) :
  (forall e, 0 <= e -> budget e <= inject_Z (Z.of_nat n)) ->
  (n < fuel)%nat ->
  ends_within env n
    (SimulatedBaseWaiterStrategy.run_single_test fuel strategy sim tid env s).
Proof.
  intros Hstart Hfuel.
  rewrite simulated_run_unfold, run_single_test_unfold. cbv zeta.
  destruct (put_outcome env (puts (reset_simulation s))).
  - pose proof (loop_within_budget sim tid
                  (generate_lifecycle_config (strategy_name strategy) tid)
                  (now (after_put env (reset_simulation s))
                   - now (reset_simulation s))
                  (now (after_put env (reset_simulation s)))
                  n fuel 0%nat 1%nat [] (after_put env (reset_simulation s)))
      as Hloop.
    destruct (BaseWaiterStrategy.polling_loop fuel strategy _ tid _ _ _ 0 1
                [] env (after_put env (reset_simulation s)))
      as [r s'|e s'|] eqn:Hrun; cbn [ends_within].
    + destruct Hloop as (c & Hc & Hle).
      * apply Hstart. lra.
      * exact Hfuel.
      * unfold sim_attrs_ok. cbn. intros H. contradiction.
      * apply polling_loop_returned in Hrun.
        destruct Hrun as (c0 & pt & h & _ & _ & _ & Hc0 & Ha0 & _).
        rewrite Hc in Hc0. inversion Hc0; subst c0.
        split.
        -- intros c' Hc'. rewrite Hc in Hc'. inversion Hc'; subst. lia.
        -- intros a Ha. rewrite Ha0 in Ha. inversion Ha; subst. lia.
    + apply Hloop.
      * apply Hstart. lra.
      * exact Hfuel.
      * unfold sim_attrs_ok. cbn. intros H. contradiction.
    + apply Hloop.
      * apply Hstart. lra.
      * exact Hfuel.
      * unfold sim_attrs_ok. cbn. intros H. contradiction.
  - cbn [ends_within check_count api_calls]. split; discriminate.
Qed.

End CheckBudget.

(** Against a store that answers every GET, an iteration that ends
    returns. *)
Lemma ends_within_returns env n (run : Outcome TestResult) :
  store_answers env ->
  ends_within env n run ->
  exists r s',
    run = Returned r s'
    /\ (forall c, check_count r = Some c -> (c <= n)%nat)
    /\ (forall a, api_calls r = Some a -> (a <= n + 1)%nat).
Proof.
  intros Hstore Hends. destruct run as [r s'|e s'|]; cbn [ends_within] in Hends.
  - exists r, s'. split; [reflexivity | exact Hends].
  - exfalso. destruct Hends as (_ & k & e0 & Hget).
    destruct (Hstore k) as [response Hok]. rewrite Hok in Hget.
    discriminate Hget.
  - contradiction.
Qed.

Lemma ideal_store_answers name draw :
  store_answers (ideal_env (store_shows name) draw).
Proof. intros n. eexists. reflexivity. Qed.

Lemma fixed_budget_positive (timeout interval e : Q) :
  0 < interval -> e < timeout -> 0 < fixed_budget timeout interval e.
Proof.
  intros Hi He. unfold fixed_budget.
  apply Qlt_shift_div_l; [exact Hi | lra].
Qed.

Lemma fixed_budget_spent (timeout interval e e' : Q) :
  0 < interval -> e + interval <= e' ->
  fixed_budget timeout interval e' <= fixed_budget timeout interval e - 1.
Proof.
  intros Hi He. unfold fixed_budget.
  assert (H1 : (timeout - e) / interval - 1 == (timeout - e - interval) / interval)
    by (field; lra).
  rewrite H1. unfold Qdiv.
  apply Qmult_le_compat_r; [lra|].
  apply Qlt_le_weak, Qinv_lt_0_compat, Hi.
Qed.

Lemma fixed_budget_start (timeout interval e : Q) :
  0 < interval -> 0 <= e ->
  fixed_budget timeout interval e <= timeout / interval.
Proof.
  intros Hi He. unfold fixed_budget, Qdiv.
  apply Qmult_le_compat_r; [lra|].
  apply Qlt_le_weak, Qinv_lt_0_compat, Hi.
Qed.

(** X1.  On a clock that is never early an iteration of the Baseline probe
    (3 s, 180 s) ends within 60 checks, and one of the Extended probe
    (3 s, 600 s) within 200: with that much fuel and one more the run does
    not go on; it returns a result with [check_count <= 60] ([<= 200]) and
    one more API call at most, or it ends in the failed lookup of a check
    whose GET raised.  Against a store that answers every GET it returns. *)
Theorem fixed_strategies_check_bound env fuel sim tid s :
  clock_never_early env ->
  ((60 < fuel)%nat ->
   ends_within env 60
     (SimulatedBaseWaiterStrategy.run_single_test fuel
        BaselineStrategy.strategy sim tid env s)
   /\ (store_answers env ->
       exists r s',
         SimulatedBaseWaiterStrategy.run_single_test fuel
           BaselineStrategy.strategy sim tid env s = Returned r s'
         /\ (forall c, check_count r = Some c -> (c <= 60)%nat)
         /\ (forall a, api_calls r = Some a -> (a <= 61)%nat)))
  /\ ((200 < fuel)%nat ->
      ends_within env 200
        (SimulatedBaseWaiterStrategy.run_single_test fuel
           ExtendedTimeoutStrategy.strategy sim tid env s)
      /\ (store_answers env ->
          exists r s',
            SimulatedBaseWaiterStrategy.run_single_test fuel
              ExtendedTimeoutStrategy.strategy sim tid env s = Returned r s'
            /\ (forall c, check_count r = Some c -> (c <= 200)%nat)
            /\ (forall a, api_calls r = Some a -> (a <= 201)%nat))).
Proof.
  intros Hclock. split; intros Hfuel.
  - assert (H : ends_within env 60
                  (SimulatedBaseWaiterStrategy.run_single_test fuel
                     BaselineStrategy.strategy sim tid env s)).
    { apply (run_within_budget env Hclock BaselineStrategy.strategy
               (fixed_budget 180 3)).
      + intros e k Hto. apply fixed_budget_positive; [reflexivity|].
        apply Qle_bool_false_iff. exact Hto.
      + intros e e' k _ He. apply fixed_budget_spent; [reflexivity | exact He].
      + intros e He.
        apply (Qle_trans _ (180 / 3));
          [apply fixed_budget_start; [reflexivity | exact He] | discriminate].
      + exact Hfuel. }
    split; [exact H|]. intros Hstore.
    exact (ends_within_returns env 60 _ Hstore H).
  - assert (H : ends_within env 200
                  (SimulatedBaseWaiterStrategy.run_single_test fuel
                     ExtendedTimeoutStrategy.strategy sim tid env s)).
    { apply (run_within_budget env Hclock ExtendedTimeoutStrategy.strategy
               (fixed_budget 600 3)).
      + intros e k Hto. apply fixed_budget_positive; [reflexivity|].
        apply Qle_bool_false_iff. exact Hto.
      + intros e e' k _ He. apply fixed_budget_spent; [reflexivity | exact He].
      + intros e He.
        apply (Qle_trans _ (600 / 3));
          [apply fixed_budget_start; [reflexivity | exact He] | discriminate].
      + exact Hfuel. }
    split; [exact H|]. intros Hstore.
    exact (ends_within_returns env 200 _ Hstore H).
Qed.

Lemma fixed_strategies_check_bound_witness :
  (exists r s',
     SimulatedBaseWaiterStrategy.run_single_test 61
       BaselineStrategy.strategy true 0 env_delay_200 initial_state
     = Returned r s'
     /\ (forall c, check_count r = Some c -> (c <= 60)%nat)
     /\ (forall a, api_calls r = Some a -> (a <= 61)%nat))
  /\ (exists r s',
        SimulatedBaseWaiterStrategy.run_single_test 201
          ExtendedTimeoutStrategy.strategy true 0 env_delay_200 initial_state
        = Returned r s'
        /\ (forall c, check_count r = Some c -> (c <= 200)%nat)
        /\ (forall a, api_calls r = Some a -> (a <= 201)%nat)).
Proof.
  split.
  - exact (proj2 (proj1 (fixed_strategies_check_bound env_delay_200 61 true 0
                           initial_state (ideal_clock_never_early _ _))
                        (Nat.lt_succ_diag_r 60))
                 (ideal_store_answers _ _)).
  - exact (proj2 (proj2 (fixed_strategies_check_bound env_delay_200 201 true 0
                           initial_state (ideal_clock_never_early _ _))
                        (Nat.lt_succ_diag_r 200))
                 (ideal_store_answers _ _)).
Defined.

Ltac tiers e :=
  unfold hybrid_budget, adaptive_budget,
    HybridStrategy.calculate_next_interval,
    AdaptiveStrategy.calculate_next_interval in *;
  destruct (Qlt_bool_spec e 30), (Qlt_bool_spec e 60),
    (Qlt_bool_spec e 120), (Qlt_bool_spec e 180);
  unfold Qdiv in *;
  change (/ 2) with (1 # 2) in *; change (/ 4) with (1 # 4) in *;
  change (/ 8) with (1 # 8) in *; change (/ 10) with (1 # 10) in *;
  change (/ 15) with (1 # 15) in *;
  try (exfalso; lra).

Lemma hybrid_budget_positive (e : Q) : e < 600 -> 0 < hybrid_budget e.
Proof. intros He. tiers e; lra. Qed.

Lemma hybrid_budget_start (e : Q) : 0 <= e -> hybrid_budget e <= 65.
Proof. intros He. tiers e; lra. Qed.

Lemma hybrid_budget_spent (e e' : Q) (k : nat) :
  e + HybridStrategy.calculate_next_interval e k <= e' ->
  hybrid_budget e' <= hybrid_budget e - 1.
Proof. intros He. tiers e; tiers e'; lra. Qed.

Lemma adaptive_budget_positive (e : Q) : e < 600 -> 0 < adaptive_budget e.
Proof. intros He. tiers e; lra. Qed.

Lemma adaptive_budget_start (e : Q) : 0 <= e -> adaptive_budget e <= 68.
Proof. intros He. tiers e; lra. Qed.

Lemma adaptive_budget_spent (e e' : Q) (k : nat) :
  e + AdaptiveStrategy.calculate_next_interval e k <= e' ->
  adaptive_budget e' <= adaptive_budget e - 1.
Proof. intros He. tiers e; tiers e'; lra. Qed.

Lemma adaptive_timeout_range (h : list Q) :
  (300 <= AdaptiveStrategy.timeout h <= 600)%R.
Proof.
  assert (Hmin : Q2R AdaptiveStrategy.min_timeout = 300%R)
    by apply (Q2R_inject_Z 300).
  assert (Hmax : Q2R AdaptiveStrategy.max_timeout = 600%R)
    by apply (Q2R_inject_Z 600).
  unfold AdaptiveStrategy.timeout.
  destruct (length h <? 3)%nat.
  - rewrite Hmin. lra.
  - cbv zeta. rewrite Hmin, Hmax.
    set (t := (Q2R (AdaptiveStrategy.mean h) + 3 * AdaptiveStrategy.stdev h)%R).
    split.
    + apply Rmax_l.
    + apply Rmax_lub; [lra | apply Rmin_r].
Qed.

Lemma adaptive_running_below_600 (h : list Q) (e : Q) (k : nat) :
  AdaptiveStrategy.should_timeout h e k = false -> e < 600.
Proof.
  unfold AdaptiveStrategy.should_timeout.
  destruct (Rge_dec (Q2R e) (AdaptiveStrategy.timeout h)) as [Hge|Hlt];
    [discriminate|]. intros _.
  apply Rlt_Qlt. change 600 with (inject_Z 600). rewrite Q2R_inject_Z.
  pose proof (adaptive_timeout_range h). lra.
Qed.

(** X2.  On a clock that is never early an iteration of the Hybrid probe
    ends within 65 checks: it returns a result with at most 65 checks and
    66 API calls, or it ends in the failed lookup of a check whose GET
    raised.  Against a store that answers every GET it returns. *)
Theorem hybrid_check_bound env fuel sim tid s :
  clock_never_early env ->
  (65 < fuel)%nat ->
  ends_within env 65
    (SimulatedBaseWaiterStrategy.run_single_test fuel HybridStrategy.strategy
       sim tid env s)
  /\ (store_answers env ->
      exists r s',
        SimulatedBaseWaiterStrategy.run_single_test fuel
          HybridStrategy.strategy sim tid env s = Returned r s'
        /\ (forall c, check_count r = Some c -> (c <= 65)%nat)
        /\ (forall a, api_calls r = Some a -> (a <= 66)%nat)).
Proof.
  intros Hclock Hfuel.
  assert (H : ends_within env 65
                (SimulatedBaseWaiterStrategy.run_single_test fuel
                   HybridStrategy.strategy sim tid env s)).
  { apply (run_within_budget env Hclock HybridStrategy.strategy
             hybrid_budget).
    - intros e k Hto. apply hybrid_budget_positive.
      apply Qle_bool_false_iff. exact Hto.
    - intros e e' k _ He. apply (hybrid_budget_spent e e' k He).
    - intros e He. apply hybrid_budget_start, He.
    - exact Hfuel. }
  split; [exact H|]. intros Hstore.
  exact (ends_within_returns env 65 _ Hstore H).
Qed.

Lemma hybrid_check_bound_witness :
  exists r s',
    SimulatedBaseWaiterStrategy.run_single_test 66 HybridStrategy.strategy
      true 0 env_delay_200 initial_state = Returned r s'
    /\ (forall c, check_count r = Some c -> (c <= 65)%nat)
    /\ (forall a, api_calls r = Some a -> (a <= 66)%nat).
Proof.
  exact (proj2 (hybrid_check_bound env_delay_200 66 true 0 initial_state
                  (ideal_clock_never_early _ _) (Nat.lt_succ_diag_r 65))
               (ideal_store_answers _ _)).
Defined.

(** X3.  Whatever its history, on a clock that is never early an iteration
    of the Adaptive probe ends within 68 checks: it returns a result with at
    most 68 checks and 69 API calls, or it ends in the failed lookup of a
    check whose GET raised.  Against a store that answers every GET it
    returns. *)
Theorem adaptive_check_bound env fuel sim (history : list Q) tid s :
  clock_never_early env ->
  (68 < fuel)%nat ->
  ends_within env 68
    (SimulatedBaseWaiterStrategy.run_single_test fuel
       (AdaptiveStrategy.strategy history) sim tid env s)
  /\ (store_answers env ->
      exists r s',
        SimulatedBaseWaiterStrategy.run_single_test fuel
          (AdaptiveStrategy.strategy history) sim tid env s = Returned r s'
        /\ (forall c, check_count r = Some c -> (c <= 68)%nat)
        /\ (forall a, api_calls r = Some a -> (a <= 69)%nat)).
Proof.
  intros Hclock Hfuel.
  assert (H : ends_within env 68
                (SimulatedBaseWaiterStrategy.run_single_test fuel
                   (AdaptiveStrategy.strategy history) sim tid env s)).
  { apply (run_within_budget env Hclock (AdaptiveStrategy.strategy history)
             adaptive_budget).
    - intros e k Hto. apply adaptive_budget_positive.
      apply (adaptive_running_below_600 history e k Hto).
    - intros e e' k _ He. apply (adaptive_budget_spent e e' k He).
    - intros e He. apply adaptive_budget_start, He.
    - exact Hfuel. }
  split; [exact H|]. intros Hstore.
  exact (ends_within_returns env 68 _ Hstore H).
Qed.

Lemma adaptive_check_bound_witness :
  exists r s',
    SimulatedBaseWaiterStrategy.run_single_test 69
      (AdaptiveStrategy.strategy [40; 50; 60]) true 0 env_adaptive_visible
      initial_state = Returned r s'
    /\ (forall c, check_count r = Some c -> (c <= 68)%nat)
    /\ (forall a, api_calls r = Some a -> (a <= 69)%nat).
Proof.
  exact (proj2 (adaptive_check_bound env_adaptive_visible 69 true [40; 50; 60]
                  0 initial_state (ideal_clock_never_early _ _)
                  (Nat.lt_succ_diag_r 68))
               (ideal_store_answers _ _)).
Defined.

(** ** The telemetry of an iteration *)

Lemma seq_snoc (a n : nat) : seq a (S n) = seq a n ++ [(a + n)%nat].
Proof. rewrite seq_S. reflexivity. Qed.

(** The attempts a loop appends: numbered on from the count so far, all
    non-matching but the last one of a success. *)
Lemma polling_loop_history fuel strategy check tid config pd ps :
  forall cc ac ph env s r s',
    BaseWaiterStrategy.polling_loop fuel strategy check tid config pd ps
      cc ac ph env s = Returned r s' ->
    exists c h,
      (cc <= c)%nat
      /\ check_count r = Some c
      /\ polling_history r = Some (ph ++ h)
      /\ map attempt h = seq (S cc) (c - cc)
      /\ map matched h
         = if success r then repeat false (c - cc - 1) ++ [true]
           else repeat false (c - cc).
Proof.
  induction fuel as [|fuel IH]; intros cc ac ph env s r s' Hrun.
  - discriminate Hrun.
  - rewrite polling_loop_step in Hrun. cbv zeta in Hrun.
    destruct (should_timeout strategy (now s - ps) cc).
    + inversion Hrun; subst; clear Hrun. exists cc, [].
      cbn [check_count polling_history success].
      rewrite Nat.sub_diag, app_nil_r. repeat split. apply Nat.le_refl.
    + destruct (check config env _) as [m s2| |]; try discriminate Hrun.
      destruct m.
      * inversion Hrun; subst; clear Hrun. eexists (S cc), [_].
        cbn [check_count polling_history success].
        replace (S cc - cc)%nat with 1%nat by lia.
        repeat split. lia.
      * apply IH in Hrun.
        destruct Hrun as (c & h & Hle & Hc & Hh & Hatt & Hm).
        eexists c, (_ :: h).
        split; [lia|]. split; [exact Hc|].
        split; [rewrite Hh, <- app_assoc; reflexivity|].
        replace (c - cc)%nat with (S (c - S cc)) by lia.
        cbn [map attempt matched seq]. rewrite Hatt.
        split; [reflexivity|].
        rewrite Hm. destruct (success r).
        -- assert (Hlen : (c - S cc = c - S cc - 1 + 1)%nat).
           { pose proof (f_equal (@length _) Hatt) as L1.
             pose proof (f_equal (@length _) Hm) as L2.
             rewrite length_map, length_seq in L1.
             rewrite length_map, length_app, repeat_length in L2.
             cbn [length] in L2. lia. }
           replace (S (c - S cc) - 1)%nat with (S (c - S cc - 1)) by lia.
           reflexivity.
        -- reflexivity.
Qed.

(** X4.  In every result that carries a [polling_history], it has exactly
    [check_count] entries, numbered 1, 2, ... in order; every entry is a
    non-match, except the last entry of a successful result, which is the
    match.  This holds whatever check method the probe runs. *)
Theorem polling_history_structure fuel strategy check tid env s r s' h :
  BaseWaiterStrategy.run_single_test fuel strategy check tid env s
  = Returned r s' ->
  polling_history r = Some h ->
  exists c,
    check_count r = Some c
    /\ length h = c
    /\ map attempt h = seq 1 c
    /\ map matched h
       = if success r then repeat false (c - 1) ++ [true]
         else repeat false c.
Proof.
  rewrite run_single_test_unfold. cbv zeta.
  destruct (put_outcome env (puts s)); intros Hrun Hh.
  - apply polling_loop_history in Hrun.
    destruct Hrun as (c & h' & _ & Hc & Hh' & Hatt & Hm).
    rewrite Hh' in Hh. cbn [app] in Hh. inversion Hh; subst h'.
    rewrite Nat.sub_0_r in Hatt, Hm.
    exists c. repeat apply conj; try assumption.
    rewrite <- (length_map attempt), Hatt. apply length_seq.
  - inversion Hrun; subst. discriminate Hh.
Qed.

Lemma polling_history_structure_witness :
  exists r s' h,
    BaseWaiterStrategy.run_single_test 18 BaselineStrategy.strategy
      (SimulatedBaseWaiterStrategy.check_configuration_match true) 0
      env_delay_48 initial_state = Returned r s'
    /\ polling_history r = Some h
    /\ map attempt h = seq 1 17
    /\ map matched h = repeat false 16 ++ [true].
Proof.
  eexists. eexists. eexists.
  split; [vm_compute; reflexivity|]. split; [reflexivity|].
  match goal with
  | |- map attempt ?h = _ /\ _ =>
      destruct (polling_history_structure
                  18 BaselineStrategy.strategy
                  (SimulatedBaseWaiterStrategy.check_configuration_match true)
                  0 env_delay_48 initial_state _ _ h
                  ltac:(vm_compute; reflexivity) eq_refl)
        as (c & Hc & _ & Hatt & Hm)
  end.
  cbn [check_count] in Hc. inversion Hc; subst c.
  split; [exact Hatt | exact Hm].
Defined.

(** ** Remote calls made by an iteration *)

(** One simulated check that returns: it made no PUT and no sleep, and one
    GET or none; none only while simulating, and never when it answers
    [True]. *)
Lemma simulated_check_effect sim config env s b s' :
  sim_attrs_ok s ->
  SimulatedBaseWaiterStrategy.check_configuration_match sim config env s
  = Returned b s' ->
  sim_attrs_ok s'
  /\ puts s' = puts s /\ sleeps s' = sleeps s
  /\ ((gets s' = gets s /\ b = false /\ sim = true)
      \/ (gets s' = S (gets s)
          /\ (b = true ->
              exists resp,
                get_outcome env (gets s) = GetOk resp
                /\ compare_rules
                     (match resp with Some rs => rs | None => [] end)
                     config = true))).
Proof.
  intros Hok Hcheck.
  pose proof (simulated_check_cases sim config env s Hok) as H.
  rewrite Hcheck in H. destruct H as (Hok' & Hp & Hsl & Hg).
  split; [exact Hok'|]. split; [exact Hp|]. split; [exact Hsl|].
  destruct Hg as [(Hg & _ & Hb & Hsim)|(Hg & _ & resp & Hget & Hb)].
  - left. split; [exact Hg|]. split; [exact Hb | exact Hsim].
  - right. split; [exact Hg|]. intros Htrue. exists resp.
    split; [exact Hget|]. rewrite <- Hb. exact Htrue.
Qed.

Lemma polling_loop_calls fuel strategy sim tid config pd ps :
  forall cc ac ph env s r s',
    sim_attrs_ok s ->
    BaseWaiterStrategy.polling_loop fuel strategy
      (SimulatedBaseWaiterStrategy.check_configuration_match sim) tid config
      pd ps cc ac ph env s = Returned r s' ->
    exists c,
      check_count r = Some c /\ (cc <= c)%nat
      /\ puts s' = puts s
      /\ sleeps s' = (sleeps s + (c - cc))%nat
      /\ (gets s <= gets s' <= gets s + (c - cc))%nat
      /\ (sim = false -> gets s' = (gets s + (c - cc))%nat)
      /\ (success r = true ->
          (gets s < gets s')%nat
          /\ exists resp,
              get_outcome env (gets s' - 1) = GetOk resp
              /\ compare_rules (match resp with Some rs => rs | None => [] end)
                               config = true).
Proof.
  induction fuel as [|fuel IH]; intros cc ac ph env s r s' Hok Hrun.
  - discriminate Hrun.
  - rewrite polling_loop_step in Hrun. cbv zeta in Hrun.
    destruct (should_timeout strategy (now s - ps) cc).
    + inversion Hrun; subst; clear Hrun. exists cc.
      cbn [check_count success]. rewrite Nat.sub_diag, !Nat.add_0_r.
      repeat apply conj; try reflexivity; try lia; try discriminate.
    + set (s1 := after_sleep env s
                   (calculate_next_interval strategy (now s - ps) cc)) in *.
      assert (Hs1 : puts s1 = puts s /\ gets s1 = gets s
                    /\ sleeps s1 = S (sleeps s)) by (repeat split).
      destruct Hs1 as (Hp1 & Hg1 & Hsl1).
      destruct (SimulatedBaseWaiterStrategy.check_configuration_match sim
                  config env s1) as [b s2|e2 s2|] eqn:Hcheck;
        [|discriminate Hrun|discriminate Hrun].
      destruct (simulated_check_effect sim config env s1 b s2 Hok Hcheck)
        as (Hok2 & Hp2 & Hsl2 & Hg2).
      clearbody s1. destruct b.
      * inversion Hrun; subst; clear Hrun. exists (S cc).
        cbn [check_count success].
        replace (S cc - cc)%nat with 1%nat by lia.
        destruct Hg2 as [(_ & Hf & _)|(Hg2 & Hresp)]; [discriminate|].
        repeat apply conj; try reflexivity; try lia.
        intros _. split; [lia|].
        rewrite Hg2. replace (S (gets s1) - 1)%nat with (gets s1) by lia.
        apply Hresp. reflexivity.
      * apply IH in Hrun; [|exact Hok2].
        destruct Hrun as (c & Hc & Hle & Hp & Hsl & Hg & Hgs & Hsucc).
        assert (Hg2' : (gets s2 = gets s1 /\ sim = true)
                       \/ gets s2 = S (gets s1))
          by (destruct Hg2 as [(? & _ & ?)|(? & _)]; auto).
        clear Hg2.
        exists c. split; [exact Hc|]. split; [lia|].
        split; [congruence|]. split; [lia|].
        split; [destruct Hg2' as [[? _]|?]; lia|].
        split.
        -- intros Hsim. specialize (Hgs Hsim).
           destruct Hg2' as [[_ Hs]|Hg2]; [congruence | lia].
        -- intros Htrue. destruct (Hsucc Htrue) as [Hlt Hresp].
           split; [destruct Hg2' as [[? _]|?]; lia | exact Hresp].
Qed.

(** X5.  An iteration of the probe makes exactly one PUT, sleeps exactly
    once per check, and makes at most one GET per check: exactly one per
    check when the simulation is off, possibly fewer when it is on, so that
    [api_calls] then counts checks that reached no store. *)
Theorem iteration_remote_calls fuel strategy sim tid env s r s' :
  SimulatedBaseWaiterStrategy.run_single_test fuel strategy sim tid env s
  = Returned r s' ->
  puts s' = S (puts s)
  /\ (forall c, check_count r = Some c ->
                sleeps s' = (sleeps s + c)%nat
                /\ (gets s <= gets s' <= gets s + c)%nat
                /\ (sim = false -> gets s' = (gets s + c)%nat))
  /\ (check_count r = None -> sleeps s' = sleeps s /\ gets s' = gets s).
Proof.
  rewrite simulated_run_unfold, run_single_test_unfold. cbv zeta.
  change (puts (reset_simulation s)) with (puts s).
  destruct (put_outcome env (puts s)); intros Hrun.
  - apply polling_loop_calls in Hrun;
      [|unfold sim_attrs_ok; cbn; intros H; contradiction].
    destruct Hrun as (c & Hc & _ & Hp & Hsl & Hg & Hgs & _).
    rewrite Nat.sub_0_r in Hsl, Hg, Hgs.
    cbn [after_put reset_simulation puts sleeps gets] in Hp, Hsl, Hg, Hgs.
    repeat apply conj.
    + exact Hp.
    + intros c' Hc'. rewrite Hc in Hc'. inversion Hc'; subst c'.
      repeat apply conj; try assumption; apply Hg.
    + intros Hnone. rewrite Hc in Hnone. discriminate Hnone.
  - inversion Hrun; subst; clear Hrun.
    cbn [after_put reset_simulation puts sleeps gets check_count].
    split; [reflexivity|]. split; [discriminate|].
    intros _. split; reflexivity.
Qed.

Lemma iteration_remote_calls_witness :
  exists r s',
    SimulatedBaseWaiterStrategy.run_single_test 18 BaselineStrategy.strategy
      true 0 env_delay_48 initial_state = Returned r s'
    /\ check_count r = Some 17%nat
    /\ puts s' = 1%nat /\ sleeps s' = 17%nat /\ gets s' = 1%nat.
Proof.
  eexists. eexists. split; [vm_compute; reflexivity|].
  split; [reflexivity|].
  match goal with
  | |- puts ?s' = _ /\ _ =>
      destruct (iteration_remote_calls
                  18 BaselineStrategy.strategy true 0 env_delay_48
                  initial_state _ s' ltac:(vm_compute; reflexivity))
        as (Hp & Hc & _)
  end.
  split; [exact Hp|].
  destruct (Hc 17%nat eq_refl) as (Hsl & _ & _).
  split; [exact Hsl | reflexivity].
Defined.

(** X6.  A successful result is always backed by the store: the last GET of
    the iteration answered, and its rules match the configuration that was
    PUT, with the simulation on as well as off. *)
Theorem success_needs_matching_get fuel strategy sim tid env s r s' :
  SimulatedBaseWaiterStrategy.run_single_test fuel strategy sim tid env s
  = Returned r s' ->
  success r = true ->
  (gets s < gets s')%nat
  /\ exists resp,
      get_outcome env (gets s' - 1) = GetOk resp
      /\ compare_rules (match resp with Some rs => rs | None => [] end)
                       (generate_lifecycle_config (strategy_name strategy) tid)
         = true.
Proof.
  rewrite simulated_run_unfold, run_single_test_unfold. cbv zeta.
  change (puts (reset_simulation s)) with (puts s).
  destruct (put_outcome env (puts s)); intros Hrun Hs.
  - apply polling_loop_calls in Hrun;
      [|unfold sim_attrs_ok; cbn; intros H; contradiction].
    destruct Hrun as (c & _ & _ & _ & _ & _ & _ & Hsucc).
    apply (Hsucc Hs).
  - inversion Hrun; subst. discriminate Hs.
Qed.

Lemma success_needs_matching_get_witness :
  exists r s',
    SimulatedBaseWaiterStrategy.run_single_test 18 BaselineStrategy.strategy
      true 0 env_delay_48 initial_state = Returned r s'
    /\ (gets initial_state < gets s')%nat
    /\ exists resp,
        get_outcome env_delay_48 (gets s' - 1) = GetOk resp
        /\ compare_rules (match resp with Some rs => rs | None => [] end)
                         (generate_lifecycle_config "Baseline-3s-180s" 0)
           = true.
Proof.
  eexists. eexists. split; [vm_compute; reflexivity|].
  eapply (success_needs_matching_get
            18 BaselineStrategy.strategy true 0 env_delay_48 initial_state).
  - vm_compute. reflexivity.
  - reflexivity.
Defined.

(** ** The simulated delay *)

(** The drawn delay depends on the random state only. *)
Lemma generate_delay_draws env s1 s2 d :
  draws s1 = draws s2 ->
  SimulatedBaseWaiterStrategy._generate_propagation_delay env s1
  = Returned d (after_draws s1) ->
  SimulatedBaseWaiterStrategy._generate_propagation_delay env s2
  = Returned d (after_draws s2).
Proof.
  intros Hdr.
  unfold SimulatedBaseWaiterStrategy._generate_propagation_delay,
    random_uniform, bind, random_random, ret. cbn [draws].
  rewrite Hdr.
  repeat match goal with
         | |- context [if ?b then _ else _] => destruct b
         end;
    intros H; inversion H; reflexivity.
Qed.

(** The first simulated check of an iteration: it draws the delay, and
    compares it with an elapsed time of zero. *)
Lemma simulated_check_unset config env s :
  _simulated_delay s = None ->
  exists d,
    SimulatedBaseWaiterStrategy._generate_propagation_delay env s
    = Returned d (after_draws s)
    /\ SimulatedBaseWaiterStrategy.check_configuration_match true config env s
       = if Qle_bool d (now s - now s)
         then BaseWaiterStrategy.check_configuration_match config env
                (after_first_check s d)
         else Returned false (after_first_check s d).
Proof.
  intros Hnone.
  destruct (generate_delay_returns env s) as [d Hgen].
  exists d. split; [exact Hgen|].
  unfold SimulatedBaseWaiterStrategy.check_configuration_match. cbn [negb].
  unfold bind at 1. unfold SimulatedBaseWaiterStrategy.hasattr_simulated_delay.
  rewrite Hnone. cbn [negb]. unfold bind. rewrite Hgen.
  unfold ret, time_time,
    SimulatedBaseWaiterStrategy.set_simulated_delay,
    SimulatedBaseWaiterStrategy.set_propagation_start,
    SimulatedBaseWaiterStrategy.get_propagation_start,
    SimulatedBaseWaiterStrategy.get_simulated_delay.
  cbn [now puts gets sleeps draws _simulated_delay _propagation_start
       after_draws].
  unfold after_first_check.
  destruct (Qle_bool d (now s - now s)); reflexivity.
Qed.

(** Through the loop with the simulation on: the delay [d] is drawn at the
    first check and kept. *)
Lemma simulated_loop_draw fuel strategy tid config pd ps env (n0 : nat) (d : Q) :
  (forall s1, draws s1 = n0 ->
              SimulatedBaseWaiterStrategy._generate_propagation_delay env s1
              = Returned d (after_draws s1)) ->
  forall cc ac ph s r s',
    ((cc = 0%nat /\ _simulated_delay s = None /\ draws s = n0)
     \/ ((0 < cc)%nat /\ _simulated_delay s = Some d
         /\ _propagation_start s <> None /\ draws s = S (S n0))) ->
    BaseWaiterStrategy.polling_loop fuel strategy
      (SimulatedBaseWaiterStrategy.check_configuration_match true) tid config
      pd ps cc ac ph env s = Returned r s' ->
    exists c,
      check_count r = Some c
      /\ (c = 0%nat -> _simulated_delay s' = None /\ draws s' = n0)
      /\ ((0 < c)%nat -> _simulated_delay s' = Some d /\ draws s' = S (S n0)).
Proof.
  intros Hgen.
  induction fuel as [|fuel IH]; intros cc ac ph s r s' Hinv Hrun.
  - discriminate Hrun.
  - rewrite polling_loop_step in Hrun. cbv zeta in Hrun.
    destruct (should_timeout strategy (now s - ps) cc).
    { inversion Hrun; subst; clear Hrun. exists cc.
      cbn [check_count].
      destruct Hinv as [(-> & Hn & Hd)|(Hpos & Hsd & _ & Hd)].
      - split; [reflexivity|]. split; [auto | intros H; lia].
      - split; [reflexivity|]. split; [intros H; lia | auto]. }
    set (s1 := after_sleep env s
                 (calculate_next_interval strategy (now s - ps) cc)) in *.
    assert (Hs1 : _simulated_delay s1 = _simulated_delay s
                  /\ _propagation_start s1 = _propagation_start s
                  /\ draws s1 = draws s) by (repeat split).
    destruct Hs1 as (Hsd1 & Hsp1 & Hdr1). clearbody s1.
    assert (Hcont : forall s2 cc' ac' ph',
               _simulated_delay s2 = Some d ->
               _propagation_start s2 <> None -> draws s2 = S (S n0) ->
               (0 < cc')%nat ->
               BaseWaiterStrategy.polling_loop fuel strategy
                 (SimulatedBaseWaiterStrategy.check_configuration_match true)
                 tid config pd ps cc' ac' ph' env s2 = Returned r s' ->
               exists c,
                 check_count r = Some c
                 /\ (c = 0%nat -> _simulated_delay s' = None /\ draws s' = n0)
                 /\ ((0 < c)%nat ->
                     _simulated_delay s' = Some d /\ draws s' = S (S n0))).
    { intros s2 cc' ac' ph' H1 H2 H3 Hcc' Hrun'.
      apply IH in Hrun'; [exact Hrun'|]. right. auto. }
    assert (Hbase : forall s0,
               _simulated_delay s0 = Some d ->
               _propagation_start s0 <> None -> draws s0 = S (S n0) ->
               match BaseWaiterStrategy.check_configuration_match config env s0
               with
               | Returned m s2 =>
                   if m then
                     Returned
                       (mkResult tid true None (Some pd) (Some (now s2 - ps))
                          (Some (S cc)) (Some (S ac))
                          (Some (ph ++ [mkAttempt (S cc) (now s2 - ps)
                                          (now s2 - now s1) m]))
                          (now s2)) s2
                   else
                     BaseWaiterStrategy.polling_loop fuel strategy
                       (SimulatedBaseWaiterStrategy.check_configuration_match
                          true) tid config pd ps (S cc) (S ac)
                       (ph ++ [mkAttempt (S cc) (now s2 - ps)
                                 (now s2 - now s1) m]) env s2
               | Raised e s2 => Raised e s2
               | Diverge => Diverge
               end = Returned r s' ->
               exists c,
                 check_count r = Some c
                 /\ (c = 0%nat -> _simulated_delay s' = None /\ draws s' = n0)
                 /\ ((0 < c)%nat ->
                     _simulated_delay s' = Some d /\ draws s' = S (S n0))).
    { intros s0 H1 H2 H3. rewrite base_check_unfold.
      destruct (get_outcome env (gets s0)) as [resp|e0]; [|discriminate].
      destruct (compare_rules _ config).
      - intros Hr. inversion Hr; subst; clear Hr. exists (S cc).
        cbn [check_count after_get _simulated_delay draws].
        split; [reflexivity|]. split; [intros H; lia | auto].
      - apply Hcont; auto; lia. }
    destruct Hinv as [(-> & Hn & Hd)|(Hpos & Hsd & Hsp & Hd)].
    + rewrite <- Hsd1 in Hn. rewrite <- Hdr1 in Hd.
      destruct (simulated_check_unset config env s1 Hn) as (d' & Hg' & Hcheck).
      rewrite (Hgen s1 Hd) in Hg'. inversion Hg'; subst d'. clear Hg'.
      rewrite Hcheck in Hrun. clear Hcheck.
      destruct (Qle_bool d (now s1 - now s1)).
      * apply (Hbase (after_first_check s1 d)) in Hrun; [exact Hrun| | |].
        -- reflexivity.
        -- cbn [after_first_check _propagation_start]. discriminate.
        -- cbn [after_first_check draws]. rewrite Hd. reflexivity.
      * apply (Hcont (after_first_check s1 d)) in Hrun; [exact Hrun| | | |lia].
        -- reflexivity.
        -- cbn [after_first_check _propagation_start]. discriminate.
        -- cbn [after_first_check draws]. rewrite Hd. reflexivity.
    + rewrite <- Hsd1 in Hsd. rewrite <- Hsp1 in Hsp. rewrite <- Hdr1 in Hd.
      destruct (_propagation_start s1) as [t0|] eqn:Ht0; [|contradiction].
      rewrite (simulated_check_later config env s1 d t0 Hsd Ht0) in Hrun.
      destruct (Qle_bool d (now s1 - t0)).
      * apply (Hbase s1) in Hrun; [exact Hrun | exact Hsd | | exact Hd].
        rewrite Ht0. discriminate.
      * apply (Hcont s1) in Hrun; [exact Hrun | exact Hsd | | exact Hd | lia].
        rewrite Ht0. discriminate.
Qed.

(** X7.  With the simulation on, an iteration that returns has drawn its
    delay exactly once, at its first check, whatever simulation attributes
    an earlier iteration left behind: two random numbers are consumed if at
    least one check is made and none otherwise, and the delay held at the
    end is the one drawn. *)
Theorem simulated_delay_drawn_once fuel strategy tid env s r s' :
  SimulatedBaseWaiterStrategy.run_single_test fuel strategy true tid env s
  = Returned r s' ->
  exists d,
    SimulatedBaseWaiterStrategy._generate_propagation_delay env s
    = Returned d (after_draws s)
    /\ (forall c, check_count r = Some c ->
                  (c = 0%nat ->
                   _simulated_delay s' = None /\ draws s' = draws s)
                  /\ ((0 < c)%nat ->
                      _simulated_delay s' = Some d
                      /\ draws s' = (draws s + 2)%nat))
    /\ (check_count r = None ->
        _simulated_delay s' = None /\ draws s' = draws s).
Proof.
  destruct (generate_delay_returns env s) as [d Hgen].
  intros Hrun. exists d. split; [exact Hgen|].
  rewrite simulated_run_unfold, run_single_test_unfold in Hrun.
  cbv zeta in Hrun. change (puts (reset_simulation s)) with (puts s) in Hrun.
  destruct (put_outcome env (puts s)).
  - apply (simulated_loop_draw _ _ _ _ _ _ env (draws s) d) in Hrun.
    + destruct Hrun as (c & Hc & H0 & Hp).
      split.
      * intros c' Hc'. rewrite Hc in Hc'. inversion Hc'; subst c'.
        split; [exact H0|].
        intros Hpos. destruct (Hp Hpos) as [Hd Hdr].
        split; [exact Hd | rewrite Hdr; lia].
      * intros Hnone. rewrite Hc in Hnone. discriminate Hnone.
    + intros s1 Hdr. apply (generate_delay_draws env s s1 d); auto.
    + left. repeat split.
  - inversion Hrun; subst; clear Hrun.
    cbn [check_count after_put reset_simulation _simulated_delay draws].
    split; [discriminate|]. intros _. split; reflexivity.
Qed.

Lemma simulated_delay_drawn_once_witness :
  exists r s' d,
    SimulatedBaseWaiterStrategy.run_single_test 18 BaselineStrategy.strategy
      true 0 env_delay_48 (mkSt 0 0 0 0 0 (Some 7) (Some 0))
    = Returned r s'
    /\ d == 48
    /\ check_count r = Some 17%nat
    /\ _simulated_delay s' = Some d.
Proof.
  destruct (simulated_delay_drawn_once
              18 BaselineStrategy.strategy 0 env_delay_48
              (mkSt 0 0 0 0 0 (Some 7) (Some 0))
              _ _ ltac:(vm_compute; reflexivity))
    as (d & Hgen & Hc & _).
  eexists. eexists. exists d.
  split; [vm_compute; reflexivity|].
  split; [vm_compute in Hgen; inversion Hgen; reflexivity|].
  split; [reflexivity|].
  destruct (Hc 17%nat eq_refl) as (_ & Hpos).
  apply Hpos. apply Nat.lt_0_succ.
Defined.

(** In a run that returned, a base check answered: its GET did not
    raise. *)
Ltac base_check_in H :=
  rewrite base_check_unfold in H;
  match type of H with
  | context [get_outcome ?env ?n] =>
      let Hgo := fresh "Hgo" in
      destruct (get_outcome env n) as [?|?] eqn:Hgo;
      try rewrite Hgo in H; [|discriminate H];
      cbv beta iota zeta in H
  end.

(** Through the loop on a clock that is never early: a match is never
    reported before the drawn delay has gone by. *)
Lemma simulated_loop_waits fuel strategy tid config pd ps env :
  clock_never_early env ->
  (forall e k, 0 <= calculate_next_interval strategy e k) ->
  forall cc ac ph s r s',
    ps <= now s ->
    (_simulated_delay s = None
     \/ exists d t0, _simulated_delay s = Some d
                     /\ _propagation_start s = Some t0 /\ ps <= t0) ->
    BaseWaiterStrategy.polling_loop fuel strategy
      (SimulatedBaseWaiterStrategy.check_configuration_match true) tid config
      pd ps cc ac ph env s = Returned r s' ->
    success r = true ->
    exists d pt,
      _simulated_delay s' = Some d /\ propagation_time r = Some pt /\ d <= pt.
Proof.
  intros [Hlag Hlat] Hint.
  induction fuel as [|fuel IH]; intros cc ac ph s r s' Hps Hinv Hrun Hsucc.
  - discriminate Hrun.
  - rewrite polling_loop_step in Hrun. cbv zeta in Hrun.
    destruct (should_timeout strategy (now s - ps) cc).
    { inversion Hrun; subst. discriminate Hsucc. }
    set (s1 := after_sleep env s
                 (calculate_next_interval strategy (now s - ps) cc)) in *.
    assert (Hs1 : _simulated_delay s1 = _simulated_delay s
                  /\ _propagation_start s1 = _propagation_start s)
      by (repeat split).
    destruct Hs1 as (Hsd1 & Hsp1).
    assert (Hnow1 : now s <= now s1).
    { unfold s1, after_sleep. cbn [now].
      specialize (Hlag (sleeps s)).
      specialize (Hint (now s - ps) cc). lra. }
    clearbody s1. rewrite <- Hsd1, <- Hsp1 in Hinv.
    assert (Hget : forall s0, now s0 <= now (after_get env s0)).
    { intros s0. unfold after_get. cbn [now].
      specialize (Hlat (gets s0)). lra. }
    destruct Hinv as [Hnone|(d & t0 & Hd & Ht0 & Hstart)].
    + destruct (simulated_check_unset config env s1 Hnone)
        as (d & _ & Hcheck).
      rewrite Hcheck in Hrun. clear Hcheck.
      destruct (Qle_bool_spec d (now s1 - now s1)) as [Hreach|Hnot].
      * base_check_in Hrun.
        match type of Hrun with
        | context [if ?b then _ else _] => destruct b
        end.
        -- inversion Hrun; subst; clear Hrun. exists d. eexists.
           cbn [after_get after_first_check _simulated_delay
                propagation_time now].
           split; [reflexivity|]. split; [reflexivity|].
           pose proof (Hget (after_first_check s1 d)) as Hg.
           cbn [after_get after_first_check now gets] in Hg. lra.
        -- apply IH in Hrun; auto.
           ++ pose proof (Hget (after_first_check s1 d)) as Hg.
              cbn [after_first_check now] in Hg |- *.
              cbn [after_get after_first_check now gets] in Hg |- *. lra.
           ++ right. exists d, (now s1).
              cbn [after_get after_first_check _simulated_delay
                   _propagation_start]. repeat split. lra.
      * apply IH in Hrun; auto.
        -- cbn [after_first_check now]. lra.
        -- right. exists d, (now s1).
           cbn [after_first_check _simulated_delay _propagation_start].
           repeat split. lra.
    + rewrite (simulated_check_later config env s1 d t0 Hd Ht0) in Hrun.
      destruct (Qle_bool_spec d (now s1 - t0)) as [Hreach|Hnot].
      * base_check_in Hrun.
        match type of Hrun with
        | context [if ?b then _ else _] => destruct b
        end.
        -- inversion Hrun; subst; clear Hrun. exists d. eexists.
           cbn [after_get _simulated_delay propagation_time now].
           split; [exact Hd|]. split; [reflexivity|].
           pose proof (Hget s1) as Hg. cbn [after_get now] in Hg. lra.
        -- apply IH in Hrun; auto.
           ++ pose proof (Hget s1) as Hg. lra.
           ++ right. exists d, t0. cbn [after_get _simulated_delay
                                        _propagation_start]. auto.
      * apply IH in Hrun; auto.
        -- lra.
        -- right. exists d, t0. auto.
Qed.

(** X8.  With the simulation on and a clock that is never early, the
    propagation time of a successful result is at least the simulated delay
    that was drawn for the iteration. *)
Theorem simulated_success_after_delay fuel strategy tid env s r s' :
  clock_never_early env ->
  (forall e k, 0 <= calculate_next_interval strategy e k) ->
  SimulatedBaseWaiterStrategy.run_single_test fuel strategy true tid env s
  = Returned r s' ->
  success r = true ->
  exists d pt,
    _simulated_delay s' = Some d /\ propagation_time r = Some pt /\ d <= pt.
Proof.
  intros Hclock Hint Hrun Hsucc.
  rewrite simulated_run_unfold, run_single_test_unfold in Hrun.
  cbv zeta in Hrun.
  destruct (put_outcome env (puts (reset_simulation s))).
  - apply (simulated_loop_waits _ _ _ _ _ _ env Hclock Hint) in Hrun; auto.
    apply Qle_refl.
  - inversion Hrun; subst. discriminate Hsucc.
Qed.

Lemma simulated_success_after_delay_witness :
  exists r s' d pt,
    SimulatedBaseWaiterStrategy.run_single_test 18 BaselineStrategy.strategy
      true 0 env_delay_48 initial_state = Returned r s'
    /\ _simulated_delay s' = Some d /\ propagation_time r = Some pt
    /\ d <= pt.
Proof.
  destruct (simulated_success_after_delay
              18 BaselineStrategy.strategy 0 env_delay_48 initial_state _ _
              (ideal_clock_never_early _ _)
              (fun _ _ => ltac:(discriminate))
              ltac:(vm_compute; reflexivity) eq_refl)
    as (d & pt & Hd & Hpt & Hle).
  eexists. eexists. exists d, pt.
  split; [vm_compute; reflexivity|]. auto.
Defined.

(** X9.  The simulated delay agrees with the percentile table of the
    simulator.  For draws as [random.random()] gives them, [rand] in [0, 1)
    and the unit draw in [0, 1], the delay lies between 0 and 312, and for
    every row of [delay_distribution]: when [rand] is below the row's
    fraction the delay is at most the row's bound, and otherwise at least
    that bound. *)
Theorem generated_delay_follows_table env s :
  0 <= random_draw env (draws s) < 1 ->
  0 <= random_draw env (S (draws s)) <= 1 ->
  exists d,
    SimulatedBaseWaiterStrategy._generate_propagation_delay env s
    = Returned d (after_draws s)
    /\ 0 <= d <= 312
    /\ forall label bound fraction,
        In (label, bound) SimulatedBaseWaiterStrategy.delay_distribution ->
        percentile_fraction label = Some fraction ->
        (random_draw env (draws s) < fraction -> d <= bound)
        /\ (fraction <= random_draw env (draws s) -> bound <= d).
Proof.
  intros [Hr0 Hr1] [Hu0 Hu1].
  unfold SimulatedBaseWaiterStrategy._generate_propagation_delay,
    random_uniform, bind, random_random, ret, after_draws.
  destruct (Qlt_bool_spec (random_draw env (draws s)) (50 # 100)) as [H50|H50];
    [|destruct (Qlt_bool_spec (random_draw env (draws s)) (75 # 100))
        as [H75|H75];
      [|destruct (Qlt_bool_spec (random_draw env (draws s)) (85 # 100))
          as [H85|H85];
        [|destruct (Qlt_bool_spec (random_draw env (draws s)) (90 # 100))
            as [H90|H90];
          [|destruct (Qlt_bool_spec (random_draw env (draws s)) (95 # 100))
              as [H95|H95];
            [|destruct (Qlt_bool_spec (random_draw env (draws s)) (99 # 100))
                as [H99|H99]]]]]];
    cbn [draws now puts gets sleeps _simulated_delay _propagation_start];
    (eexists; split; [reflexivity|]; split; [lra|];
     intros label bound fraction Hin Hf;
     cbn [SimulatedBaseWaiterStrategy.delay_distribution In] in Hin;
     repeat (destruct Hin as [Hin|Hin];
             [inversion Hin; subst label bound;
              vm_compute in Hf; inversion Hf; subst fraction; lra|]);
     contradiction).
Qed.

Lemma generated_delay_follows_table_witness :
  exists d,
    SimulatedBaseWaiterStrategy._generate_propagation_delay env_delay_200
      initial_state = Returned d (after_draws initial_state)
    /\ 156 <= d /\ d <= 234.
Proof.
  destruct (generated_delay_follows_table env_delay_200 initial_state)
    as (d & Hgen & _ & Htable).
  - split; [discriminate | reflexivity].
  - split; discriminate.
  - exists d. split; [exact Hgen|]. split.
    + apply (Htable "P95"%string 156 (95 # 100)).
      * cbn. auto 10.
      * reflexivity.
      * discriminate.
    + apply (Htable "P99"%string 234 (99 # 100)).
      * cbn. auto 10.
      * reflexivity.
      * reflexivity.
Defined.

(** ** What counts as a match *)

Lemma get_neq_false (a b : option string) : get_neq a b = false <-> a = b.
Proof.
  destruct a as [x|], b as [y|]; cbn [get_neq];
    try (split; [discriminate | intros H; inversion H]);
    try (split; reflexivity).
  rewrite negb_false_iff, String.eqb_eq. split; congruence.
Qed.

Lemma rules_match_keys (cur exp : list Rule) :
  length cur = length exp ->
  rules_match cur exp = true <-> map rule_key cur = map rule_key exp.
Proof.
  revert exp. induction cur as [|c cur IH]; intros [|e exp] Hlen;
    try discriminate Hlen.
  - split; reflexivity.
  - cbn [rules_match map]. unfold rule_key at 1 3.
    destruct (get_neq (rule_ID c) (rule_ID e)) eqn:Hid.
    + split; [discriminate|]. intros H. inversion H as [[H1 H2 H3]].
      apply get_neq_false in H1. congruence.
    + destruct (get_neq (rule_Status c) (rule_Status e)) eqn:Hst.
      * split; [discriminate|]. intros H. inversion H as [[H1 H2 H3]].
        apply get_neq_false in H2. congruence.
      * apply get_neq_false in Hid, Hst.
        rewrite (IH exp) by (cbn in Hlen; lia).
        rewrite Hid, Hst. split; [intros ->; reflexivity|].
        intros H. inversion H. reflexivity.
Qed.

Lemma compare_rules_keys (cur exp : list Rule) :
  compare_rules cur exp = true <-> map rule_key cur = map rule_key exp.
Proof.
  unfold compare_rules.
  destruct (Nat.eqb_spec (length cur) (length exp)) as [Hlen|Hlen];
    cbn [negb].
  - apply rules_match_keys, Hlen.
  - split; [discriminate|]. intros H. exfalso. apply Hlen.
    rewrite <- (length_map rule_key cur), H. apply length_map.
Qed.

(** X10.  When the GET answers, the probe's check answers, and it answers
    [True] exactly when the rules returned have, position by position, the
    same ID and Status as the expected ones; a missing ['Rules'] key counts
    as no rule.  The prefix and the expiration days are not compared.  When
    the GET raises, the check does not answer [False]: it ends in the failed
    lookup of the handler's exception class.  The check of the sequential
    script, [equal_lifecycle], is stricter: it implies this one and compares
    the whole rule. *)
Theorem check_matches_on_id_and_status config env s :
  match get_outcome env (gets s) with
  | GetOk resp =>
      exists b,
        BaseWaiterStrategy.check_configuration_match config env s
        = Returned b (after_get env s)
        /\ (b = true <->
            map rule_key (match resp with Some rs => rs | None => [] end)
            = map rule_key config)
  | GetRaises _ =>
      BaseWaiterStrategy.check_configuration_match config env s
      = Raised lookup_error (after_get env s)
  end
  /\ (forall current,
        TestS3Consistency.equal_lifecycle current config = true ->
        compare_rules current config = true)
  /\ (forall id status prefix prefix' days days',
        compare_rules [mkRule id status prefix days]
                      [mkRule id status prefix' days'] = true).
Proof.
  split; [|split].
  - rewrite base_check_unfold.
    destruct (get_outcome env (gets s)) as [resp|e]; [|reflexivity].
    eexists. split; [reflexivity|]. apply compare_rules_keys.
  - intros current Heq. apply Rules_eqb_eq in Heq. subst current.
    apply compare_rules_keys. reflexivity.
  - intros. apply compare_rules_keys. reflexivity.
Qed.

Lemma String_append_inj_l (p a b : string) :
  (p ++ a)%string = (p ++ b)%string -> a = b.
Proof.
  induction p as [|c p IH]; cbn; intros H; [exact H|].
  inversion H. auto.
Qed.

Lemma str_nat_inj (i j : nat) : str_nat i = str_nat j -> i = j.
Proof.
  assert (Hback : forall n,
             option_map Nat.of_uint (NilZero.uint_of_string (str_nat n))
             = Some n).
  { intros n. unfold str_nat.
    destruct (Nat.to_uint n) as [| | | | | | | | | |] eqn:Hn;
      try (rewrite NilZero.usu by discriminate; cbn [option_map];
           rewrite <- Hn, DecimalNat.Unsigned.of_to; reflexivity).
    cbn. f_equal. rewrite <- (DecimalNat.Unsigned.of_to n), Hn. reflexivity. }
  intros H. pose proof (Hback i) as Hi. rewrite H, Hback in Hi.
  inversion Hi. reflexivity.
Qed.

(** X11.  The configurations of two iterations of one strategy match each
    other only when the iterations are the same: a configuration still
    visible from another test is never taken for the one just PUT. *)
Theorem configurations_of_distinct_tests_differ (name : string) (i j : nat) :
  compare_rules (generate_lifecycle_config name i)
                (generate_lifecycle_config name j) = true
  <-> i = j.
Proof.
  rewrite compare_rules_keys. split.
  - unfold generate_lifecycle_config, rule_key. cbn [map rule_ID rule_Status].
    intros H. inversion H as [Hid].
    apply String_append_inj_l in Hid.
    apply (String_append_inj_l "-rule-") in Hid.
    apply str_nat_inj, Hid.
  - intros ->. reflexivity.
Qed.

(** ** The sequential poller, [poll_until_match] *)

Lemma answered_step env from n :
  (answered env from (S n)
   = answered env (S from) n
     + match get_outcome env from with GetOk _ => 1 | GetRaises _ => 0 end)%nat.
Proof.
  cbn [answered]. destruct (get_outcome env from); lia.
Qed.

Lemma poll_loop_result fuel expected timeout_s start :
  forall polls fs fsa env s res s',
    (fs = None <-> polls = 0%nat) ->
    (fs = None <-> fsa = None) ->
    TestS3Consistency.poll_loop fuel expected timeout_s start polls fs fsa
      env s = Returned res s' ->
    (gets s <= gets s')%nat
    /\ TestS3Consistency.polls res
       = (polls + answered env (gets s) (gets s' - gets s))%nat
    /\ (TestS3Consistency.first_read res = None
        <-> TestS3Consistency.polls res = 0%nat)
    /\ (TestS3Consistency.first_read res = None
        <-> TestS3Consistency.first_read_elapsed res = None)
    /\ (TestS3Consistency.matched res = true ->
        (gets s < gets s')%nat
        /\ get_outcome env (gets s' - 1) = GetOk (Some expected)
        /\ TestS3Consistency.elapsed res = now s' - start)
    /\ (TestS3Consistency.matched res = false ->
        timeout_s < TestS3Consistency.elapsed res).
Proof.
  induction fuel as [|fuel IH]; intros polls fs fsa env s res s' H1 H2 Hrun.
  - discriminate Hrun.
  - rewrite poll_loop_step in Hrun.
    destruct (Qlt_bool_spec timeout_s (now s - start)) as [Hto|Hto].
    { inversion Hrun; subst; clear Hrun.
      cbn [TestS3Consistency.polls TestS3Consistency.first_read
           TestS3Consistency.first_read_elapsed TestS3Consistency.matched
           TestS3Consistency.elapsed].
      rewrite Nat.sub_diag. cbn [answered]. rewrite Nat.add_0_r.
      split; [lia|]. split; [reflexivity|]. split; [exact H1|].
      split; [exact H2|]. split; [discriminate|]. intros _. exact Hto. }
    cbv zeta in Hrun.
    assert (Hstep : forall n, (S (gets s) <= n)%nat ->
              (n - gets s = S (n - S (gets s)))%nat) by (intros; lia).
    destruct (get_outcome env (gets s)) as [[current|]|e] eqn:Hget.
    + destruct (TestS3Consistency.equal_lifecycle current expected) eqn:Heq.
      * inversion Hrun; subst; clear Hrun.
        apply Rules_eqb_eq in Heq. subst current.
        cbn [TestS3Consistency.polls TestS3Consistency.first_read
             TestS3Consistency.first_read_elapsed TestS3Consistency.matched
             TestS3Consistency.elapsed after_get gets now].
        replace (S (gets s) - gets s)%nat with 1%nat by lia.
        replace (S (gets s) - 1)%nat with (gets s) by lia.
        cbn [answered]. rewrite Hget.
        split; [lia|]. split; [lia|].
        split; [split; [destruct fs; discriminate | lia]|].
        split.
        { destruct fs as [f|]; split; try discriminate.
          intros H. apply H2 in H. discriminate H. }
        split; [|discriminate].
        intros _. repeat apply conj; try lia; reflexivity.
      * apply IH in Hrun.
        -- rewrite after_sleep_gets, after_get_gets in Hrun.
           destruct Hrun as (Hle & Hp & Hf1 & Hf2 & Hm & Hnm).
           split; [lia|]. split.
           { rewrite Hp, (Hstep _ Hle), answered_step, Hget. lia. }
           split; [exact Hf1|]. split; [exact Hf2|]. split; [|exact Hnm].
           intros Hmt. destruct (Hm Hmt) as (? & ? & ?).
           split; [lia|]. split; assumption.
        -- destruct fs; split; try discriminate; try lia.
        -- destruct fs as [f|]; [|split; discriminate].
           split; [discriminate|]. intros H. apply H2 in H. discriminate H.
    + discriminate Hrun.
    + destruct e as [err m| | |]; try discriminate Hrun.
      destruct (TestS3Consistency.tolerated err); [|discriminate Hrun].
      apply IH in Hrun; auto.
      rewrite after_sleep_gets, after_get_gets in Hrun.
      destruct Hrun as (Hle & Hp & Hf1 & Hf2 & Hm & Hnm).
      split; [lia|]. split.
      { rewrite Hp, (Hstep _ Hle), answered_step, Hget. lia. }
      split; [exact Hf1|]. split; [exact Hf2|]. split; [|exact Hnm].
      intros Hmt. destruct (Hm Hmt) as (? & ? & ?).
      split; [lia|]. split; assumption.
Qed.

(** X12.  What a result of [poll_until_match] says.  [polls] counts the GETs
    that answered, not those that raised a tolerated error; [first_read] and
    [first_read_elapsed] are missing together, exactly when no GET answered;
    [matched = True] means the last GET returned the expected
    configuration, and [matched = False] that the elapsed time had passed
    the timeout. *)
Theorem poll_until_match_result fuel expected timeout_s env s res s' :
  TestS3Consistency.poll_until_match fuel expected timeout_s env s
  = Returned res s' ->
  TestS3Consistency.polls res = answered env (gets s) (gets s' - gets s)
  /\ (TestS3Consistency.first_read res = None
      <-> TestS3Consistency.polls res = 0%nat)
  /\ (TestS3Consistency.first_read res = None
      <-> TestS3Consistency.first_read_elapsed res = None)
  /\ (TestS3Consistency.matched res = true ->
      (gets s < gets s')%nat
      /\ get_outcome env (gets s' - 1) = GetOk (Some expected))
  /\ (TestS3Consistency.matched res = false ->
      timeout_s < TestS3Consistency.elapsed res).
Proof.
  unfold TestS3Consistency.poll_until_match.
  unfold bind at 1. unfold time_time at 1. intros Hrun.
  apply poll_loop_result in Hrun; try (split; reflexivity).
  destruct Hrun as (_ & Hp & Hf1 & Hf2 & Hm & Hnm).
  split; [exact Hp|]. split; [exact Hf1|]. split; [exact Hf2|].
  split; [|exact Hnm].
  intros Hmt. destruct (Hm Hmt) as (? & ? & _). auto.
Qed.

Lemma poll_until_match_result_witness :
  exists res s',
    TestS3Consistency.poll_until_match 10 new_cfg 600 env_absent_first
      initial_state = Returned res s'
    /\ TestS3Consistency.polls res = 1%nat
    /\ gets s' = 2%nat
    /\ get_outcome env_absent_first (gets s' - 1) = GetOk (Some new_cfg).
Proof.
  eexists. eexists. split; [vm_compute; reflexivity|].
  split; [reflexivity|]. split; [reflexivity|].
  match goal with
  | |- get_outcome _ (gets ?s' - 1) = _ =>
      destruct (poll_until_match_result
                  10 new_cfg 600 env_absent_first initial_state _ s'
                  ltac:(vm_compute; reflexivity))
        as (_ & _ & _ & Hm & _)
  end.
  apply Hm. reflexivity.
Defined.

Lemma poll_budget_positive (e : Q) : e <= 600 -> 1 <= poll_budget e.
Proof.
  intros He. unfold poll_budget.
  destruct (Qlt_bool_spec e 30) as [H|H].
  - pose proof (Qle_ceiling (30 - e)). lra.
  - unfold Qdiv. change (/ 3) with (1 # 3). lra.
Qed.

Lemma poll_budget_start (e : Q) : 0 <= e -> poll_budget e <= 221.
Proof.
  intros He. unfold poll_budget.
  destruct (Qlt_bool_spec e 30) as [H|H].
  - assert (Hc : (Qceiling (30 - e) <= 30)%Z).
    { change 30%Z with (Qceiling (inject_Z 30)) at 2.
      apply Qceiling_resp_le. change (inject_Z 30) with 30. lra. }
    rewrite Zle_Qle in Hc. change (inject_Z 30) with 30 in Hc. lra.
  - unfold Qdiv. change (/ 3) with (1 # 3). lra.
Qed.

Lemma Qceiling_step (x y : Q) :
  y + 1 <= x -> inject_Z (Qceiling y) + 1 <= inject_Z (Qceiling x).
Proof.
  intros H.
  assert (Hz : (Qceiling y - 1 < Qceiling x - 1)%Z).
  { rewrite Zlt_Qlt.
    apply (Qlt_le_trans _ y); [apply Qceiling_lt|].
    unfold Z.sub. rewrite inject_Z_plus.
    change (inject_Z (- (1))) with (- (1)).
    pose proof (Qle_ceiling x). lra. }
  assert (Hz' : (Qceiling y + 1 <= Qceiling x)%Z) by lia.
  rewrite Zle_Qle, inject_Z_plus in Hz'. exact Hz'.
Qed.

Lemma Qceiling_positive (x : Q) : 0 < x -> 1 <= inject_Z (Qceiling x).
Proof.
  intros H.
  assert (Hz : (0 < Qceiling x)%Z).
  { rewrite Zlt_Qlt. change (inject_Z 0) with 0.
    pose proof (Qle_ceiling x). lra. }
  assert (Hz' : (1 <= Qceiling x)%Z) by lia.
  rewrite Zle_Qle in Hz'. exact Hz'.
Qed.

Lemma poll_budget_spent (e a e' : Q) :
  e <= a ->
  a + (if Qlt_bool a TestS3Consistency.EARLY_DENSE_SECONDS then 1
       else TestS3Consistency.LATE_INTERVAL_SECONDS) <= e' ->
  poll_budget e' <= poll_budget e - 1.
Proof.
  unfold TestS3Consistency.EARLY_DENSE_SECONDS,
    TestS3Consistency.LATE_INTERVAL_SECONDS, poll_budget.
  intros Hea Hstep.
  destruct (Qlt_bool_spec a 30) as [Ha|Ha],
           (Qlt_bool_spec e 30) as [He|He],
           (Qlt_bool_spec e' 30) as [He'|He'];
    unfold Qdiv; change (/ 3) with (1 # 3); try (exfalso; lra); try lra;
    try (pose proof (Qceiling_step (30 - e) (30 - e')); lra);
    pose proof (Qceiling_positive (30 - e)); lra.
Qed.

Lemma answered_le env n : forall from, (answered env from n <= n)%nat.
Proof.
  induction n as [|n IH]; intros from; cbn [answered]; [lia|].
  specialize (IH (S from)). destruct (get_outcome env from); lia.
Qed.

Lemma poll_loop_bounded env expected start :
  clock_never_early env ->
  forall (k fuel polls : nat) fs fsa s,
    poll_budget (now s - start) <= inject_Z (Z.of_nat k) ->
    (k < fuel)%nat ->
    match TestS3Consistency.poll_loop fuel expected
            TestS3Consistency.TIMEOUT_SECONDS start polls fs fsa env s with
    | Returned _ s' => (gets s' <= gets s + k)%nat
    | Raised _ s' => (gets s' <= gets s + k)%nat
    | Diverge => False
    end.
Proof.
  intros [Hlag Hlat]. unfold TestS3Consistency.TIMEOUT_SECONDS.
  induction k as [|k IH]; intros fuel polls fs fsa s Hb Hf;
    (destruct fuel as [|fuel]; [lia|]);
    rewrite poll_loop_step;
    (destruct (Qlt_bool_spec 600 (now s - start)) as [Hto|Hto]; [lia|]);
    pose proof (poll_budget_positive _ Hto) as Hpos.
  - exfalso. change (inject_Z (Z.of_nat 0)) with 0 in Hb. lra.
  - cbv zeta.
    assert (Hnext : forall polls' fs' fsa',
               match TestS3Consistency.poll_loop fuel expected 600 start
                       polls' fs' fsa' env
                       (after_sleep env (after_get env s)
                          (cadence start (after_get env s))) with
               | Returned _ s' => (gets s' <= gets s + S k)%nat
               | Raised _ s' => (gets s' <= gets s + S k)%nat
               | Diverge => False
               end).
    { intros polls' fs' fsa'.
      assert (Hb' : poll_budget
                      (now (after_sleep env (after_get env s)
                              (cadence start (after_get env s))) - start)
                    <= inject_Z (Z.of_nat k)).
      { assert (Hstep : poll_budget
                          (now (after_sleep env (after_get env s)
                                  (cadence start (after_get env s))) - start)
                        <= poll_budget (now s - start) - 1).
        { apply (poll_budget_spent _ (now (after_get env s) - start)).
          - cbn [after_get now]. specialize (Hlat (gets s)). lra.
          - unfold cadence. cbn [after_sleep after_get now sleeps].
            specialize (Hlag (sleeps s)).
            destruct (Qlt_bool (now s + get_latency env (gets s) - start)
                               TestS3Consistency.EARLY_DENSE_SECONDS); lra. }
        rewrite inject_nat_succ in Hb. lra. }
      specialize (IH fuel polls' fs' fsa' _ Hb' ltac:(lia)).
      rewrite after_sleep_gets, after_get_gets in IH.
      destruct (TestS3Consistency.poll_loop fuel expected 600 start polls'
                  fs' fsa' env _); [lia | lia | exact IH]. }
    destruct (get_outcome env (gets s)) as [[current|]|e].
    + destruct (TestS3Consistency.equal_lifecycle current expected).
      * rewrite after_get_gets. lia.
      * apply Hnext.
    + rewrite after_get_gets. lia.
    + destruct e as [err m| | |]; try (rewrite after_get_gets; lia).
      destruct (TestS3Consistency.tolerated err);
        [apply Hnext | rewrite after_get_gets; lia].
Qed.

(** X13.  With the default timeout of 600 seconds, on a clock on which no
    sleep ends early and no GET takes negative time, [poll_until_match]
    always ends: it returns a result or raises, after at most 221 GET calls
    (one per second during the first 30 seconds, one per three seconds
    after that); so a result counts at most 221 polls. *)
Theorem poll_until_match_terminates env fuel expected s :
  clock_never_early env ->
  (221 < fuel)%nat ->
  match TestS3Consistency.poll_until_match fuel expected
          TestS3Consistency.TIMEOUT_SECONDS env s with
  | Returned res s' =>
      (gets s' <= gets s + 221)%nat
      /\ (TestS3Consistency.polls res <= 221)%nat
  | Raised _ s' => (gets s' <= gets s + 221)%nat
  | Diverge => False
  end.
Proof.
  intros Hclock Hfuel.
  unfold TestS3Consistency.poll_until_match.
  unfold bind at 1. unfold time_time at 1.
  assert (Hb : poll_budget (now s - now s) <= inject_Z (Z.of_nat 221)).
  { apply (Qle_trans _ 221); [apply poll_budget_start; lra | discriminate]. }
  pose proof (poll_loop_bounded env expected (now s) Hclock 221 fuel 0 None
                None s Hb Hfuel) as Hrun.
  destruct (TestS3Consistency.poll_loop fuel expected
              TestS3Consistency.TIMEOUT_SECONDS (now s) 0 None None env s)
    as [res s'| |] eqn:Hloop; [|exact Hrun|exact Hrun].
  split; [exact Hrun|].
  apply poll_loop_result in Hloop; try (split; reflexivity).
  destruct Hloop as (_ & Hp & _).
  rewrite Hp. cbn [Nat.add].
  pose proof (answered_le env (gets s' - gets s) (gets s)). lia.
Qed.

Lemma poll_until_match_terminates_witness :
  exists res s',
    TestS3Consistency.poll_until_match 222 new_cfg
      TestS3Consistency.TIMEOUT_SECONDS env_never_visible initial_state
    = Returned res s'
    /\ TestS3Consistency.matched res = false
    /\ gets s' = 221%nat
    /\ (TestS3Consistency.polls res <= 221)%nat.
Proof.
  eexists. eexists. split; [vm_compute; reflexivity|].
  split; [reflexivity|]. split; [reflexivity|].
  pose proof (poll_until_match_terminates env_never_visible 222 new_cfg
                initial_state (ideal_clock_never_early _ _)
                (Nat.lt_succ_diag_r 221)) as H.
  match type of H with
  | match ?run with _ => _ end =>
      let v := eval vm_compute in run in
      change run with v in H
  end.
  cbv beta iota in H. exact (proj2 H).
Defined.

(** ** The racing poller, [smart_poll_until_match] *)

Lemma any_rule_id_error id rules e :
  TestS3ConsistencyConcurrent.any_rule_id id rules = inl e ->
  e = KeyError "ID".
Proof.
  induction rules as [|r rules IH]; cbn [TestS3ConsistencyConcurrent.any_rule_id];
    [discriminate|].
  destruct (rule_ID r) as [i|]; [|intros H; inversion H; reflexivity].
  destruct (String.eqb i id); [discriminate | exact IH].
Qed.

Lemma smart_poll_loop_step fuel id start timeout attempt env s :
  TestS3ConsistencyConcurrent.smart_poll_loop (S fuel) id start timeout
    attempt env s
  = if Qlt_bool (now s - start) timeout then
      let s1 := after_get env s in
      let continue :=
        TestS3ConsistencyConcurrent.smart_poll_loop fuel id start timeout
          (S attempt) env (after_backoff env s (S attempt)) in
      match get_outcome env (gets s) with
      | GetOk resp =>
          match TestS3ConsistencyConcurrent.any_rule_id id
                  (response_rules resp) with
          | inl e => Raised e s1
          | inr true =>
              Returned (TestS3ConsistencyConcurrent.mkPoller
                          true (S attempt) (Some (now s1))) s1
          | inr false => continue
          end
      | GetRaises e =>
          match e with
          | ClientError _ _ => continue
          | _ => Raised e s1
          end
      end
    else Returned (TestS3ConsistencyConcurrent.mkPoller false attempt None) s.
Proof.
  cbn [TestS3ConsistencyConcurrent.smart_poll_loop].
  unfold bind at 1. unfold time_time at 1.
  destruct (Qlt_bool (now s - start) timeout); [|reflexivity].
  unfold bind at 1.
  unfold TestS3ConsistencyConcurrent.look, try_except.
  unfold bind at 1. unfold get_bucket_lifecycle_configuration.
  unfold after_backoff, response_rules. cbv zeta.
  destruct (get_outcome env (gets s)) as [resp|e].
  - destruct (TestS3ConsistencyConcurrent.any_rule_id id
                match resp with Some rs => rs | None => [] end)
      as [e|[|]] eqn:Hany.
    + apply any_rule_id_error in Hany. subst e. reflexivity.
    + reflexivity.
    + reflexivity.
  - destruct e; reflexivity.
Qed.

Lemma after_backoff_counters env s attempt :
  gets (after_backoff env s attempt) = S (gets s)
  /\ sleeps (after_backoff env s attempt) = S (sleeps s)
  /\ draws (after_backoff env s attempt) = S (draws s)
  /\ puts (after_backoff env s attempt) = puts s.
Proof. repeat split. Qed.

Lemma smart_poll_loop_outcome fuel id start timeout :
  forall attempt env s,
    match TestS3ConsistencyConcurrent.smart_poll_loop fuel id start timeout
            attempt env s with
    | Returned res s' =>
        (gets s <= gets s')%nat
        /\ puts s' = puts s
        /\ TestS3ConsistencyConcurrent.attempts res
           = (attempt + (gets s' - gets s))%nat
        /\ (if TestS3ConsistencyConcurrent.found res then
              (gets s < gets s')%nat
              /\ sleeps s' = (sleeps s + (gets s' - gets s) - 1)%nat
              /\ draws s' = (draws s + (gets s' - gets s) - 1)%nat
              /\ TestS3ConsistencyConcurrent.detected_at res = Some (now s')
              /\ exists resp,
                  get_outcome env (gets s' - 1) = GetOk resp
                  /\ TestS3ConsistencyConcurrent.any_rule_id id
                       (response_rules resp) = inr true
            else
              sleeps s' = (sleeps s + (gets s' - gets s))%nat
              /\ draws s' = (draws s + (gets s' - gets s))%nat
              /\ TestS3ConsistencyConcurrent.detected_at res = None
              /\ timeout <= now s' - start)
    | Raised e s' =>
        (gets s < gets s')%nat
        /\ puts s' = puts s
        /\ ((get_outcome env (gets s' - 1) = GetRaises e
             /\ forall code message, e <> ClientError code message)
            \/ (e = KeyError "ID"
                /\ exists resp,
                    get_outcome env (gets s' - 1) = GetOk resp
                    /\ TestS3ConsistencyConcurrent.any_rule_id id
                         (response_rules resp) = inl e))
    | Diverge => True
    end.
Proof.
  induction fuel as [|fuel IH]; intros attempt env s; [exact I|].
  rewrite smart_poll_loop_step.
  destruct (Qlt_bool_spec (now s - start) timeout) as [Hlt|Hge].
  2:{ cbn [TestS3ConsistencyConcurrent.found
           TestS3ConsistencyConcurrent.attempts
           TestS3ConsistencyConcurrent.detected_at].
      rewrite Nat.sub_diag, !Nat.add_0_r.
      split; [lia|]. split; [reflexivity|]. split; [reflexivity|].
      split; [reflexivity|]. split; [reflexivity|].
      split; [reflexivity | exact Hge]. }
  cbv zeta.
  assert (Hlast : (gets (after_get env s) - 1 = gets s)%nat)
    by (rewrite after_get_gets; lia).
  assert (Hcont :
            match TestS3ConsistencyConcurrent.smart_poll_loop fuel id start
                    timeout (S attempt) env (after_backoff env s (S attempt))
            with
            | Returned res s' =>
                (gets s <= gets s')%nat
                /\ puts s' = puts s
                /\ TestS3ConsistencyConcurrent.attempts res
                   = (attempt + (gets s' - gets s))%nat
                /\ (if TestS3ConsistencyConcurrent.found res then
                      (gets s < gets s')%nat
                      /\ sleeps s' = (sleeps s + (gets s' - gets s) - 1)%nat
                      /\ draws s' = (draws s + (gets s' - gets s) - 1)%nat
                      /\ TestS3ConsistencyConcurrent.detected_at res
                         = Some (now s')
                      /\ exists resp,
                          get_outcome env (gets s' - 1) = GetOk resp
                          /\ TestS3ConsistencyConcurrent.any_rule_id id
                               (response_rules resp) = inr true
                    else
                      sleeps s' = (sleeps s + (gets s' - gets s))%nat
                      /\ draws s' = (draws s + (gets s' - gets s))%nat
                      /\ TestS3ConsistencyConcurrent.detected_at res = None
                      /\ timeout <= now s' - start)
            | Raised e s' =>
                (gets s < gets s')%nat
                /\ puts s' = puts s
                /\ ((get_outcome env (gets s' - 1) = GetRaises e
                     /\ forall code message, e <> ClientError code message)
                    \/ (e = KeyError "ID"
                        /\ exists resp,
                            get_outcome env (gets s' - 1) = GetOk resp
                            /\ TestS3ConsistencyConcurrent.any_rule_id id
                                 (response_rules resp) = inl e))
            | Diverge => True
            end).
  { specialize (IH (S attempt) env (after_backoff env s (S attempt))).
    destruct (after_backoff_counters env s (S attempt))
      as (Hg & Hs & Hd & Hp).
    rewrite Hg, Hs, Hd, Hp in IH.
    destruct (TestS3ConsistencyConcurrent.smart_poll_loop fuel id start
                timeout (S attempt) env (after_backoff env s (S attempt)))
      as [res s'|e s'|]; [| |exact I].
    - destruct IH as (Hle & Hpu & Hatt & Hrest).
      split; [lia|]. split; [exact Hpu|]. split; [lia|].
      destruct (TestS3ConsistencyConcurrent.found res).
      + destruct Hrest as (Hlt' & Hsl & Hdr & Hdet & Hex).
        split; [lia|]. split; [lia|]. split; [lia|].
        split; [exact Hdet | exact Hex].
      + destruct Hrest as (Hsl & Hdr & Hdet & Hto).
        split; [lia|]. split; [lia|]. split; [exact Hdet | exact Hto].
    - destruct IH as (Hlt' & Hpu & Hwhy).
      split; [lia|]. split; [exact Hpu | exact Hwhy]. }
  destruct (get_outcome env (gets s)) as [resp|e] eqn:Hget.
  - destruct (TestS3ConsistencyConcurrent.any_rule_id id
                (response_rules resp)) as [e|[|]] eqn:Hany.
    + rewrite Hlast, after_get_gets.
      split; [lia|]. split; [reflexivity|]. right.
      pose proof (any_rule_id_error _ _ _ Hany) as He. subst e.
      split; [reflexivity|]. exists resp. split; [exact Hget | exact Hany].
    + cbn [TestS3ConsistencyConcurrent.found
           TestS3ConsistencyConcurrent.attempts
           TestS3ConsistencyConcurrent.detected_at].
      rewrite Hlast, after_get_gets.
      replace (S (gets s) - gets s)%nat with 1%nat by lia.
      split; [lia|]. split; [reflexivity|]. split; [lia|].
      split; [lia|]. split; [cbn [after_get sleeps]; lia|].
      split; [cbn [after_get draws]; lia|]. split; [reflexivity|].
      exists resp. split; [exact Hget | exact Hany].
    + exact Hcont.
  - destruct e as [code message|key|name|message];
      try exact Hcont;
      rewrite Hlast, after_get_gets;
      (split; [lia|]); (split; [reflexivity|]); left;
      (split; [exact Hget | discriminate]).
Qed.

(** X14.  What a result of [smart_poll_until_match] says.  [attempts] is
    the number of GET calls made, whether they answered or raised a client
    error.  With [found = True] the last GET answered with a rule carrying
    the expected ID, [detected_at] is the clock right after that GET, and
    every earlier attempt was followed by one jitter draw and one sleep.
    With [found = False] there is no [detected_at], the timeout had been
    reached, and every attempt was followed by a draw and a sleep. *)
Theorem smart_poll_result fuel id start timeout env s res s' :
  TestS3ConsistencyConcurrent.smart_poll_until_match fuel id start timeout
    env s = Returned res s' ->
  TestS3ConsistencyConcurrent.attempts res = (gets s' - gets s)%nat
  /\ (TestS3ConsistencyConcurrent.found res = true ->
      (1 <= TestS3ConsistencyConcurrent.attempts res)%nat
      /\ TestS3ConsistencyConcurrent.detected_at res = Some (now s')
      /\ sleeps s'
         = (sleeps s + TestS3ConsistencyConcurrent.attempts res - 1)%nat
      /\ draws s'
         = (draws s + TestS3ConsistencyConcurrent.attempts res - 1)%nat
      /\ exists resp,
          get_outcome env (gets s' - 1) = GetOk resp
          /\ TestS3ConsistencyConcurrent.any_rule_id id (response_rules resp)
             = inr true)
  /\ (TestS3ConsistencyConcurrent.found res = false ->
      TestS3ConsistencyConcurrent.detected_at res = None
      /\ timeout <= now s' - start
      /\ sleeps s' = (sleeps s + TestS3ConsistencyConcurrent.attempts res)%nat
      /\ draws s' = (draws s + TestS3ConsistencyConcurrent.attempts res)%nat).
Proof.
  unfold TestS3ConsistencyConcurrent.smart_poll_until_match. intros Hrun.
  pose proof (smart_poll_loop_outcome fuel id start timeout 0 env s) as H.
  rewrite Hrun in H. destruct H as (Hle & _ & Hatt & Hrest).
  cbn [Nat.add] in Hatt. split; [exact Hatt|].
  destruct (TestS3ConsistencyConcurrent.found res).
  - split; [|discriminate]. intros _.
    destruct Hrest as (Hlt & Hsl & Hdr & Hdet & Hex).
    rewrite Hatt. split; [lia|]. split; [exact Hdet|].
    split; [exact Hsl|]. split; [exact Hdr | exact Hex].
  - split; [discriminate|]. intros _.
    destruct Hrest as (Hsl & Hdr & Hdet & Hto).
    rewrite Hatt. split; [exact Hdet|]. split; [exact Hto|].
    split; [exact Hsl | exact Hdr].
Qed.

Lemma smart_poll_result_witness :
  exists res s',
    TestS3ConsistencyConcurrent.smart_poll_until_match 10 "rule-new" 0 600
      env_stale_first initial_state = Returned res s'
    /\ TestS3ConsistencyConcurrent.found res = true
    /\ TestS3ConsistencyConcurrent.attempts res = (gets s' - 0)%nat
    /\ gets s' = 2%nat.
Proof.
  eexists. eexists. split; [vm_compute; reflexivity|].
  split; [reflexivity|]. split; [|reflexivity].
  eapply (smart_poll_result 10 "rule-new" 0 600 env_stale_first initial_state).
  vm_compute. reflexivity.
Defined.

Lemma any_rule_id_missing id rules e :
  TestS3ConsistencyConcurrent.any_rule_id id rules = inl e ->
  exists r, In r rules /\ rule_ID r = None.
Proof.
  induction rules as [|r rules IH];
    cbn [TestS3ConsistencyConcurrent.any_rule_id]; [discriminate|].
  destruct (rule_ID r) as [i|] eqn:Hid.
  - destruct (String.eqb i id); [discriminate|].
    intros H. destruct (IH H) as (r' & Hin & Hr').
    exists r'. split; [right; exact Hin | exact Hr'].
  - intros _. exists r. split; [left; reflexivity | exact Hid].
Qed.

(** X15.  The smart poller swallows every client error of the GET, whatever
    its code, and so never raises one.  When it raises, the last GET either
    raised that same exception, which is no client error, or answered with
    a rule that has no ["ID"], and the exception is [KeyError('ID')]. *)
Theorem smart_poll_raises fuel id start timeout env s e s' :
  TestS3ConsistencyConcurrent.smart_poll_until_match fuel id start timeout
    env s = Raised e s' ->
  (forall code message, e <> ClientError code message)
  /\ (gets s < gets s')%nat
  /\ (get_outcome env (gets s' - 1) = GetRaises e
      \/ (e = KeyError "ID"
          /\ exists rules r,
              get_outcome env (gets s' - 1) = GetOk (Some rules)
              /\ In r rules /\ rule_ID r = None)).
Proof.
  unfold TestS3ConsistencyConcurrent.smart_poll_until_match. intros Hrun.
  pose proof (smart_poll_loop_outcome fuel id start timeout 0 env s) as H.
  rewrite Hrun in H. destruct H as (Hlt & _ & [(Hget & Hno)|(He & resp & Hget & Hany)]).
  - split; [exact Hno|]. split; [exact Hlt|]. left. exact Hget.
  - split; [subst e; discriminate|]. split; [exact Hlt|]. right.
    split; [exact He|].
    destruct (any_rule_id_missing _ _ _ Hany) as (r & Hin & Hr).
    destruct resp as [rules|]; [|destruct Hin].
    exists rules, r. split; [exact Hget|]. split; [exact Hin | exact Hr].
Qed.

Lemma smart_poll_raises_witness :
  exists s',
    TestS3ConsistencyConcurrent.smart_poll_until_match 10 "rule-new" 0 600
      env_rule_without_id initial_state = Raised (KeyError "ID") s'
    /\ (gets initial_state < gets s')%nat.
Proof.
  eexists. split; [vm_compute; reflexivity|].
  eapply (smart_poll_raises 10 "rule-new" 0 600 env_rule_without_id
            initial_state).
  vm_compute. reflexivity.
Defined.

Lemma sleep_cap_nonneg (attempt : nat) :
  0 < TestS3ConsistencyConcurrent.sleep_cap attempt.
Proof.
  unfold TestS3ConsistencyConcurrent.sleep_cap,
    TestS3ConsistencyConcurrent.max_sleep,
    TestS3ConsistencyConcurrent.base_sleep.
  assert (Hp : 0 < 2 ^ Z.of_nat attempt) by (apply Qpower_0_lt; reflexivity).
  apply Q.min_glb_lt; lra.
Qed.

(** X16.  The backoff of the smart poller.  The cap on the sleep after
    attempt [n] is [min(10, 0.5 * 2^n)]: it is positive, never above 10
    seconds, never decreases with the attempt number, doubles from 1 second
    after the first attempt to 8 seconds after the fourth, and is 10
    seconds from the fifth attempt on.  The jittered sleep drawn under it,
    [random.uniform(0, cap)], lies between 0 and the cap whenever the
    underlying [random.random()] lies between 0 and 1. *)
Theorem backoff_cap_schedule (attempt : nat) :
  (0 < TestS3ConsistencyConcurrent.sleep_cap attempt
   /\ TestS3ConsistencyConcurrent.sleep_cap attempt <= 10)
  /\ (forall later, (attempt <= later)%nat ->
        TestS3ConsistencyConcurrent.sleep_cap attempt
        <= TestS3ConsistencyConcurrent.sleep_cap later)
  /\ ((attempt <= 4)%nat ->
      TestS3ConsistencyConcurrent.sleep_cap attempt
      == (1 # 2) * 2 ^ Z.of_nat attempt)
  /\ ((5 <= attempt)%nat ->
      TestS3ConsistencyConcurrent.sleep_cap attempt == 10)
  /\ (forall env s,
        0 <= random_draw env (draws s) <= 1 ->
        exists d,
          random_uniform 0 (TestS3ConsistencyConcurrent.sleep_cap attempt)
            env s = Returned d (after_draw s)
          /\ 0 <= d <= TestS3ConsistencyConcurrent.sleep_cap attempt).
Proof.
  pose proof (sleep_cap_nonneg attempt) as Hpos.
  assert (Hmono : forall n m, (n <= m)%nat ->
            (1 # 2) * 2 ^ Z.of_nat n <= (1 # 2) * 2 ^ Z.of_nat m).
  { intros n m Hnm.
    assert (H : 2 ^ Z.of_nat n <= 2 ^ Z.of_nat m).
    { apply Qpower_le_compat_l; [lia | discriminate]. }
    lra. }
  split; [|split; [|split; [|split]]].
  - split; [exact Hpos|]. apply Q.le_min_l.
  - intros later Hle.
    unfold TestS3ConsistencyConcurrent.sleep_cap.
    apply Q.min_le_compat_l, Hmono, Hle.
  - intros Hle. unfold TestS3ConsistencyConcurrent.sleep_cap.
    apply Q.min_r.
    apply (Qle_trans _ ((1 # 2) * 2 ^ Z.of_nat 4));
      [apply Hmono, Hle | discriminate].
  - intros Hge. unfold TestS3ConsistencyConcurrent.sleep_cap.
    apply Q.min_l.
    apply (Qle_trans _ ((1 # 2) * 2 ^ Z.of_nat 5));
      [discriminate | apply Hmono, Hge].
  - intros env s [Hu0 Hu1]. eexists. split; [reflexivity|].
    remember (TestS3ConsistencyConcurrent.sleep_cap attempt) as cap.
    remember (random_draw env (draws s)) as u.
    clear - Hpos Hu0 Hu1. split; nra.
Qed.

Lemma backoff_cap_schedule_witness :
  TestS3ConsistencyConcurrent.sleep_cap 3 == (1 # 2) * 2 ^ Z.of_nat 3
  /\ TestS3ConsistencyConcurrent.sleep_cap 7 == 10
  /\ exists d,
      random_uniform 0 (TestS3ConsistencyConcurrent.sleep_cap 3)
        env_stale_first initial_state = Returned d (after_draw initial_state)
      /\ 0 <= d <= TestS3ConsistencyConcurrent.sleep_cap 3.
Proof.
  split; [|split].
  - apply (backoff_cap_schedule 3). lia.
  - apply (backoff_cap_schedule 7). lia.
  - apply (backoff_cap_schedule 3). vm_compute. split; discriminate.
Defined.

Lemma smart_poll_loop_clock env id start timeout :
  clock_never_early env ->
  (forall n, 0 <= random_draw env n) ->
  forall fuel attempt s,
    match TestS3ConsistencyConcurrent.smart_poll_loop fuel id start timeout
            attempt env s with
    | Returned _ s' => now s <= now s'
    | Raised _ s' => now s <= now s'
    | Diverge => True
    end.
Proof.
  intros [Hlag Hlat] Hdraw.
  induction fuel as [|fuel IH]; intros attempt s; [exact I|].
  rewrite smart_poll_loop_step.
  destruct (Qlt_bool (now s - start) timeout); [|lra].
  cbv zeta.
  assert (Hget : now s <= now (after_get env s)).
  { cbn [after_get now]. specialize (Hlat (gets s)). lra. }
  assert (Hcont :
            match TestS3ConsistencyConcurrent.smart_poll_loop fuel id start
                    timeout (S attempt) env (after_backoff env s (S attempt))
            with
            | Returned _ s' => now s <= now s'
            | Raised _ s' => now s <= now s'
            | Diverge => True
            end).
  { specialize (IH (S attempt) (after_backoff env s (S attempt))).
    assert (Hstep : now s <= now (after_backoff env s (S attempt))).
    { unfold after_backoff. cbv zeta.
      cbn [after_sleep after_draw after_get now sleeps draws].
      pose proof (sleep_cap_nonneg (S attempt)) as Hcap.
      specialize (Hlat (gets s)). specialize (Hlag (sleeps s)).
      specialize (Hdraw (draws s)).
      remember (TestS3ConsistencyConcurrent.sleep_cap (S attempt)) as cap.
      remember (random_draw env (draws s)) as u.
      clear - Hcap Hlat Hlag Hdraw. nra. }
    destruct (TestS3ConsistencyConcurrent.smart_poll_loop fuel id start
                timeout (S attempt) env (after_backoff env s (S attempt)));
      [lra | lra | exact I]. }
  destruct (get_outcome env (gets s)) as [resp|e].
  - destruct (TestS3ConsistencyConcurrent.any_rule_id id
                (response_rules resp)) as [e|[|]];
      [exact Hget | exact Hget | exact Hcont].
  - destruct e; try exact Hget. exact Hcont.
Qed.

(** X17.  One iteration of the control-plane racer.  A row is produced only
    when the writer's PUT was acknowledged; exactly one PUT was made; the
    row's [api_calls] is the number of GET calls of the poller and does not
    count the PUT; [delay_sec] is present exactly when the rule was found,
    and is then the time from the start of the race to the end of the
    iteration; on a clock on which no sleep ends early and no GET takes
    negative time, with non-negative random draws, it is never negative.
    When the PUT raises, no row is produced. *)
Theorem racer_row_accounting fuel i rule_id env s row s' :
  TestS3ConsistencyConcurrent.racer_iteration fuel i rule_id env s
  = Returned row s' ->
  put_outcome env (puts s) = PutAck
  /\ puts s' = S (puts s)
  /\ TestS3ConsistencyConcurrent.iteration row = i
  /\ TestS3ConsistencyConcurrent.api_calls row = (gets s' - gets s)%nat
  /\ (TestS3ConsistencyConcurrent.row_found row = true ->
      TestS3ConsistencyConcurrent.delay_sec row = Some (now s' - now s))
  /\ (TestS3ConsistencyConcurrent.row_found row = false ->
      TestS3ConsistencyConcurrent.delay_sec row = None
      /\ 600 <= now s' - now s)
  /\ (clock_never_early env ->
      (forall n, 0 <= random_draw env n) ->
      forall d, TestS3ConsistencyConcurrent.delay_sec row = Some d -> 0 <= d).
Proof.
  intros Hrun.
  assert (Hput : put_outcome env (puts s) = PutAck).
  { revert Hrun. unfold TestS3ConsistencyConcurrent.racer_iteration.
    unfold bind at 1. unfold time_time at 1.
    unfold bind at 1. unfold TestS3ConsistencyConcurrent.writer_put at 1.
    destruct (put_outcome env (puts s)) as [|e]; [reflexivity|].
    unfold try_except, bind, raise.
    destruct (TestS3ConsistencyConcurrent.smart_poll_until_match
                fuel rule_id (now s) 600 env
                (TestS3ConsistencyConcurrent.after_writer s));
      discriminate. }
  apply racer_iteration_returned in Hrun.
  destruct Hrun as (res & Hpoll & ->).
  pose proof (smart_poll_loop_outcome fuel rule_id (now s) 600 0 env
                (TestS3ConsistencyConcurrent.after_writer s)) as Hout.
  pose proof (smart_poll_loop_clock env rule_id (now s) 600) as Hclock.
  unfold TestS3ConsistencyConcurrent.smart_poll_until_match in Hpoll.
  rewrite Hpoll in Hout.
  destruct Hout as (Hle & Hpu & Hatt & Hrest).
  cbn [TestS3ConsistencyConcurrent.after_writer gets puts Nat.add] in *.
  unfold TestS3ConsistencyConcurrent.make_row.
  cbn [TestS3ConsistencyConcurrent.iteration
       TestS3ConsistencyConcurrent.api_calls
       TestS3ConsistencyConcurrent.row_found
       TestS3ConsistencyConcurrent.delay_sec].
  split; [exact Hput|]. split; [exact Hpu|]. split; [reflexivity|].
  split; [exact Hatt|].
  destruct (TestS3ConsistencyConcurrent.found res).
  - destruct Hrest as (_ & _ & _ & Hdet & _). rewrite Hdet.
    split; [reflexivity|]. split; [discriminate|].
    intros Hck Hdraw d Hd. inversion Hd; subst d.
    specialize (Hclock Hck Hdraw fuel 0%nat
                  (TestS3ConsistencyConcurrent.after_writer s)).
    rewrite Hpoll in Hclock.
    cbn [TestS3ConsistencyConcurrent.after_writer now] in Hclock. lra.
  - destruct Hrest as (_ & _ & Hdet & Hto).
    split; [discriminate|]. split; [split; [reflexivity | exact Hto]|].
    intros _ _ d Hd. discriminate Hd.
Qed.

Lemma racer_row_accounting_witness :
  exists row s',
    TestS3ConsistencyConcurrent.racer_iteration 10 0 "rule-new"
      env_stale_first initial_state = Returned row s'
    /\ TestS3ConsistencyConcurrent.row_found row = true
    /\ TestS3ConsistencyConcurrent.api_calls row = 2%nat
    /\ puts s' = 1%nat.
Proof.
  eexists. eexists. split; [vm_compute; reflexivity|].
  split; [reflexivity|]. split; [reflexivity|].
  eapply (racer_row_accounting 10 0 "rule-new" env_stale_first initial_state).
  vm_compute. reflexivity.
Defined.

(** ** The timeout of the Adaptive strategy *)

(** X18.  Whatever the learned history, the Adaptive strategy never
    declares a timeout before 300 seconds and always declares one from 600
    seconds on; learning can only postpone the timeout relative to the
    bootstrap phase; and once the strategy answers that it should time out
    it keeps that answer at every later time, whatever the check count. *)
Theorem adaptive_timeout_window (history : list Q) (elapsed : Q) (k : nat) :
  (elapsed < 300 -> AdaptiveStrategy.should_timeout history elapsed k = false)
  /\ (600 <= elapsed ->
      AdaptiveStrategy.should_timeout history elapsed k = true)
  /\ (AdaptiveStrategy.should_timeout history elapsed k = true ->
      AdaptiveStrategy.should_timeout [] elapsed k = true)
  /\ (forall later k',
        elapsed <= later ->
        AdaptiveStrategy.should_timeout history elapsed k = true ->
        AdaptiveStrategy.should_timeout history later k' = true).
Proof.
  pose proof (adaptive_timeout_range history) as [Hlo Hhi].
  assert (H300 : Q2R 300 = 300%R) by apply (Q2R_inject_Z 300).
  assert (H600 : Q2R 600 = 600%R) by apply (Q2R_inject_Z 600).
  unfold AdaptiveStrategy.should_timeout.
  split; [|split; [|split]].
  - intros He. apply Qlt_Rlt in He. rewrite H300 in He.
    destruct (Rge_dec (Q2R elapsed) (AdaptiveStrategy.timeout history));
      [exfalso; lra | reflexivity].
  - intros He. apply Qle_Rle in He. rewrite H600 in He.
    destruct (Rge_dec (Q2R elapsed) (AdaptiveStrategy.timeout history));
      [reflexivity | exfalso; lra].
  - destruct (Rge_dec (Q2R elapsed) (AdaptiveStrategy.timeout history));
      [intros _ | discriminate].
    assert (Hboot : AdaptiveStrategy.timeout [] = 300%R)
      by apply (Q2R_inject_Z 300).
    destruct (Rge_dec (Q2R elapsed) (AdaptiveStrategy.timeout []));
      [reflexivity | exfalso; lra].
  - intros later k' Hle. apply Qle_Rle in Hle.
    destruct (Rge_dec (Q2R elapsed) (AdaptiveStrategy.timeout history));
      [intros _ | discriminate].
    destruct (Rge_dec (Q2R later) (AdaptiveStrategy.timeout history));
      [reflexivity | exfalso; lra].
Qed.

Lemma adaptive_timeout_window_witness :
  AdaptiveStrategy.should_timeout [40; 50; 60] 299 5 = false
  /\ AdaptiveStrategy.should_timeout [10; 500; 20] 600 5 = true.
Proof.
  split.
  - refine (proj1 (adaptive_timeout_window [40; 50; 60] 299 5) _).
    reflexivity.
  - refine (proj1 (proj2 (adaptive_timeout_window [10; 500; 20] 600 5)) _).
    discriminate.
Defined.

(** ** The test suite *)

Lemma simulated_run_calls fuel strategy sim tid env s r s' :
  SimulatedBaseWaiterStrategy.run_single_test fuel strategy sim tid env s
  = Returned r s' ->
  test_id r = tid
  /\ (success r = true -> propagation_time r <> None)
  /\ puts s' = S (puts s)
  /\ sleeps s' = (sleeps s + checks_of r)%nat
  /\ (gets s <= gets s' <= gets s + checks_of r)%nat
  /\ (sim = false -> gets s' = (gets s + checks_of r)%nat).
Proof.
  rewrite simulated_run_unfold, run_single_test_unfold. cbv zeta.
  change (puts (reset_simulation s)) with (puts s).
  destruct (put_outcome env (puts s)); intros Hrun.
  - pose proof (polling_loop_returned _ _ _ _ _ _ _ _ _ _ _ _ _ _ Hrun)
      as (c0 & pt0 & h0 & _ & Htid & _ & _ & _ & Hpt & _).
    apply polling_loop_calls in Hrun;
      [|unfold sim_attrs_ok; cbn; intros H; contradiction].
    destruct Hrun as (c & Hc & _ & Hp & Hsl & Hg & Hgs & _).
    rewrite Nat.sub_0_r in Hsl, Hg, Hgs.
    cbn [after_put reset_simulation puts sleeps gets] in Hp, Hsl, Hg, Hgs.
    unfold checks_of. rewrite Hc.
    split; [exact Htid|]. split; [rewrite Hpt; discriminate|].
    split; [exact Hp|]. split; [exact Hsl|]. split; [exact Hg | exact Hgs].
  - inversion Hrun; subst; clear Hrun.
    unfold checks_of.
    cbn [after_put reset_simulation puts sleeps gets check_count test_id
         success].
    split; [reflexivity|]. split; [discriminate|]. split; [reflexivity|].
    split; [lia|]. split; [lia|]. intros _. lia.
Qed.

Lemma total_checks_app (a b : list TestResult) :
  total_checks (a ++ b) = (total_checks a + total_checks b)%nat.
Proof.
  induction a as [|r a IH]; cbn [app total_checks fold_right]; [reflexivity|].
  fold (total_checks (a ++ b)). fold (total_checks a). rewrite IH. lia.
Qed.

Lemma run_tests_accounting fuel sim :
  forall remaining i h results env s,
    match AdaptiveProbe.run_tests fuel sim remaining i h results env s with
    | Returned (results', _) s' =>
        exists new,
          results' = results ++ new
          /\ map test_id new = seq i remaining
          /\ puts s' = (puts s + remaining)%nat
          /\ sleeps s' = (sleeps s + total_checks new + remaining)%nat
          /\ (gets s <= gets s' <= gets s + total_checks new)%nat
          /\ (sim = false -> gets s' = (gets s + total_checks new)%nat)
    | Raised e _ =>
        e = lookup_error /\ exists k e0, get_outcome env k = GetRaises e0
    | Diverge => True
    end.
Proof.
  induction remaining as [|remaining IH]; intros i h results env s.
  - cbn [AdaptiveProbe.run_tests]. unfold ret. exists [].
    rewrite app_nil_r. cbn [map seq total_checks fold_right].
    split; [reflexivity|]. split; [reflexivity|]. split; [lia|].
    split; [lia|]. split; [lia|]. intros _. lia.
  - cbn [AdaptiveProbe.run_tests]. unfold bind at 1.
    unfold AdaptiveProbe.run_single_test. unfold bind at 1.
    destruct (SimulatedBaseWaiterStrategy.run_single_test fuel
                (AdaptiveStrategy.strategy h) sim i env s)
      as [r s1|e s1|] eqn:Hone.
    + apply simulated_run_calls in Hone.
      destruct Hone as (Htid & Hpt & Hp & Hsl & Hg & Hgs).
      assert (Hnext : forall h1,
                 match AdaptiveProbe.run_tests fuel sim remaining (S i) h1
                         (results ++ [r]) env (after_sleep env s1 2) with
                 | Returned (results', _) s' =>
                     exists new,
                       results' = results ++ new
                       /\ map test_id new = seq i (S remaining)
                       /\ puts s' = (puts s + S remaining)%nat
                       /\ sleeps s'
                          = (sleeps s + total_checks new + S remaining)%nat
                       /\ (gets s <= gets s' <= gets s + total_checks new)%nat
                       /\ (sim = false ->
                           gets s' = (gets s + total_checks new)%nat)
                 | Raised e _ =>
                     e = lookup_error
                     /\ exists k e0, get_outcome env k = GetRaises e0
                 | Diverge => True
                 end).
      { intros h1.
        specialize (IH (S i) h1 (results ++ [r]) env (after_sleep env s1 2)).
        destruct (AdaptiveProbe.run_tests fuel sim remaining (S i) h1
                    (results ++ [r]) env (after_sleep env s1 2))
          as [[results' h'] s'|e s'|]; [|exact IH|exact I].
        destruct IH as (new & Hres & Hids & Hp' & Hsl' & Hg' & Hgs').
        cbn [after_sleep puts sleeps gets] in Hp', Hsl', Hg', Hgs'.
        exists (r :: new).
        split; [rewrite Hres, <- app_assoc; reflexivity|].
        split; [cbn [map seq]; rewrite Htid, Hids; reflexivity|].
        change (total_checks (r :: new))
          with (checks_of r + total_checks new)%nat.
        split; [lia|]. split; [lia|]. split; [lia|].
        intros Hsim. specialize (Hgs Hsim). specialize (Hgs' Hsim). lia. }
      destruct (success r) eqn:Hs.
      * destruct (propagation_time r) as [t|] eqn:Ht;
          [|exfalso; apply (Hpt eq_refl); reflexivity].
        unfold ret at 1. cbn [fst snd].
        unfold bind at 1. unfold time_sleep at 1. apply Hnext.
      * unfold ret at 1. cbn [fst snd].
        unfold bind at 1. unfold time_sleep at 1. apply Hnext.
    + apply simulated_run_raised in Hone.
      destruct Hone as (He & _ & e0 & Hget).
      split; [exact He|]. eexists. exists e0. exact Hget.
    + exact I.
Qed.

(** X19.  The test loop of the Adaptive suite ([run_test_suite] up to its
    call of [analyze_results]).  It raises only when a GET raised, and then
    the failed lookup of the check; against a store that answers every GET
    it never raises.  When it returns, it returns one result per requested
    test, in order, the result at position [i] carrying [test_id = i]; it
    has made exactly one PUT per test, one sleep per recorded check plus the
    pause after each test, and at most one GET per recorded check, exactly
    one when the simulation is off. *)
Theorem suite_accounting fuel sim num_tests env s :
  (forall e s',
      AdaptiveProbe.run_test_suite fuel sim num_tests env s = Raised e s' ->
      e = lookup_error /\ exists k e0, get_outcome env k = GetRaises e0)
  /\ (store_answers env ->
      forall e s',
        AdaptiveProbe.run_test_suite fuel sim num_tests env s <> Raised e s')
  /\ (forall results h s',
        AdaptiveProbe.run_test_suite fuel sim num_tests env s
        = Returned (results, h) s' ->
        length results = num_tests
        /\ map test_id results = seq 0 num_tests
        /\ puts s' = (puts s + num_tests)%nat
        /\ sleeps s' = (sleeps s + total_checks results + num_tests)%nat
        /\ (gets s <= gets s' <= gets s + total_checks results)%nat
        /\ (sim = false -> gets s' = (gets s + total_checks results)%nat)).
Proof.
  unfold AdaptiveProbe.run_test_suite.
  pose proof (run_tests_accounting fuel sim num_tests 0 [] [] env s) as H.
  split; [|split].
  - intros e s' Hrun. rewrite Hrun in H. exact H.
  - intros Hstore e s' Hrun. rewrite Hrun in H.
    destruct H as (_ & k & e0 & Hget).
    destruct (Hstore k) as [response Hok]. rewrite Hok in Hget.
    discriminate Hget.
  - intros results h s' Hrun. rewrite Hrun in H.
    destruct H as (new & Hres & Hids & Hrest).
    cbn [app] in Hres. subst new.
    split; [|split; [exact Hids | exact Hrest]].
    rewrite <- (length_map test_id), Hids. apply length_seq.
Qed.

Lemma suite_accounting_witness :
  exists results h s',
    AdaptiveProbe.run_test_suite 5 false 1 env_adaptive_visible initial_state
    = Returned (results, h) s'
    /\ map test_id results = seq 0 1
    /\ puts s' = (puts initial_state + 1)%nat.
Proof.
  assert (Hrun : exists results h s',
             AdaptiveProbe.run_test_suite 5 false 1 env_adaptive_visible
               initial_state = Returned (results, h) s').
  { unfold AdaptiveProbe.run_test_suite.
    cbn [AdaptiveProbe.run_tests]. unfold AdaptiveProbe.run_single_test.
    rewrite adaptive_bootstrap by (cbn; lia).
    unfold bind at 1. unfold bind at 1.
    match goal with
    | |- context [SimulatedBaseWaiterStrategy.run_single_test
                    ?f ?st ?sm ?t ?e ?s] =>
        let v := eval vm_compute in
                   (SimulatedBaseWaiterStrategy.run_single_test f st sm t e s)
        in
        change (SimulatedBaseWaiterStrategy.run_single_test f st sm t e s)
          with v
    end.
    cbn. eexists. eexists. eexists. reflexivity. }
  destruct Hrun as (results & h & s' & Hrun).
  exists results, h, s'. split; [exact Hrun|].
  destruct (proj2 (proj2 (suite_accounting 5 false 1 env_adaptive_visible
                            initial_state)) results h s' Hrun)
    as (_ & Hids & Hp & _).
  split; [exact Hids | exact Hp].
Defined.

Lemma display_coverage_returns (timeout : Q) :
  exists report, Coverage.display_for_timeout timeout = inr report.
Proof.
  unfold Coverage.display_for_timeout.
  destruct (find_coverage_spec timeout)
    as [[_ Hf] | (label & bound & rate & _ & _ & Ht & Hf)]; rewrite Hf.
  - cbn [Coverage.truthy]. eexists. reflexivity.
  - rewrite Ht. eexists. reflexivity.
Qed.

Lemma filter_partition_length {A} (f : A -> bool) (l : list A) :
  (length (filter f l) + length (filter (fun x => negb (f x)) l)
   = length l)%nat.
Proof.
  induction l as [|x l IH]; cbn [filter length]; [reflexivity|].
  destruct (f x); cbn [negb length]; lia.
Qed.

(** X20.  [analyze_results] on an empty list of results raises
    [ZeroDivisionError] when it computes the success rate, so a test suite
    of zero tests ends in that exception.  On a non-empty list it raises
    nothing, for any strategy: the successful and the failed results
    partition the list, the success rate is the share of successful ones in
    percent, between 0 and 100, and the coverage report is printed. *)
Theorem analyze_results_summary strategy results :
  (results = [] ->
   analyze_results strategy results = inl (OtherException "ZeroDivisionError"))
  /\ (results <> [] ->
      exists summary report,
        analyze_results strategy results = inr (summary, report)
        /\ Coverage._display_coverage_analysis strategy = inr report
        /\ total_tests summary = length results
        /\ successful summary = length (filter success results)
        /\ (successful summary + failed summary = total_tests summary)%nat
        /\ success_rate summary * inject_Z (Z.of_nat (total_tests summary))
           == 100 * inject_Z (Z.of_nat (successful summary))
        /\ 0 <= success_rate summary <= 100).
Proof.
  split; [intros ->; reflexivity|].
  intros Hne. unfold analyze_results. cbv zeta.
  destruct results as [|r0 results]; [contradiction|].
  remember (r0 :: results) as rs eqn:Hrs.
  assert (Hlen : (0 < length rs)%nat) by (subst rs; cbn [length]; lia).
  destruct (Nat.eqb_spec (length rs) 0) as [H0|_]; [lia|].
  unfold Coverage._display_coverage_analysis.
  destruct (display_coverage_returns (Coverage.resolve_timeout strategy))
    as (report & Hrep).
  rewrite Hrep. eexists. exists report.
  split; [reflexivity|]. split; [reflexivity|].
  cbn [total_tests successful failed success_rate].
  pose proof (filter_partition_length success rs) as Hpart.
  split; [reflexivity|]. split; [reflexivity|]. split; [exact Hpart|].
  assert (Hn : 0 < inject_Z (Z.of_nat (length rs))).
  { change 0 with (inject_Z 0). rewrite <- Zlt_Qlt. lia. }
  assert (Hs0 : 0 <= inject_Z (Z.of_nat (length (filter success rs)))).
  { change 0 with (inject_Z 0). rewrite <- Zle_Qle. lia. }
  assert (Hsn : inject_Z (Z.of_nat (length (filter success rs)))
                <= inject_Z (Z.of_nat (length rs))).
  { rewrite <- Zle_Qle. lia. }
  remember (inject_Z (Z.of_nat (length rs))) as n.
  remember (inject_Z (Z.of_nat (length (filter success rs)))) as k.
  clear - Hn Hs0 Hsn.
  assert (Heq : k / n * 100 * n == 100 * k) by (field; lra).
  split; [exact Heq|].
  assert (Hq : 0 <= k / n <= 1).
  { split.
    - apply Qle_shift_div_l; [exact Hn | lra].
    - apply Qle_shift_div_r; [exact Hn | lra]. }
  lra.
Qed.

Lemma analyze_results_summary_witness :
  analyze_results BaselineStrategy.strategy []
  = inl (OtherException "ZeroDivisionError")
  /\ exists summary report,
      analyze_results BaselineStrategy.strategy
        [mkResult 0 true None (Some 0) (Some 3) (Some 1%nat) (Some 2%nat)
                  (Some []) 3]
      = inr (summary, report)
      /\ (successful summary + failed summary = total_tests summary)%nat
      /\ 0 <= success_rate summary <= 100.
Proof.
  split.
  - refine (proj1 (analyze_results_summary BaselineStrategy.strategy []) _).
    reflexivity.
  - destruct (proj2 (analyze_results_summary BaselineStrategy.strategy
                       [mkResult 0 true None (Some 0) (Some 3) (Some 1%nat)
                                 (Some 2%nat) (Some []) 3])
                ltac:(discriminate))
      as (summary & report & Hrun & _ & _ & _ & Hpart & _ & Hrate).
    exists summary, report. split; [exact Hrun|].
    split; [exact Hpart | exact Hrate].
Defined.

(** ** The rows of the sequential control-plane test *)

Lemma poll_loop_instant fuel expected timeout_s start :
  forall polls fs fsa env s res s',
    (fs = None /\ polls = 0%nat)
    \/ (exists f, fs = Some f
                  /\ TestS3Consistency.equal_lifecycle f expected = false
                  /\ (1 <= polls)%nat) ->
    TestS3Consistency.poll_loop fuel expected timeout_s start polls fs fsa
      env s = Returned res s' ->
    (TestS3Consistency.first_read res = None
     /\ TestS3Consistency.polls res = 0%nat
     /\ TestS3Consistency.matched res = false)
    \/ (TestS3Consistency.first_read res = Some expected
        /\ TestS3Consistency.polls res = 1%nat
        /\ TestS3Consistency.matched res = true)
    \/ (exists f,
          TestS3Consistency.first_read res = Some f
          /\ TestS3Consistency.equal_lifecycle f expected = false
          /\ (1 <= TestS3Consistency.polls res)%nat
          /\ (TestS3Consistency.matched res = true ->
              (2 <= TestS3Consistency.polls res)%nat)).
Proof.
  induction fuel as [|fuel IH]; intros polls fs fsa env s res s' Hinv Hrun.
  - discriminate Hrun.
  - rewrite poll_loop_step in Hrun.
    destruct (Qlt_bool timeout_s (now s - start)).
    { inversion Hrun; subst; clear Hrun.
      cbn [TestS3Consistency.polls TestS3Consistency.first_read
           TestS3Consistency.matched].
      destruct Hinv as [[-> ->]|(f & -> & Hf & Hp)].
      - left. repeat split.
      - right. right. exists f. split; [reflexivity|]. split; [exact Hf|].
        split; [exact Hp | discriminate]. }
    cbv zeta in Hrun.
    destruct (get_outcome env (gets s)) as [[current|]|e].
    + destruct (TestS3Consistency.equal_lifecycle current expected) eqn:Heq.
      * inversion Hrun; subst; clear Hrun.
        cbn [TestS3Consistency.polls TestS3Consistency.first_read
             TestS3Consistency.matched].
        destruct Hinv as [[-> ->]|(f & -> & Hf & Hp)].
        -- right. left. apply Rules_eqb_eq in Heq. subst current.
           repeat split.
        -- right. right. exists f. split; [reflexivity|]. split; [exact Hf|].
           split; [lia|]. intros _. lia.
      * apply IH in Hrun; [exact Hrun|]. right.
        destruct Hinv as [[-> ->]|(f & -> & Hf & Hp)].
        -- exists current. split; [reflexivity|]. split; [exact Heq | lia].
        -- exists f. split; [reflexivity|]. split; [exact Hf | lia].
    + discriminate Hrun.
    + destruct e as [err m| | |]; try discriminate Hrun.
      destruct (TestS3Consistency.tolerated err); [|discriminate Hrun].
      apply IH in Hrun; [exact Hrun | exact Hinv].
Qed.

Lemma Rules_eqb_refl (a : list Rule) : Rules_eqb a a = true.
Proof. apply Rules_eqb_eq. reflexivity. Qed.

(** X21.  The flags of a row of the sequential control-plane test.  The new
    configuration becomes the previous one of the next iteration.
    [first_read_matched] is true exactly when the run matched on its very
    first answered GET ([matched] with [polls = 1]), and then
    [first_read_rule] is the new rule ID.  [first_read_stale] needs a
    previous configuration; it can hold together with
    [first_read_matched] only when the previous configuration equals the
    new one. *)
Theorem control_plane_row_flags fuel i rule_id prev env s row next s' :
  TestS3Consistency.control_plane_iteration fuel i rule_id prev env s
  = Returned (row, next) s' ->
  next = Some (TestS3Consistency.iteration_cfg i rule_id)
  /\ TestS3Consistency.iteration row = i
  /\ (TestS3Consistency.first_read_matched row = true
      <-> TestS3Consistency.row_matched row = true
          /\ TestS3Consistency.row_polls row = 1%nat)
  /\ (TestS3Consistency.first_read_matched row = true ->
      TestS3Consistency.first_read_rule row = Some rule_id)
  /\ (TestS3Consistency.first_read_stale row = true ->
      exists p, prev = Some p
                /\ (TestS3Consistency.first_read_matched row = true ->
                    p = TestS3Consistency.iteration_cfg i rule_id))
  /\ (TestS3Consistency.row_polls row = 0%nat ->
      TestS3Consistency.row_matched row = false
      /\ TestS3Consistency.first_read_rule row = None
      /\ TestS3Consistency.first_read_sec row = None).
Proof.
  intros Hrun. apply control_plane_iteration_returned in Hrun.
  destruct Hrun as (res & s1 & Hpoll & -> & ->).
  split; [reflexivity|]. split; [reflexivity|].
  unfold TestS3Consistency.poll_until_match in Hpoll.
  unfold bind at 1 in Hpoll. unfold time_time at 1 in Hpoll.
  pose proof (poll_loop_result _ _ _ _ _ _ _ _ _ _ _
                (conj (fun _ => eq_refl) (fun _ => eq_refl))
                (conj (fun _ => eq_refl) (fun _ => eq_refl)) Hpoll)
    as (_ & _ & _ & Hage & _).
  apply poll_loop_instant in Hpoll; [|left; split; reflexivity].
  unfold TestS3Consistency.make_row. cbv zeta.
  cbn [TestS3Consistency.first_read_matched TestS3Consistency.row_matched
       TestS3Consistency.row_polls TestS3Consistency.first_read_rule
       TestS3Consistency.first_read_stale TestS3Consistency.first_read_sec].
  destruct Hpoll as [(Hfr & Hp & Hm)|[(Hfr & Hp & Hm)|(f & Hfr & Hf & Hp & Hm)]];
    rewrite Hfr.
  - rewrite Hm, Hp.
    split; [split; [discriminate | intros [H _]; discriminate H]|].
    split; [discriminate|]. split; [discriminate|].
    intros _. split; [reflexivity|]. split; [reflexivity|].
    rewrite (proj1 Hage Hfr). reflexivity.
  - rewrite Hm, Hp.
    unfold TestS3Consistency.equal_lifecycle at 1. rewrite Rules_eqb_refl.
    split; [split; [intros _; split; reflexivity | reflexivity]|].
    split; [intros _; reflexivity|].
    split; [|discriminate].
    destruct prev as [p|]; [|discriminate].
    intros Hst. exists p. split; [reflexivity|]. intros _.
    apply Rules_eqb_eq in Hst. symmetry. exact Hst.
  - rewrite Hf.
    split.
    { split; [discriminate|]. intros [Hmt Hone].
      specialize (Hm Hmt). lia. }
    split; [discriminate|].
    split.
    { destruct prev as [p|]; [|discriminate].
      intros _. exists p. split; [reflexivity | discriminate]. }
    intros H0. lia.
Qed.

Lemma control_plane_row_flags_witness :
  exists row next s',
    TestS3Consistency.control_plane_iteration 10 0 "rule-new" (Some old_cfg)
      env_stale_first initial_state = Returned (row, next) s'
    /\ TestS3Consistency.first_read_stale row = true
    /\ TestS3Consistency.first_read_matched row = false
    /\ next = Some (TestS3Consistency.iteration_cfg 0 "rule-new").
Proof.
  eexists. eexists. eexists. split; [vm_compute; reflexivity|].
  split; [reflexivity|]. split; [reflexivity|].
  eapply (control_plane_row_flags 10 0 "rule-new" (Some old_cfg)
            env_stale_first initial_state).
  vm_compute. reflexivity.
Defined.

(** ** The coverage analysis *)

Lemma table_entry_rate l b r :
  In (l, b) Coverage.distribution ->
  mapped_rate l = Some r ->
  (b == 48 /\ r == 50) \/ (b == 82 /\ r == 75) \/ (b == 120 /\ r == 85)
  \/ (b == 142 /\ r == 90) \/ (b == 156 /\ r == 95)
  \/ (b == 234 /\ r == 99) \/ (b == 312 /\ r == 999 # 10).
Proof.
  unfold Coverage.distribution. cbn [In]. intros Hin Hr.
  destruct Hin as [H|[H|[H|[H|[H|[H|[H|[]]]]]]]];
    injection H as <- <-; vm_compute in Hr; injection Hr as <-.
  - left. split; reflexivity.
  - right; left. split; reflexivity.
  - do 2 right; left. split; reflexivity.
  - do 3 right; left. split; reflexivity.
  - do 4 right; left. split; reflexivity.
  - do 5 right; left. split; reflexivity.
  - do 6 right. split; reflexivity.
Qed.

Lemma table_rates_ordered l1 b1 r1 l2 b2 r2 :
  In (l1, b1) Coverage.distribution ->
  In (l2, b2) Coverage.distribution ->
  mapped_rate l1 = Some r1 ->
  mapped_rate l2 = Some r2 ->
  b1 <= b2 ->
  48 <= b1 /\ r1 <= r2.
Proof.
  intros H1 H2 Hr1 Hr2 Hb.
  pose proof (table_entry_rate _ _ _ H1 Hr1) as E1.
  pose proof (table_entry_rate _ _ _ H2 Hr2) as E2.
  clear H1 H2 Hr1 Hr2.
  destruct E1 as [[Eb1 Er1]|[[Eb1 Er1]|[[Eb1 Er1]|[[Eb1 Er1]|[[Eb1 Er1]|
                 [[Eb1 Er1]|[Eb1 Er1]]]]]]];
    (split; [lra|]);
    destruct E2 as [[Eb2 Er2]|[[Eb2 Er2]|[[Eb2 Er2]|[[Eb2 Er2]|[[Eb2 Er2]|
                   [[Eb2 Er2]|[Eb2 Er2]]]]]]];
    lra.
Qed.

(** X22.  The coverage analysis never raises, and a longer timeout never
    gives a worse report: the expected success rate does not decrease, a
    report without warning stays without warning, and the warning that the
    timeout is too short can only disappear. *)
Theorem coverage_monotone (t1 t2 : Q) :
  t1 <= t2 ->
  exists report1 report2,
    Coverage.display_for_timeout t1 = inr report1
    /\ Coverage.display_for_timeout t2 = inr report2
    /\ (forall a, Coverage.expected_success report1 = Some a ->
          exists b, Coverage.expected_success report2 = Some b /\ a <= b)
    /\ (Coverage.warning report1 = None -> Coverage.warning report2 = None)
    /\ (Coverage.warning report2 = Some Coverage.TimeoutTooShort ->
        Coverage.warning report1 = Some Coverage.TimeoutTooShort).
Proof.
  intros Hle. unfold Coverage.display_for_timeout.
  destruct (find_coverage_spec t1)
    as [[Hlt1 Hf1] | (l1 & b1 & r1 & Hb1 & Hr1 & Ht1 & Hf1)];
    destruct (find_coverage_spec t2)
      as [[Hlt2 Hf2] | (l2 & b2 & r2 & Hb2 & Hr2 & Ht2 & Hf2)];
    rewrite Hf1, Hf2; try rewrite Ht1; try rewrite Ht2;
    cbn [Coverage.truthy].
  - eexists. eexists. split; [reflexivity|]. split; [reflexivity|].
    cbn [Coverage.expected_success Coverage.warning].
    split; [discriminate|]. split; [discriminate|]. intros _. reflexivity.
  - eexists. eexists. split; [reflexivity|]. split; [reflexivity|].
    cbn [Coverage.expected_success Coverage.warning].
    split; [discriminate|]. split; [discriminate|].
    destruct (Qlt_bool r2 95); discriminate.
  - exfalso. destruct Hb1 as (Hin1 & Hb1 & _). cbn [snd] in Hb1.
    destruct (table_rates_ordered l1 b1 r1 l1 b1 r1 Hin1 Hin1 Hr1 Hr1
                (Qle_refl _)) as [H48 _].
    lra.
  - destruct Hb1 as (Hin1 & Hle1 & _). destruct Hb2 as (Hin2 & Hle2 & Hmax2).
    cbn [snd] in *.
    assert (Hb : b1 <= b2) by (apply (Hmax2 (l1, b1) Hin1); cbn [snd]; lra).
    destruct (table_rates_ordered l1 b1 r1 l2 b2 r2 Hin1 Hin2 Hr1 Hr2 Hb)
      as [_ Hr].
    eexists. eexists. split; [reflexivity|]. split; [reflexivity|].
    cbn [Coverage.expected_success Coverage.warning].
    split.
    { intros a Ha. inversion Ha; subst a. exists r2.
      split; [reflexivity | exact Hr]. }
    split.
    { destruct (Qlt_bool_spec r1 95); [discriminate|].
      destruct (Qlt_bool_spec r2 95); [exfalso; lra | reflexivity]. }
    destruct (Qlt_bool r2 95); discriminate.
Qed.

Lemma coverage_monotone_witness :
  exists report1 report2,
    Coverage.display_for_timeout 180 = inr report1
    /\ Coverage.display_for_timeout 600 = inr report2
    /\ (forall a, Coverage.expected_success report1 = Some a ->
          exists b, Coverage.expected_success report2 = Some b /\ a <= b).
Proof.
  destruct (coverage_monotone 180 600 ltac:(discriminate))
    as (r1 & r2 & H1 & H2 & H3 & _).
  exists r1, r2. split; [exact H1|]. split; [exact H2 | exact H3].
Defined.
